(** * Airline sentiment dashboard: the data pipelines of [app.py]

    A shallow embedding of the Streamlit script [src/app.py]: the loader,
    the date and hour filters, the group-by/count aggregations, the time
    bucketing, the word-cloud set-up, the CSV export and the avatar fetch,
    together with the render pass that runs them top to bottom.

    Conventions.
    - A Python [str] of the table is a Rocq [string]; its bytes are the
      UTF-8 form of the text, so [.encode('utf-8')] is the list of those
      bytes.  Where the code works on the characters of a text (the regular
      expression, [str.lower] and [str.isdigit] of the word cloud), the text
      is the list of its code points (module [Unicode]).
    - Python integers are [Z]; [//] and [%] are [Z.div] and [Z.modulo].
    - A pandas Series is a [list]; a DataFrame is a record of its column
      names and its rows.
    - Calls into Streamlit are recorded, in order, as a list of [element]s;
      an exception that leaves the script is a result of the render pass.
    - The libraries the script calls (pandas, requests, wordcloud, PIL,
      Streamlit) are modelled by what the called functions do, the
      exceptions they raise included; the tables of the Unicode database,
      the floating-point and drawing parts of the word cloud and the image
      decoder are parameters.
    - Long display texts of the page are shortened to plain ASCII. *)

From Stdlib Require Import ZArith List String Ascii Bool Lia Permutation Sorted.
Import ListNotations.
Open Scope string_scope.
Open Scope list_scope.
Open Scope Z_scope.

(** ** Calendar dates and timestamps *)

Module Calendar.

(** [datetime.date(year, month, day)]. *)
Record date := mkdate { year : Z; month : Z; day : Z }.

(** A [pandas.Timestamp] as the fields its [.dt] accessor exposes, in wall
    clock time of the column's (single) UTC offset. *)
Record Timestamp := mkts {
  ts_year : Z; ts_month : Z; ts_day : Z;
  hour : Z; minute : Z; second : Z }.

(** [Series.dt.date]: the date-only truncation. *)
Definition dt_date (t : Timestamp) : date :=
  mkdate (ts_year t) (ts_month t) (ts_day t).

(** [Series.dt.hour]. *)
Definition dt_hour (t : Timestamp) : Z := hour t.

(** Lexicographic comparison of two tuples, the way Python compares the
    fields of [date] and [datetime] objects. *)
Definition lex (c : comparison) (rest : comparison) : comparison :=
  match c with Eq => rest | _ => c end.

Definition date_compare (a b : date) : comparison :=
  lex (year a ?= year b) (lex (month a ?= month b) (day a ?= day b)).

Definition date_leb (a b : date) : bool :=
  match date_compare a b with Gt => false | _ => true end.

(** Chronological order of two timestamps. *)
Definition ts_compare (a b : Timestamp) : comparison :=
  lex (date_compare (dt_date a) (dt_date b))
      (lex (hour a ?= hour b) (lex (minute a ?= minute b) (second a ?= second b))).

(** The proleptic Gregorian calendar of [datetime.py]. *)
Definition is_leap (y : Z) : bool :=
  (y mod 4 =? 0) && (negb (y mod 100 =? 0) || (y mod 400 =? 0)).

Definition DAYS_IN_MONTH (m : Z) : Z :=
  match m with
  | 1 => 31 | 2 => 28 | 3 => 31 | 4 => 30 | 5 => 31 | 6 => 30
  | 7 => 31 | 8 => 31 | 9 => 30 | 10 => 31 | 11 => 30 | 12 => 31
  | _ => -1
  end.

Definition DAYS_BEFORE_MONTH (m : Z) : Z :=
  match m with
  | 1 => 0 | 2 => 31 | 3 => 59 | 4 => 90 | 5 => 120 | 6 => 151
  | 7 => 181 | 8 => 212 | 9 => 243 | 10 => 273 | 11 => 304 | 12 => 334
  | _ => -1
  end.

Definition days_before_year (y : Z) : Z :=
  let y' := y - 1 in y' * 365 + y' / 4 - y' / 100 + y' / 400.

Definition days_in_month (y m : Z) : Z :=
  if (m =? 2) && is_leap y then 29 else DAYS_IN_MONTH m.

Definition days_before_month (y m : Z) : Z :=
  DAYS_BEFORE_MONTH m + (if (2 <? m) && is_leap y then 1 else 0).

(** [date.toordinal()]: 0001-01-01 is day 1. *)
Definition toordinal (d : date) : Z :=
  days_before_year (year d) + days_before_month (year d) (month d) + day d.

(** [date.weekday()]: Monday is 0, Sunday is 6. *)
Definition weekday (d : date) : Z := (toordinal d + 6) mod 7.

Definition valid_date (d : date) : Prop :=
  1 <= month d <= 12 /\ 1 <= day d <= days_in_month (year d) (month d).

(** Nanosecond timestamps of pandas lie between 1677-09-21 and 2262-04-11. *)
Definition valid_timestamp (t : Timestamp) : Prop :=
  valid_date (dt_date t) /\ 1677 <= ts_year t <= 2262 /\
  0 <= hour t <= 23 /\ 0 <= minute t <= 59 /\ 0 <= second t <= 59.

(** The calendar day before and the calendar day after. *)
Definition prev_day (d : date) : date :=
  if 1 <? day d then mkdate (year d) (month d) (day d - 1)
  else if 1 <? month d
       then mkdate (year d) (month d - 1) (days_in_month (year d) (month d - 1))
       else mkdate (year d - 1) 12 31.

Definition next_day (d : date) : date :=
  if day d <? days_in_month (year d) (month d)
  then mkdate (year d) (month d) (day d + 1)
  else if month d <? 12 then mkdate (year d) (month d + 1) 1
       else mkdate (year d + 1) 1 1.

(** [Period(freq='W-SUN')]: the week runs from Monday to Sunday. *)
Definition week_start (d : date) : date :=
  Nat.iter (Z.to_nat (weekday d)) prev_day d.

Definition week_end (d : date) : date :=
  Nat.iter (Z.to_nat (6 - weekday d)) next_day d.

(** Decimal digits and zero-padded fields ([%02d], and [%Y] on four-digit
    years). *)
Definition digit (n : Z) : ascii := ascii_of_nat (48 + Z.to_nat n).

Definition pad2 (n : Z) : string :=
  String (digit (n / 10)) (String (digit (n mod 10)) EmptyString).

Definition pad4 (n : Z) : string :=
  String (digit (n / 1000)) (String (digit (n / 100 mod 10)) (pad2 (n mod 100))).

(** [date.isoformat()], also [str] of a date: YYYY-MM-DD. *)
Definition isoformat (d : date) : string :=
  (pad4 (year d) ++ "-" ++ pad2 (month d) ++ "-" ++ pad2 (day d))%string.

(** [str(Period(t, 'W'))]: start and end day of the week, joined by a
    slash, e.g. 2015-02-16/2015-02-22. *)
Definition week_label (d : date) : string :=
  (isoformat (week_start d) ++ "/" ++ isoformat (week_end d))%string.

End Calendar.

(** ** Strings *)

Module Str.

(** [sep.join(parts)]. *)
Fixpoint join (sep : string) (parts : list string) : string :=
  match parts with
  | [] => EmptyString
  | [p] => p
  | p :: ps => (p ++ sep ++ join sep ps)%string
  end.

(** [c in s] for a single character [c]. *)
Fixpoint contains (c : ascii) (s : string) : bool :=
  match s with
  | EmptyString => false
  | String x s' => Ascii.eqb x c || contains c s'
  end.

(** [s in l] for a list or set of strings. *)
Fixpoint mem (s : string) (l : list string) : bool :=
  match l with
  | [] => false
  | x :: l' => String.eqb x s || mem s l'
  end.

(** [str(n)] for an integer. *)
Fixpoint digits_of (fuel : nat) (n : Z) (acc : string) : string :=
  match fuel with
  | O => acc
  | S fuel' =>
      let acc' := String (Calendar.digit (n mod 10)) acc in
      if n <? 10 then acc' else digits_of fuel' (n / 10) acc'
  end.

Definition of_int (n : Z) : string :=
  if n <? 0 then String "-"%char (digits_of (S (Z.to_nat (- n))) (- n) EmptyString)
  else digits_of (S (Z.to_nat n)) n EmptyString.

(** [s.encode('utf-8')]. *)
Definition encode_utf8 (s : string) : list Byte.byte := list_byte_of_string s.

End Str.

(** ** Code points: the characters of a Python [str] *)

Module Unicode.

(** [ord(c)] of a character, and a text as the list of its characters. *)
Definition codepoint := Z.
Definition ustring := list codepoint.

Fixpoint eqb (a b : ustring) : bool :=
  match a, b with
  | [], [] => true
  | x :: a', y :: b' => (x =? y) && eqb a' b'
  | _, _ => false
  end.

(** [s in l] for a list or set of texts. *)
Fixpoint mem (s : ustring) (l : list ustring) : bool :=
  match l with
  | [] => false
  | x :: l' => eqb x s || mem s l'
  end.

(** *** UTF-8 *)

Definition byte_val (c : ascii) : Z := Z.of_N (N_of_ascii c).
Definition chr (n : Z) : ascii := ascii_of_N (Z.to_N n).

(** U+FFFD, which stands for a byte that is not part of a character. *)
Definition REPLACEMENT : codepoint := 65533.

(** A continuation byte, 10xxxxxx. *)
Definition is_cont (b : Z) : bool := (128 <=? b) && (b <? 192).

(** The first byte of a character: the character itself (ASCII), or the
    number of continuation bytes that follow and the bits read so far. *)
Definition lead (b : Z) : option codepoint * nat * Z :=
  if b <? 128 then (Some b, O, 0)
  else if b <? 192 then (Some REPLACEMENT, O, 0)
  else if b <? 224 then (None, 1%nat, b - 192)
  else if b <? 240 then (None, 2%nat, b - 224)
  else if b <? 248 then (None, 3%nat, b - 240)
  else (Some REPLACEMENT, O, 0).

Definition emit (c : option codepoint) (rest : ustring) : ustring :=
  match c with Some x => x :: rest | None => rest end.

(** The characters of a text given by its UTF-8 bytes; [pending] is the
    number of continuation bytes still to come and [acc] the bits read so
    far.  The texts of the table are well-formed (pandas has decoded the
    file); a byte out of place gives U+FFFD. *)
Fixpoint decode_from (pending : nat) (acc : Z) (s : string) : ustring :=
  match s with
  | EmptyString => match pending with O => [] | S _ => [REPLACEMENT] end
  | String c s' =>
      let b := byte_val c in
      match pending with
      | O =>
          let '(out, p, a) := lead b in emit out (decode_from p a s')
      | S n =>
          if is_cont b then
            let acc' := acc * 64 + (b - 128) in
            match n with
            | O => acc' :: decode_from O 0 s'
            | S _ => decode_from n acc' s'
            end
          else
            let '(out, p, a) := lead b in
            REPLACEMENT :: emit out (decode_from p a s')
      end
  end.

Definition decode_utf8 (s : string) : ustring := decode_from O 0 s.

(** The UTF-8 bytes of one character and of a text. *)
Definition encode_char (c : codepoint) : string :=
  if c <? 128 then String (chr c) EmptyString
  else if c <? 2048 then
    String (chr (192 + c / 64)) (String (chr (128 + c mod 64)) EmptyString)
  else if c <? 65536 then
    String (chr (224 + c / 4096))
      (String (chr (128 + c / 64 mod 64))
         (String (chr (128 + c mod 64)) EmptyString))
  else
    String (chr (240 + c / 262144))
      (String (chr (128 + c / 4096 mod 64))
         (String (chr (128 + c / 64 mod 64))
            (String (chr (128 + c mod 64)) EmptyString))).

Fixpoint encode_utf8 (s : ustring) : string :=
  match s with
  | [] => EmptyString
  | c :: s' => (encode_char c ++ encode_utf8 s')%string
  end.

(** *** Character properties

    What the interpreter knows about a character comes from the Unicode
    character database.  For the ASCII characters the answers are written
    out below; for the others they are the tables of the database, a
    parameter of the development. *)

Record Database := mkDatabase {
  alnum : codepoint -> bool;             (* letter or number: [str.isalnum] *)
  digit : codepoint -> bool;             (* digit: [str.isdigit] *)
  lowercase : codepoint -> ustring;      (* full lower-case mapping, 1 to 3 characters *)
  cased : codepoint -> bool;             (* property Cased *)
  case_ignorable : codepoint -> bool }.  (* property Case_Ignorable *)

Definition is_ascii (c : codepoint) : bool := c <? 128.

Definition ascii_digit (c : codepoint) : bool := (48 <=? c) && (c <=? 57).
Definition ascii_upper (c : codepoint) : bool := (65 <=? c) && (c <=? 90).
Definition ascii_lower (c : codepoint) : bool := (97 <=? c) && (c <=? 122).
Definition ascii_tolower (c : codepoint) : codepoint :=
  if ascii_upper c then c + 32 else c.

Section Tables.
Variable db : Database.

(** [c.isalnum()], [c.isdigit()] and the lower-case form of one
    character. *)
Definition isalnum (c : codepoint) : bool :=
  if is_ascii c then ascii_digit c || ascii_upper c || ascii_lower c
  else alnum db c.

Definition isdigit_char (c : codepoint) : bool :=
  if is_ascii c then ascii_digit c else digit db c.

Definition tolower (c : codepoint) : ustring :=
  if is_ascii c then [ascii_tolower c] else lowercase db c.

(** [s.isdigit()]: not empty and only digits. *)
Definition isdigit (s : ustring) : bool :=
  match s with
  | [] => false
  | _ => forallb isdigit_char s
  end.

(** Greek capital sigma, the one character whose lower-case form depends
    on its neighbours, and its two lower-case forms. *)
Definition CAPITAL_SIGMA : codepoint := 931.
Definition FINAL_SIGMA : codepoint := 962.
Definition SMALL_SIGMA : codepoint := 963.

Fixpoint skip_ignorable (l : ustring) : ustring :=
  match l with
  | [] => []
  | c :: l' => if case_ignorable db c then skip_ignorable l' else l
  end.

(** The sigma is final when a cased letter comes before it and none comes
    after it, characters that case ignores being skipped on both sides;
    [before] holds the characters in front of it, nearest first. *)
Definition handle_capital_sigma (before after : ustring) : codepoint :=
  let preceded := match skip_ignorable before with
                  | c :: _ => cased db c
                  | [] => false
                  end in
  let followed := match skip_ignorable after with
                  | c :: _ => cased db c
                  | [] => false
                  end in
  if preceded && negb followed then FINAL_SIGMA else SMALL_SIGMA.

(** [s.lower()], character by character. *)
Fixpoint do_lower (before : ustring) (s : ustring) : ustring :=
  match s with
  | [] => []
  | c :: rest =>
      (if c =? CAPITAL_SIGMA then [handle_capital_sigma before rest]
       else tolower c)
      ++ do_lower (c :: before) rest
  end.

Definition lower (s : ustring) : ustring := do_lower [] s.

End Tables.

(** [s.endswith(suffix)], [s[:-1]] is [removelast]. *)
Definition endswith (suffix s : ustring) : bool :=
  let n := List.length s in
  let k := List.length suffix in
  (k <=? n)%nat && eqb (skipn (n - k) s) suffix.

End Unicode.

(** ** Sequences: the list operations behind the pandas calls *)

Module Seq.

Section Generic.
Context {A : Type}.

(** Number of elements that satisfy [p], as a Python integer. *)
Fixpoint count (p : A -> bool) (l : list A) : Z :=
  match l with
  | [] => 0
  | x :: l' => (if p x then 1 else 0) + count p l'
  end.

(** Distinct values in order of first appearance ([Series.unique], the keys
    of a hash table filled from left to right). *)
Fixpoint unique (eqb : A -> A -> bool) (l : list A) : list A :=
  match l with
  | [] => []
  | x :: l' => x :: filter (fun y => negb (eqb x y)) (unique eqb l')
  end.

(** Stable insertion sort for the order [leb]. *)
Fixpoint insert (leb : A -> A -> bool) (x : A) (l : list A) : list A :=
  match l with
  | [] => [x]
  | y :: l' => if leb x y then x :: l else y :: insert leb x l'
  end.

Fixpoint sort (leb : A -> A -> bool) (l : list A) : list A :=
  match l with
  | [] => []
  | x :: l' => insert leb x (sort leb l')
  end.

(** Boolean indexing: the elements whose mask entry is [True].  The masks
    of the script are computed from the indexed frame itself, so the two
    lengths agree; on a shorter mask the remaining elements are left out. *)
Fixpoint select (l : list A) (mask : list bool) : list A :=
  match l, mask with
  | x :: l', b :: mask' => if b then x :: select l' mask' else select l' mask'
  | _, _ => []
  end.

End Generic.

(** Sum of a column of counts. *)
Definition sum (l : list Z) : Z := fold_right Z.add 0 l.

(** Element-wise [&] of two boolean Series. *)
Definition mask_and (a b : list bool) : list bool :=
  map (fun p => fst p && snd p) (combine a b).

End Seq.

(** ** The table: rows of Tweets.csv with the derived columns *)

Module Pandas.
Import Calendar.

(** A value of the [time] column: the bucket label of a row. *)
Inductive label :=
| LHour (h : Z)        (* [.dt.hour] *)
| LDate (d : date)     (* [.dt.date] *)
| LWeek (s : string).  (* [.dt.to_period('W').astype(str)] *)

(** One record of Tweets.csv after [pd.to_datetime] has parsed
    [tweet_created].  The script reads four columns by name; the cells of
    the remaining columns (the identifier, the coordinates, ...) are
    carried along under their column names, each as the text [to_csv]
    writes for it: the empty text for a missing value, the digits of a
    number.  [utc_offset] is the offset of a timezone-aware [tweet_created]
    column as it is printed after the time (-08:00, say), the same for
    every row, and empty for a column without time zone. *)
Record Tweet := mkTweet {
  airline_sentiment : string;
  airline : string;
  text : string;
  tweet_created : Timestamp;
  utc_offset : string;
  other : list (string * string) }.

(** A row of the frame: its index label, the loaded cells, and the derived
    columns [date] (set by [load_data]) and [time] (absent until the
    Overview tab assigns it). *)
Record Row := mkRow {
  index : Z;
  tweet : Tweet;
  date : Calendar.date;
  time : option label }.

(** A DataFrame: the column names in order, and the rows in order. *)
Record DataFrame := mkDF { columns : list string; rows : list Row }.

(** The parsed file: header and records. *)
Record CsvFile := mkCsv { header : list string; records : list Tweet }.

(** [len(df)]. *)
Definition len (df : DataFrame) : Z := Z.of_nat (List.length (rows df)).

(** Column names after [df[name] = ...]: a new column goes last, an
    existing one keeps its place. *)
Definition add_column (name : string) (cols : list string) : list string :=
  if Str.mem name cols then cols else cols ++ [name].

(** Rows of a fresh frame: a RangeIndex from [i], the records, and the
    values of the [date] column. *)
Fixpoint build_rows (i : Z) (recs : list Tweet) (dates : list Calendar.date)
  : list Row :=
  match recs, dates with
  | t :: recs', d :: dates' => mkRow i t d None :: build_rows (i + 1) recs' dates'
  | _, _ => []
  end.

(** Column access: [df['date']], [df['tweet_created']],
    [df['airline_sentiment']], [df['airline']], [df['text']]. *)
Definition col_date (df : DataFrame) : list Calendar.date := map date (rows df).
Definition col_tweet_created (df : DataFrame) : list Timestamp :=
  map (fun r => tweet_created (tweet r)) (rows df).
Definition col_airline_sentiment (df : DataFrame) : list string :=
  map (fun r => airline_sentiment (tweet r)) (rows df).
Definition col_airline (df : DataFrame) : list string :=
  map (fun r => airline (tweet r)) (rows df).
Definition col_text (df : DataFrame) : list string :=
  map (fun r => text (tweet r)) (rows df).

(** Comparison of a Series with a scalar: [s >= x], [s <= x], [s == x]. *)
Definition ge_date (s : list Calendar.date) (x : Calendar.date) : list bool :=
  map (fun v => date_leb x v) s.
Definition le_date (s : list Calendar.date) (x : Calendar.date) : list bool :=
  map (fun v => date_leb v x) s.
Definition ge_int (s : list Z) (x : Z) : list bool := map (fun v => x <=? v) s.
Definition le_int (s : list Z) (x : Z) : list bool := map (fun v => v <=? x) s.
Definition eq_str (s : list string) (x : string) : list bool :=
  map (fun v => String.eqb v x) s.

(** [df[mask]]: the rows whose mask entry is true, all columns kept. *)
Definition getitem_mask (df : DataFrame) (mask : list bool) : DataFrame :=
  mkDF (columns df) (Seq.select (rows df) mask).

(** [df[[c1, ..., cn]]]: the frame restricted to the listed columns. *)
Definition getitem_columns (df : DataFrame) (cols : list string) : DataFrame :=
  mkDF cols (rows df).

(** [df['time'] = values]: sets the cell of every row and adds the column
    name.  The values of the script are computed from [df] itself, so there
    is one per row. *)
Fixpoint assign_time (rs : list Row) (values : list label) : list Row :=
  match rs, values with
  | r :: rs', v :: values' =>
      mkRow (index r) (tweet r) (date r) (Some v) :: assign_time rs' values'
  | _, _ => rs
  end.

Definition setitem_time (df : DataFrame) (values : list label) : DataFrame :=
  mkDF (add_column "time" (columns df)) (assign_time (rows df) values).

(** Order of bucket labels: integers, dates and strings each by their own
    order; a column holds labels of one kind only. *)
Definition label_rank (l : label) : Z :=
  match l with LHour _ => 0 | LDate _ => 1 | LWeek _ => 2 end.

Definition label_compare (a b : label) : comparison :=
  match a, b with
  | LHour x, LHour y => x ?= y
  | LDate x, LDate y => date_compare x y
  | LWeek x, LWeek y => String.compare x y
  | _, _ => label_rank a ?= label_rank b
  end.

Definition key_compare (a b : label * string) : comparison :=
  lex (label_compare (fst a) (fst b)) (String.compare (snd a) (snd b)).

Definition key_leb (a b : label * string) : bool :=
  match key_compare a b with Gt => false | _ => true end.

Definition key_eqb (a b : label * string) : bool :=
  match key_compare a b with Eq => true | _ => false end.

(** [Series.value_counts()]: one entry per distinct value, most frequent
    first. *)
Definition value_counts (s : list string) : list (string * Z) :=
  Seq.sort (fun a b => snd b <=? snd a)
    (map (fun k => (k, Seq.count (String.eqb k) s)) (Seq.unique String.eqb s)).

(** The keys of [df.groupby(['time', 'airline_sentiment'])], one per row;
    a row without a [time] value has no key (pandas drops missing keys). *)
Definition group_keys (df : DataFrame) : list (label * string) :=
  flat_map (fun r => match time r with
                     | Some l => [(l, airline_sentiment (tweet r))]
                     | None => []
                     end) (rows df).

(** [df.groupby(['time', 'airline_sentiment']).size().reset_index(name='count')]:
    one row per observed key, keys in ascending order. *)
Definition groupby_size (df : DataFrame) : list ((label * string) * Z) :=
  let keys := group_keys df in
  map (fun k => (k, Seq.count (key_eqb k) keys))
      (Seq.sort key_leb (Seq.unique key_eqb keys)).

End Pandas.

(** ** The date picker of the sidebar (lines 35-42) *)

Module Picker.
Import Calendar Pandas.

Definition date_min (a b : Calendar.date) : Calendar.date :=
  if date_leb a b then a else b.

Definition date_max (a b : Calendar.date) : Calendar.date :=
  if date_leb a b then b else a.

(** [Series.min()] and [Series.max()] of a column of dates; an empty column
    has neither (pandas answers NaN). *)
Definition series_min (s : list Calendar.date) : option Calendar.date :=
  match s with
  | [] => None
  | x :: s' => Some (fold_left date_min s' x)
  end.

Definition series_max (s : list Calendar.date) : option Calendar.date :=
  match s with
  | [] => None
  | x :: s' => Some (fold_left date_max s' x)
  end.

(** Lines 35-36. *)
Definition min_date (data : DataFrame) : option Calendar.date :=
  series_min (col_date data).

Definition max_date (data : DataFrame) : option Calendar.date :=
  series_max (col_date data).

End Picker.

(** ** Delimited text output: [DataFrame.to_csv(index=False)] *)

Module Csv.
Import Calendar Pandas.

Definition comma : ascii := ","%char.
Definition dquote : ascii := "034"%char.
Definition newline : ascii := "010"%char.

(** Every quote character is written twice inside a quoted field. *)
Fixpoint escape (s : string) : string :=
  match s with
  | EmptyString => EmptyString
  | String c s' =>
      if Ascii.eqb c dquote then String dquote (String dquote (escape s'))
      else String c (escape s')
  end.

(** Minimal quoting: a field is quoted when it holds the delimiter, the
    quote character or a character of the line terminator, which is the
    line feed of [os.linesep].  (From Python 3.13 on a carriage return is
    quoted as well.) *)
Definition needs_quotes (s : string) : bool :=
  Str.contains comma s || Str.contains dquote s || Str.contains newline s.

Definition field (s : string) : string :=
  if needs_quotes s
  then String dquote (escape s ++ String dquote EmptyString)
  else s.

(** One record: the fields joined by the delimiter, then the line
    terminator.  A record of one empty field is written as a pair of
    quotes, which tells it from an empty line. *)
Definition line (fields : list string) : string :=
  match fields with
  | [EmptyString] => String dquote (String dquote (String newline EmptyString))
  | _ => (Str.join (String comma EmptyString) (map field fields)
          ++ String newline EmptyString)%string
  end.

(** Text of a timestamp, followed by the UTC offset of its column, and of a
    bucket label. *)
Definition str_timestamp (t : Timestamp) (offset : string) : string :=
  (isoformat (dt_date t) ++ " " ++ pad2 (hour t) ++ ":" ++ pad2 (minute t)
   ++ ":" ++ pad2 (second t) ++ offset)%string.

Definition str_label (l : label) : string :=
  match l with
  | LHour h => Str.of_int h
  | LDate d => isoformat d
  | LWeek s => s
  end.

Fixpoint assoc (k : string) (l : list (string * string)) : option string :=
  match l with
  | [] => None
  | (k', v) :: l' => if String.eqb k' k then Some v else assoc k l'
  end.

(** The text of the cell of row [r] in column [c]; a missing value is
    written as the empty field. *)
Definition cell (r : Row) (c : string) : string :=
  if String.eqb c "date" then isoformat (date r)
  else if String.eqb c "time" then
    match time r with Some l => str_label l | None => EmptyString end
  else if String.eqb c "airline_sentiment" then airline_sentiment (tweet r)
  else if String.eqb c "airline" then airline (tweet r)
  else if String.eqb c "text" then text (tweet r)
  else if String.eqb c "tweet_created" then
    str_timestamp (tweet_created (tweet r)) (utc_offset (tweet r))
  else match assoc c (other (tweet r)) with
       | Some v => v
       | None => EmptyString
       end.

(** [df.to_csv(index=False)]: the header line, then one line per row. *)
Definition to_csv (df : DataFrame) : string :=
  String.concat EmptyString
    (line (columns df)
     :: map (fun r => line (map (cell r) (columns df))) (rows df)).

End Csv.

(** ** The HTTP client: [requests] *)

Module Requests.

Inductive kind := ConnectionError | Timeout | HTTPError | TooManyRedirects.

Record Response := mkResponse {
  status_code : Z;
  reason : string;
  content : list Byte.byte }.

(** What [requests.get(url)] does: it raises a [RequestException] of some
    kind with a message, or it returns a response. *)
Inductive outcome :=
| Raised (k : kind) (msg : string)
| Returned (r : Response).

(** [Response.raise_for_status()]: the message of the [HTTPError] it
    raises, for a status in 400..599; nothing for any other status. *)
Definition raise_for_status (url : string) (r : Response) : option string :=
  if (400 <=? status_code r) && (status_code r <? 500) then
    Some (Str.of_int (status_code r) ++ " Client Error: " ++ reason r
          ++ " for url: " ++ url)%string
  else if (500 <=? status_code r) && (status_code r <? 600) then
    Some (Str.of_int (status_code r) ++ " Server Error: " ++ reason r
          ++ " for url: " ++ url)%string
  else None.

End Requests.

(** ** Exceptions and results *)

Module Py.
Import Unicode.

Inductive exception :=
| ValueError (msg : string)
| KeyError (key : string)
| IndexError (msg : string)
| StreamlitAPIException (msg : string)
| ImageError (msg : string)   (* an error of PIL on image data *)
| RequestException (k : Requests.kind) (msg : string).

(** [isinstance(e, requests.exceptions.RequestException)].  The errors of
    PIL ([UnidentifiedImageError] and the other errors it raises on damaged
    image data) are no exceptions of [requests]. *)
Definition is_RequestException (e : exception) : bool :=
  match e with RequestException _ _ => true | _ => false end.

(** [str(e)]. *)
Definition str (e : exception) : string :=
  match e with
  | ValueError msg => msg
  | KeyError key => ("'" ++ key ++ "'")%string
  | IndexError msg => msg
  | StreamlitAPIException msg => msg
  | ImageError msg => msg
  | RequestException _ msg => msg
  end.

(** A call returns a value or raises. *)
Inductive result (A : Type) :=
| Ok (a : A)
| Raise (e : exception).
Arguments Ok {A} a.
Arguments Raise {A} e.

Definition bind {A B} (r : result A) (f : A -> result B) : result B :=
  match r with
  | Ok a => f a
  | Raise e => Raise e
  end.

(** Insertion-ordered dictionaries whose keys are texts. *)
Section Dict.
Context {V : Type}.

Fixpoint get (k : ustring) (d : list (ustring * V)) : option V :=
  match d with
  | [] => None
  | (k', v) :: d' => if Unicode.eqb k' k then Some v else get k d'
  end.

(** [d[k]], which raises [KeyError] on a missing key. *)
Definition getitem (k : ustring) (d : list (ustring * V)) : result V :=
  match get k d with
  | Some v => Ok v
  | None => Raise (KeyError (encode_utf8 k))
  end.

(** [d[k] = v]. *)
Fixpoint set (k : ustring) (v : V) (d : list (ustring * V))
  : list (ustring * V) :=
  match d with
  | [] => [(k, v)]
  | (k', v') :: d' =>
      if Unicode.eqb k' k then (k', v) :: d' else (k', v') :: set k v d'
  end.

(** [del d[k]]. *)
Fixpoint del (k : ustring) (d : list (ustring * V)) : list (ustring * V) :=
  match d with
  | [] => []
  | (k', v') :: d' => if Unicode.eqb k' k then d' else (k', v') :: del k d'
  end.

End Dict.

End Py.

Notation "x <- c1 ;; c2" := (Py.bind c1 (fun x => c2))
  (at level 61, c1 at next level, right associativity).

(** ** The word-cloud library: [wordcloud.WordCloud]

    The text processing of [WordCloud.generate] with the library's default
    settings (collocations and plural normalisation on, numbers left out, no
    minimum word length), on the characters of the text.  The floating-point
    collocation score and the placement of words on the canvas are taken as
    parameters. *)

Module WordCloud.
Import Py Unicode.

Definition counts := list (ustring * Z).

Definition apostrophe : codepoint := 39.
Definition space : codepoint := 32.
Definition underscore : codepoint := 95.
Definition letter_s : codepoint := 115.

Definition flush (cur : ustring) : list ustring :=
  match cur with [] => [] | _ => [cur] end.

(** [case_dict[word] = case_dict.get(word, 0) + n]. *)
Definition bump (word : ustring) (n : Z) (case_dict : counts) : counts :=
  set word (match get word case_dict with Some c => c | None => 0 end + n)
      case_dict.

(** The same on [d[word_lower]], where [d] is a [defaultdict(dict)]. *)
Definition bump_case (word_lower word : ustring) (n : Z)
    (d : list (ustring * counts)) : list (ustring * counts) :=
  set word_lower
      (bump word n (match get word_lower d with Some cd => cd | None => [] end))
      d.

(** [max(case_dict.items(), key=item1)[0]]: the first of the most frequent
    spellings. *)
Fixpoint max_item (best : ustring * Z) (items : counts) : ustring * Z :=
  match items with
  | [] => best
  | it :: items' => max_item (if snd best <? snd it then it else best) items'
  end.

Definition most_popular (case_dict : counts) : result ustring :=
  match case_dict with
  | [] => Raise (ValueError "max() arg is an empty sequence")
  | it :: items => Ok (fst (max_item it items))
  end.

(** [key.endswith('s') and not key.endswith("ss")]. *)
Definition is_plural (key : ustring) : bool :=
  endswith [letter_s] key && negb (endswith [letter_s; letter_s] key).

(** One turn of the loop that merges a plural into its singular. *)
Definition merge_plural
    (st : list (ustring * counts) * list (ustring * ustring)) (key : ustring)
  : list (ustring * counts) * list (ustring * ustring) :=
  let (d, merged_plurals) := st in
  if is_plural key then
    let key_singular := removelast key in
    match get key_singular d, get key d with
    | Some _, Some dict_plural =>
        let d' := fold_left
                    (fun d0 wc => bump_case key_singular (removelast (fst wc))
                                            (snd wc) d0)
                    dict_plural d in
        (del key d', set key key_singular merged_plurals)
    | _, _ => st
    end
  else st.

Fixpoint fuse (d : list (ustring * counts)) (fused_cases : counts)
    (standard_cases : list (ustring * ustring))
  : result (counts * list (ustring * ustring)) :=
  match d with
  | [] => Ok (fused_cases, standard_cases)
  | (word_lower, case_dict) :: d' =>
      first <- most_popular case_dict ;;
      fuse d' (set first (Seq.sum (map snd case_dict)) fused_cases)
              (set word_lower first standard_cases)
  end.

(** [s.split(" ")]. *)
Fixpoint split_space (s : ustring) (cur : ustring) : list ustring :=
  match s with
  | [] => [cur]
  | c :: rest =>
      if c =? space then cur :: split_space rest []
      else split_space rest (cur ++ [c])
  end.

(** [pairwise(words)]. *)
Definition pairwise (words : list ustring) : list (ustring * ustring) :=
  combine words (tl words).

(** [" ".join(bigram)]. *)
Definition join_bigram (p : ustring * ustring) : ustring :=
  fst p ++ [space] ++ snd p.

(** [l[:n]]; a negative [n] counts from the end. *)
Definition slice_to {A} (n : Z) (l : list A) : list A :=
  if n <? 0 then firstn (List.length l - Z.to_nat (- n)) l
  else firstn (Z.to_nat n) l.

(** The settings the script passes to the constructor. *)
Record config := mkConfig {
  stopwords : list string;
  max_words : Z;
  colormap : string;
  background_color : string;
  width : Z;
  height : Z }.

(** A generated cloud: the ranked words kept ([words_]) and the ones
    drawn ([layout_]). *)
Record cloud := mkCloud {
  settings : config;
  words_ : counts;
  layout_ : counts }.

Section Library.

(** The Unicode tables behind [\w], [str.lower] and [str.isdigit]. *)
Variable db : Database.

(** [score(count_bigram, count1, count2, n_words) > collocation_threshold],
    a floating-point log-likelihood test. *)
Variable is_collocation : Z -> Z -> Z -> Z -> bool.

(** How many of the ranked words the layout manages to draw before the font
    size falls under the minimum. *)
Variable drawn : counts -> nat.

(** Characters matched by [\w]: letters, numbers and the underscore. *)
Definition is_word_char (c : codepoint) : bool :=
  isalnum db c || (c =? underscore).

(** [re.findall(r"\w[\w']*", text)]; [cur] is the match being read. *)
Fixpoint findall (text : ustring) (cur : ustring) : list ustring :=
  match text with
  | [] => flush cur
  | c :: rest =>
      let inside := match cur with [] => false | _ => true end in
      if is_word_char c || (inside && (c =? apostrophe))
      then findall rest (cur ++ [c])
      else flush cur ++ findall rest []
  end.

(** [word[:-2] if word.lower().endswith("'s") else word]. *)
Definition strip_possessive (word : ustring) : ustring :=
  if endswith [apostrophe; letter_s] (lower db word)
  then removelast (removelast word)
  else word.

Fixpoint add_plurals (merged_plurals : list (ustring * ustring))
    (standard_cases : list (ustring * ustring))
  : result (list (ustring * ustring)) :=
  match merged_plurals with
  | [] => Ok standard_cases
  | (plural, singular) :: rest =>
      std <- getitem (lower db singular) standard_cases ;;
      add_plurals rest (set plural std standard_cases)
  end.

(** [process_tokens(words, normalize_plurals=True)]. *)
Definition process_tokens (words : list ustring)
  : result (counts * list (ustring * ustring)) :=
  let d := fold_left (fun d0 word => bump_case (lower db word) word 1 d0)
                     words [] in
  let (d1, merged_plurals) := fold_left merge_plural (map fst d) (d, []) in
  fs <- fuse d1 [] [] ;;
  standard_cases <- add_plurals merged_plurals (snd fs) ;;
  Ok (fst fs, standard_cases).

(** One turn of the loop over the bigram counts. *)
Definition add_collocation (standard_form : list (ustring * ustring))
    (orig_counts : counts) (n_words : Z) (counts_unigrams : counts)
    (item : ustring * Z) : result counts :=
  let (bigram_string, count) := item in
  match split_space bigram_string [] with
  | b0 :: b1 :: _ =>
      word1 <- getitem (lower db b0) standard_form ;;
      word2 <- getitem (lower db b1) standard_form ;;
      c1 <- getitem word1 orig_counts ;;
      c2 <- getitem word2 orig_counts ;;
      if is_collocation count c1 c2 n_words then
        u1 <- getitem word1 counts_unigrams ;;
        let cu1 := set word1 (u1 - count) counts_unigrams in
        u2 <- getitem word2 cu1 ;;
        let cu2 := set word2 (u2 - count) cu1 in
        Ok (set bigram_string count cu2)
      else Ok counts_unigrams
  | _ => Raise (IndexError "tuple index out of range")
  end.

Fixpoint add_collocations (standard_form : list (ustring * ustring))
    (orig_counts : counts) (n_words : Z) (counts_unigrams : counts)
    (items : counts) : result counts :=
  match items with
  | [] => Ok counts_unigrams
  | item :: items' =>
      cu <- add_collocation standard_form orig_counts n_words counts_unigrams item ;;
      add_collocations standard_form orig_counts n_words cu items'
  end.

(** [unigrams_and_bigrams(words, stopwords, normalize_plurals=True)]. *)
Definition unigrams_and_bigrams (words : list ustring)
    (stopwords : list ustring) : result counts :=
  let is_stop w := mem (lower db w) stopwords in
  let bigrams := filter (fun p => negb (is_stop (fst p) || is_stop (snd p)))
                        (pairwise words) in
  let unigrams := filter (fun w => negb (is_stop w)) words in
  let n_words := Z.of_nat (List.length unigrams) in
  us <- process_tokens unigrams ;;
  bs <- process_tokens (map join_bigram bigrams) ;;
  let orig_counts := fst us in
  cu <- add_collocations (snd us) orig_counts n_words (fst us) (fst bs) ;;
  Ok (filter (fun wc => negb (snd wc <=? 0)) cu).

(** [WordCloud.process_text(text)]. *)
Definition process_text (cfg : config) (text : string) : result counts :=
  let words := findall (decode_utf8 text) [] in
  let words := map strip_possessive words in
  let words := filter (fun word => negb (isdigit db word)) words in
  let stopwords := map (fun i => lower db (decode_utf8 i)) (stopwords cfg) in
  unigrams_and_bigrams words stopwords.

(** [WordCloud.generate_from_frequencies(frequencies)].  With two words or
    more the library first lays out the two most frequent ones to choose a
    font size, and raises when not even the first of them finds room. *)
Definition generate_from_frequencies (cfg : config) (frequencies : counts)
  : result cloud :=
  let frequencies := Seq.sort (fun a b => snd b <=? snd a) frequencies in
  if (List.length frequencies <=? 0)%nat then
    Raise (ValueError "We need at least 1 word to plot a word cloud, got 0.")
  else
    let frequencies := slice_to (max_words cfg) frequencies in
    match frequencies with
    | [] => Raise (IndexError "list index out of range")
    | [_] => Ok (mkCloud cfg frequencies (firstn (drawn frequencies) frequencies))
    | _ =>
        if (drawn frequencies =? 0)%nat then
          Raise (ValueError "Couldn't find space to draw. Either the Canvas size is too small or too much of the image is masked out.")
        else Ok (mkCloud cfg frequencies (firstn (drawn frequencies) frequencies))
    end.

(** [WordCloud(...).generate(text)]. *)
Definition generate (cfg : config) (text : string) : result cloud :=
  words <- process_text cfg text ;;
  generate_from_frequencies cfg words.

End Library.

End WordCloud.

(** ** Streamlit: what a run of the script shows *)

Module Streamlit.
Import Calendar Py Pandas.

Inductive container := main | sidebar.

(** Chart descriptions handed to [st.plotly_chart]. *)
Inductive figure :=
| Bar (table : list (string * Z))
| Pie (table : list (string * Z))
| Line (table : list ((label * string) * Z))
| Subplots (titles : list string) (traces : list (string * list (string * Z))).

(** The elements a run puts on the page.  Input widgets put nothing here:
    their current values are the [Widgets] record below. *)
Inductive element :=
| Title (c : container) (s : string)
| Header (c : container) (s : string)
| Subheader (c : container) (s : string)
| Markdown (c : container) (s : string)
| Info (c : container) (s : string)
| Error (c : container) (msg : string)
| Warning (c : container) (msg : string)
| PlotlyChart (fig : figure)
| Map (df : DataFrame)
| Dataframe (df : DataFrame)
| Pyplot (wc : WordCloud.cloud)
| DownloadButton (c : container) (label : string) (data : list Byte.byte)
                 (file_name : string) (mime : string)
| Image (c : container) (image : list Byte.byte) (caption : string).

(** A run of a piece of the script: the elements it has shown, and the
    value it returns or the exception that leaves it. *)
Definition M (A : Type) : Type := (list element * result A)%type.

Definition ret {A} (a : A) : M A := ([], Ok a).

Definition bindM {A B} (m : M A) (f : A -> M B) : M B :=
  match m with
  | (out, Ok a) => let (out', r) := f a in (out ++ out', r)
  | (out, Raise e) => (out, Raise e)
  end.

Definition show (e : element) : M unit := ([e], Ok tt).

Definition lift {A} (r : result A) : M A := ([], r).

(** [try: body / except <class> as e: handler(e)]. *)
Definition try_except {A} (body : M A) (catches : exception -> bool)
    (handler : exception -> M A) : M A :=
  match body with
  | (out, Raise e) =>
      if catches e then let (out', r) := handler e in (out ++ out', r)
      else (out, Raise e)
  | (out, Ok a) => (out, Ok a)
  end.

(** The values of the input widgets in one run. *)
Record Widgets := mkWidgets {
  selected_dates : list Calendar.date;   (* st.sidebar.date_input *)
  viz_type : string;                     (* 'Bar plot' or 'Pie chart' *)
  time_agg : string;                     (* 'Hourly', 'Daily' or 'Weekly' *)
  hour_range : Z * Z;                    (* st.slider 0..23 *)
  show_preview : bool;                   (* st.checkbox *)
  selected_airlines : list string;       (* st.multiselect *)
  word_sentiment : string;               (* 'positive', 'neutral', 'negative' *)
  max_words : Z;                         (* st.slider 50..300 *)
  colormap : string;
  download_clicked : bool }.             (* st.sidebar.button *)

(** [st.multiselect(label, options, default)]: every default value must be
    one of the options; the widget then returns the current selection. *)
Definition multiselect (options default selection : list string)
  : M (list string) :=
  if forallb (fun v => Str.mem v options) default then ret selection
  else lift (Raise (StreamlitAPIException
                      "Every Multiselect default value must exist in options")).

(** [st.date_input(label, value, min_value, max_value)]: the default value
    and the two bounds must be dates ([None] stands for the NaN that pandas
    answers for the smallest or largest value of an empty column); the
    widget then returns the current selection.  The message is the one of
    the check of the lower bound. *)
Definition date_input (value : list (option Calendar.date))
    (min_value max_value : option Calendar.date)
    (selection : list Calendar.date) : M (list Calendar.date) :=
  let is_date v := match v with Some _ => true | None => false end in
  if forallb is_date (min_value :: max_value :: value) then ret selection
  else lift (Raise (StreamlitAPIException
                      "DateInput min should either be a date/datetime or None")).

(** The column names [st.map] looks for, in sorted order. *)
Definition DEFAULT_LAT_COL_NAMES : list string :=
  ["LAT"; "LATITUDE"; "lat"; "latitude"].
Definition DEFAULT_LON_COL_NAMES : list string :=
  ["LON"; "LONGITUDE"; "lon"; "longitude"].

(** [repr] of a plain name. *)
Definition quoted (name : string) : string := ("'" ++ name ++ "'")%string.

(** [_get_lat_or_lon_col_name]: the first of the default names that is a
    column of the frame; there must be one, and its column must not hold a
    missing value.  (The library keeps the names in a set and lists them
    sorted in its message; they are tried here in that order.) *)
Definition get_lat_or_lon_col_name (data : DataFrame)
    (human_readable_name : string) (default_col_names : list string)
  : result string :=
  match find (fun c => Str.mem c (columns data)) default_col_names with
  | None =>
      Raise (StreamlitAPIException
               ("Map data must contain a " ++ human_readable_name
                ++ " column named: "
                ++ Str.join ", " (map quoted default_col_names)
                ++ ". Existing columns: "
                ++ Str.join ", " (map quoted (columns data))))
  | Some col_name =>
      if existsb (fun r => String.eqb (Csv.cell r col_name) EmptyString)
                 (rows data)
      then Raise (StreamlitAPIException
                    ("Column " ++ col_name ++ " is not allowed to contain "
                     ++ "null values, such as NaN, NaT, or None."))
      else Ok col_name
  end.

(** [st.map(data)]: an empty frame gives the default map; any other frame
    needs a latitude and a longitude column without missing values.  The
    coordinates of Tweets.csv are numbers, so nothing else can fail. *)
Definition st_map (data : DataFrame) : M unit :=
  match rows data with
  | [] => show (Map data)
  | _ :: _ =>
      bindM (lift (get_lat_or_lon_col_name data "latitude"
                     DEFAULT_LAT_COL_NAMES)) (fun _ =>
      bindM (lift (get_lat_or_lon_col_name data "longitude"
                     DEFAULT_LON_COL_NAMES)) (fun _ =>
      show (Map data)))
  end.

(** [st.image(image, caption)] on bytes: PIL opens the bytes to find the
    format of the image and to convert it, and raises when it cannot
    ("cannot identify image file ..." on bytes that are no image).
    [image_error] gives the message of that error, and nothing for an image
    PIL reads. *)
Definition image (c : container) (image_error : list Byte.byte -> option string)
    (data : list Byte.byte) (caption : string) : M unit :=
  match image_error data with
  | None => show (Image c data caption)
  | Some msg => lift (Raise (ImageError msg))
  end.

End Streamlit.

Notation "x <~ c1 ;; c2" := (Streamlit.bindM c1 (fun x => c2))
  (at level 61, c1 at next level, right associativity).
Notation "c1 ;;; c2" := (Streamlit.bindM c1 (fun _ => c2))
  (at level 61, right associativity).

(** ** The script [app.py] *)

Module App.
Import Calendar Pandas Py Streamlit.

Section Script.

(** [wordcloud.STOPWORDS], the library's stopword list. *)
Variable STOPWORDS : list string.

(** The collocation test and the layout of the word-cloud library. *)
Variable is_collocation : Z -> Z -> Z -> Z -> bool.
Variable drawn : WordCloud.counts -> nat.

(** [plt.savefig(buf, format='png')]: the bytes of the rendered figure. *)
Variable savefig : WordCloud.cloud -> list Byte.byte.

(** The Unicode tables of the interpreter, used by the word cloud. *)
Variable db : Unicode.Database.

(** The error PIL raises on a sequence of bytes, if any. *)
Variable image_error : list Byte.byte -> option string.

(** [load_data()], lines 22-29, from the parsed file on: the frame read
    from Tweets.csv with the [date] column derived from [tweet_created]. *)
Definition load_data (csv : CsvFile) : DataFrame :=
  let created := map tweet_created (records csv) in
  let dates := map dt_date created in
  mkDF (add_column "date" (header csv)) (build_rows 0 (records csv) dates).

(** Lines 44-48: the date-range filter of the sidebar. *)
Definition date_range_filter (selected_dates : list Calendar.date)
    (data : DataFrame) : M DataFrame :=
  match selected_dates with
  | [d0; d1] =>
      ret (getitem_mask data
             (Seq.mask_and (ge_date (col_date data) d0)
                           (le_date (col_date data) d1)))
  | _ =>
      show (Error sidebar "Please select a date range") ;;;
      ret data
  end.

(** Lines 80-85: the values assigned to [data['time']]. *)
Definition time_values (time_agg : string) (data : DataFrame) : list label :=
  if String.eqb time_agg "Hourly" then
    map (fun t => LHour (dt_hour t)) (col_tweet_created data)
  else if String.eqb time_agg "Daily" then
    map (fun t => LDate (dt_date t)) (col_tweet_created data)
  else
    map (fun t => LWeek (week_label (dt_date t))) (col_tweet_created data).

(** The bucket label of one timestamp under a granularity. *)
Definition bucket (time_agg : string) (t : Timestamp) : label :=
  if String.eqb time_agg "Hourly" then LHour (dt_hour t)
  else if String.eqb time_agg "Daily" then LDate (dt_date t)
  else LWeek (week_label (dt_date t)).

(** Lines 54-92: the Overview tab.  It assigns [data['time']], so it
    returns the frame the later tabs see. *)
Definition overview (w : Widgets) (data : DataFrame) : M DataFrame :=
  show (Header main "General Statistics") ;;;
  show (Subheader main "Tweet Sentiment Distribution") ;;;
  let sentiment_count := value_counts (col_airline_sentiment data) in
  (if String.eqb (viz_type w) "Bar plot"
   then show (PlotlyChart (Bar sentiment_count))
   else show (PlotlyChart (Pie sentiment_count))) ;;;
  show (Subheader main "Sentiment Over Time") ;;;
  let data := setitem_time data (time_values (time_agg w) data) in
  let time_series := groupby_size data in
  show (PlotlyChart (Line time_series)) ;;;
  ret data.

(** Lines 99-103: the hour-range filter. *)
Definition hour_range_filter (hour_range : Z * Z) (data : DataFrame)
  : DataFrame :=
  getitem_mask data
    (Seq.mask_and
       (ge_int (map dt_hour (col_tweet_created data)) (fst hour_range))
       (le_int (map dt_hour (col_tweet_created data)) (snd hour_range))).

Definition preview_columns : list string :=
  ["text"; "airline"; "airline_sentiment"; "tweet_created"].

(** Lines 95-110: the Geospatial tab. *)
Definition geospatial (w : Widgets) (data : DataFrame) : M unit :=
  show (Header main "Geospatial Analysis") ;;;
  let filtered_data := hour_range_filter (hour_range w) data in
  show (Subheader main
          ("Tweet Locations (" ++ Str.of_int (fst (hour_range w)) ++ ":00 - "
           ++ Str.of_int (snd (hour_range w)) ++ ":00)")%string) ;;;
  show (Markdown main
          ("**" ++ Str.of_int (len filtered_data) ++ " tweets found**")%string) ;;;
  st_map filtered_data ;;;
  if show_preview w
  then show (Dataframe (getitem_columns filtered_data preview_columns))
  else ret tt.

(** Lines 129-140: the trace of one airline. *)
Definition airline_trace (data : DataFrame) (airline : string)
  : string * list (string * Z) :=
  let airline_data := getitem_mask data (eq_str (col_airline data) airline) in
  let counts := value_counts (col_airline_sentiment airline_data) in
  (airline, counts).

(** Lines 113-145: the Airlines Analysis tab. *)
Definition airlines_analysis (w : Widgets) (data : DataFrame) : M unit :=
  show (Header main "Airline-specific Analysis") ;;;
  show (Subheader main "Airline Performance Comparison") ;;;
  selected <~ multiselect (Seq.unique String.eqb (col_airline data))
                          ["United"; "American"; "Delta"]
                          (selected_airlines w) ;;
  match selected with
  | _ :: _ =>
      show (PlotlyChart (Subplots selected (map (airline_trace data) selected)))
  | [] => show (Warning main "Please select at least one airline")
  end.

(** [stopwords.update(custom_stopwords)] on a set. *)
Definition set_update (s : list string) (xs : list string) : list string :=
  fold_left (fun acc x => if Str.mem x acc then acc else acc ++ [x]) xs s.

Definition custom_stopwords : list string := ["http"; "https"; "co"; "RT"].

(** Lines 177-184: the settings of the word cloud. *)
Definition wordcloud_config (w : Widgets) : WordCloud.config :=
  let stopwords := set_update STOPWORDS custom_stopwords in
  WordCloud.mkConfig stopwords (max_words w) (colormap w) "white" 800 400.

(** Lines 148-199: the Text Analysis tab. *)
Definition text_analysis (w : Widgets) (data : DataFrame) : M unit :=
  show (Header main "Textual Analysis") ;;;
  show (Subheader main "Word Cloud Settings") ;;;
  show (Subheader main "Generated Word Cloud") ;;;
  if negb (String.eqb (word_sentiment w) EmptyString) then
    let df := getitem_mask data
                (eq_str (col_airline_sentiment data) (word_sentiment w)) in
    let text := Str.join " " (col_text df) in
    wordcloud <~ lift (WordCloud.generate db is_collocation drawn
                         (wordcloud_config w) text) ;;
    show (Pyplot wordcloud) ;;;
    show (DownloadButton main "Download Word Cloud" (savefig wordcloud)
            (word_sentiment w ++ "_wordcloud.png")%string "image/png")
  else ret tt.

(** Lines 202-211: the CSV export of the sidebar. *)
Definition data_export (w : Widgets) (data : DataFrame) : M unit :=
  show (Markdown sidebar "---") ;;;
  show (Header sidebar "Data Export") ;;;
  if download_clicked w then
    let csv := Str.encode_utf8 (Csv.to_csv data) in
    show (DownloadButton sidebar "Download CSV" csv "airline_tweets.csv"
            "text/csv")
  else ret tt.

Definition image_url : string :=
  "https://avatars.githubusercontent.com/u/97449931?v=4".

(** [requests.get(image_url)] and [response.raise_for_status()]. *)
Definition requests_get (http : Requests.outcome) : result Requests.Response :=
  match http with
  | Requests.Raised k msg => Raise (RequestException k msg)
  | Requests.Returned r => Ok r
  end.

Definition raise_for_status (r : Requests.Response) : result unit :=
  match Requests.raise_for_status image_url r with
  | Some msg => Raise (RequestException Requests.HTTPError msg)
  | None => Ok tt
  end.

(** Lines 216-223: the avatar of the sidebar. *)
Definition avatar (http : Requests.outcome) : M unit :=
  try_except
    (response <~ lift (requests_get http) ;;
     lift (raise_for_status response) ;;;
     let image := Requests.content response in
     Streamlit.image sidebar image_error image "Moon Benjee")
    is_RequestException
    (fun e => show (Error sidebar ("Error loading image: " ++ str e)%string)).

(** Lines 213-238: the end of the sidebar. *)
Definition about (http : Requests.outcome) : M unit :=
  show (Markdown sidebar "---") ;;;
  show (Subheader sidebar "About the Author") ;;;
  avatar http ;;;
  show (Markdown sidebar "This app was Built by Benjee.") ;;;
  show (Info sidebar "Dashboard Features").

(** Lines 50-238: everything after the date filter, on the frame [data]. *)
Definition panels (w : Widgets) (http : Requests.outcome) (data : DataFrame)
  : M unit :=
  data <~ overview w data ;;
  geospatial w data ;;;
  airlines_analysis w data ;;;
  text_analysis w data ;;;
  data_export w data ;;;
  about http.

Definition intro : M unit :=
  show (Title main "Sentiment Analysis of US Airlines Tweets Dashboard") ;;;
  show (Title sidebar "Navigation & Filters") ;;;
  show (Markdown main "### Interactive Tweet Analysis Dashboard") ;;;
  show (Markdown sidebar "Filter data and configure visualizations:").

(** Lines 12-238 in a run in which the date picker has returned the
    selection [selected_dates w]. *)
Definition script (w : Widgets) (csv : CsvFile) (http : Requests.outcome)
  : M unit :=
  intro ;;;
  let data := load_data csv in
  data <~ date_range_filter (selected_dates w) data ;;
  panels w http data.

(** One run of the script, top to bottom.  Lines 35-42 hand the smallest
    and the largest date of the table to the date picker, as its default
    value and as its bounds; a table without rows has neither and the
    picker raises. *)
Definition render_pass (w : Widgets) (csv : CsvFile) (http : Requests.outcome)
  : M unit :=
  intro ;;;
  let data := load_data csv in
  let min_date := Picker.min_date data in
  let max_date := Picker.max_date data in
  selected_dates <~ date_input [min_date; max_date] min_date max_date
                               (selected_dates w) ;;
  data <~ date_range_filter selected_dates data ;;
  panels w http data.

End Script.

End App.

(** ** Vocabulary of the properties *)

Module Props.
Import Calendar Pandas.

(** Order of dates and of timestamps, as propositions. *)
Definition date_le (a b : Calendar.date) : Prop := date_compare a b <> Gt.
Definition ts_le (a b : Timestamp) : Prop := ts_compare a b <> Gt.
Definition label_le (a b : label) : Prop := label_compare a b <> Gt.

(** The date a row derives from its timestamp, and its hour. *)
Definition derived_date (r : Row) : Calendar.date :=
  dt_date (tweet_created (tweet r)).
Definition row_hour (r : Row) : Z := dt_hour (tweet_created (tweet r)).

(** The [date] column holds the derived date of every row. *)
Definition date_derived (data : DataFrame) : Prop :=
  forall r, In r (rows data) -> date r = derived_date r.

(** Membership in an inclusive range. *)
Definition in_date_range (lo hi d : Calendar.date) : Prop :=
  date_le lo d /\ date_le d hi.
Definition in_date_rangeb (lo hi d : Calendar.date) : bool :=
  date_leb lo d && date_leb d hi.
Definition in_hour_rangeb (lo hi h : Z) : bool := (lo <=? h) && (h <=? hi).

End Props.

(** ** Vocabulary of the render pass *)

Module PassProps.
Import Calendar Pandas Py Streamlit App.

(** The table after the date filter of the sidebar. *)
Definition filtered_table (w : Widgets) (csv : CsvFile) : DataFrame :=
  match snd (date_range_filter (selected_dates w) (load_data csv)) with
  | Ok data => data
  | Raise _ => load_data csv
  end.

(** The table the tabs after the Overview share: the filtered table with
    the [time] column the Overview assigned. *)
Definition shared_table (w : Widgets) (csv : CsvFile) : DataFrame :=
  setitem_time (filtered_table w csv)
               (time_values (time_agg w) (filtered_table w csv)).

(** A run shows a chart. *)
Definition renders_chart (out : list element) : Prop :=
  exists fig, In (PlotlyChart fig) out.

(** A run shows an error or a warning message. *)
Definition shows_notice (out : list element) : Prop :=
  exists c msg, In (Error c msg) out \/ In (Warning c msg) out.

(** The fetch did not end with a 2xx response. *)
Definition fetch_failed (http : Requests.outcome) : Prop :=
  match http with
  | Requests.Raised _ _ => True
  | Requests.Returned r => ~ (200 <= Requests.status_code r < 300)
  end.

(** The fetch ended with an exception of [requests]: one raised by the GET,
    or the [HTTPError] of a 4xx or 5xx status. *)
Definition fetch_raised (http : Requests.outcome) : Prop :=
  match http with
  | Requests.Raised _ _ => True
  | Requests.Returned r => 400 <= Requests.status_code r < 600
  end.

(** The text of that exception. *)
Definition failure_cause (http : Requests.outcome) : string :=
  match http with
  | Requests.Raised _ msg => msg
  | Requests.Returned r =>
      match Requests.raise_for_status image_url r with
      | Some msg => msg
      | None => EmptyString
      end
  end.

(** [prefix p s]: the string [s] starts with [p]. *)
Definition starts_with (p s : string) : Prop := exists rest, s = (p ++ rest)%string.

End PassProps.

(** ** Sample inputs *)

Module Samples.
Import Calendar Pandas Streamlit App.

Definition sample_header : list string :=
  ["tweet_id"; "airline_sentiment"; "airline"; "text"; "tweet_created";
   "latitude"; "longitude"].

Definition sample_tweet (id sentiment airline text : string) (t : Timestamp)
  : Tweet :=
  mkTweet sentiment airline text t "-08:00"
          [("tweet_id", id); ("latitude", "35.88"); ("longitude", "-84.05")].

(** Three tweets, dated 2015-02-20 to 2015-02-22. *)
Definition sample_csv : CsvFile :=
  mkCsv sample_header
    [ sample_tweet "1" "positive" "United"
        "RT great flight, thanks http://t.co/x" (mkts 2015 2 20 23 10 0);
      sample_tweet "2" "negative" "American"
        "late flights again" (mkts 2015 2 21 1 5 30);
      sample_tweet "3" "negative" "Delta"
        "lost my bag" (mkts 2015 2 22 9 0 0) ].

(** The same file without any positive tweet. *)
Definition negative_csv : CsvFile :=
  mkCsv sample_header
    [ sample_tweet "1" "negative" "United"
        "never again" (mkts 2015 2 20 23 10 0);
      sample_tweet "2" "negative" "American"
        "late flights again" (mkts 2015 2 21 1 5 30);
      sample_tweet "3" "negative" "Delta"
        "lost my bag" (mkts 2015 2 22 9 0 0) ].

(** The same tweets in a file without coordinate columns. *)
Definition plain_csv : CsvFile :=
  mkCsv ["tweet_id"; "airline_sentiment"; "airline"; "text"; "tweet_created"]
        (records sample_csv).

(** A file with tweets on 2015-02-20 and 2015-02-22 and none in between. *)
Definition gap_csv : CsvFile :=
  mkCsv sample_header
    [ sample_tweet "1" "positive" "United"
        "great flight" (mkts 2015 2 20 23 10 0);
      sample_tweet "3" "negative" "Delta"
        "lost my bag" (mkts 2015 2 22 9 0 0) ].

(** Four tweets, the last one dated 2015-02-24. *)
Definition week_csv : CsvFile :=
  mkCsv sample_header
    (records sample_csv
     ++ [ sample_tweet "4" "neutral" "United"
            "on time, for once" (mkts 2015 2 24 7 45 0) ]).

(** A file with a header and no record. *)
Definition empty_csv : CsvFile := mkCsv sample_header [].

(** A well-formed selection of the whole period. *)
Definition sample_widgets : Widgets :=
  mkWidgets [mkdate 2015 2 20; mkdate 2015 2 22] "Bar plot" "Weekly" (0, 23)
            true ["United"; "Delta"] "positive" 150 "viridis" true.

(** A selection in progress: the user has picked the first day only. *)
Definition one_date_widgets : Widgets :=
  mkWidgets [mkdate 2015 2 20] "Bar plot" "Hourly" (0, 23)
            true ["United"; "Delta"] "positive" 150 "viridis" true.

(** The day without tweets of [gap_csv]. *)
Definition gap_widgets : Widgets :=
  mkWidgets [mkdate 2015 2 21; mkdate 2015 2 21] "Bar plot" "Daily" (0, 23)
            true ["United"; "Delta"] "positive" 150 "viridis" true.

Definition sample_stopwords : list string :=
  ["the"; "a"; "my"; "again"; "is"; "it"].

Definition never_collocation (c12 c1 c2 n : Z) : bool := false.
Definition draw_all (words : WordCloud.counts) : nat := List.length words.
Definition no_png (wc : WordCloud.cloud) : list Byte.byte := [].

(** Tables that know no letter, digit or case outside ASCII. *)
Definition ascii_db : Unicode.Database :=
  Unicode.mkDatabase (fun _ => false) (fun _ => false) (fun c => [c])
                     (fun _ => false) (fun _ => false).

(** A PNG image of one pixel. *)
Definition pixel_png : list Byte.byte :=
  [ Byte.x89; Byte.x50; Byte.x4e; Byte.x47; Byte.x0d; Byte.x0a; Byte.x1a;
    Byte.x0a; Byte.x00; Byte.x00; Byte.x00; Byte.x0d; Byte.x49; Byte.x48;
    Byte.x44; Byte.x52; Byte.x00; Byte.x00; Byte.x00; Byte.x01; Byte.x00;
    Byte.x00; Byte.x00; Byte.x01; Byte.x08; Byte.x00; Byte.x00; Byte.x00;
    Byte.x00; Byte.x3a; Byte.x7e; Byte.x9b; Byte.x55; Byte.x00; Byte.x00;
    Byte.x00; Byte.x0a; Byte.x49; Byte.x44; Byte.x41; Byte.x54; Byte.x78;
    Byte.xda; Byte.x63; Byte.xf8; Byte.x0f; Byte.x00; Byte.x01; Byte.x01;
    Byte.x01; Byte.x00; Byte.x1c; Byte.xb0; Byte.x8c; Byte.x99; Byte.x00;
    Byte.x00; Byte.x00; Byte.x00; Byte.x49; Byte.x45; Byte.x4e; Byte.x44;
    Byte.xae; Byte.x42; Byte.x60; Byte.x82 ].

(** An image decoder that knows the signature of PNG files. *)
Definition png_only (data : list Byte.byte) : option string :=
  match data with
  | Byte.x89 :: Byte.x50 :: Byte.x4e :: Byte.x47 :: Byte.x0d :: Byte.x0a
    :: Byte.x1a :: Byte.x0a :: _ => None
  | _ => Some "cannot identify image file"
  end.

(** A run of the script with these library parameters. *)
Definition sample_run (w : Widgets) (csv : CsvFile) (http : Requests.outcome)
  : M unit :=
  script sample_stopwords never_collocation draw_all no_png ascii_db
         png_only w csv http.

Definition sample_pass (w : Widgets) (csv : CsvFile) (http : Requests.outcome)
  : M unit :=
  render_pass sample_stopwords never_collocation draw_all no_png ascii_db
              png_only w csv http.

Definition ok_response : Requests.outcome :=
  Requests.Returned (Requests.mkResponse 200 "OK" pixel_png).

(** A response that is neither a success nor a client or server error. *)
Definition multiple_choices : Requests.outcome :=
  Requests.Returned (Requests.mkResponse 300 "Multiple Choices" []).

Definition sample_text : string := "RT great flight, thanks http://t.co/x".

(** The cloud of [sample_text] under the settings of [sample_widgets]. *)
Definition sample_cloud : WordCloud.cloud :=
  WordCloud.mkCloud
    (wordcloud_config sample_stopwords sample_widgets)
    (map (fun word => (Unicode.decode_utf8 word, 1))
         ["great"; "flight"; "thanks"; "t"; "x"])
    (map (fun word => (Unicode.decode_utf8 word, 1))
         ["great"; "flight"; "thanks"; "t"; "x"]).

Definition not_found : Requests.outcome :=
  Requests.Returned (Requests.mkResponse 404 "Not Found" []).

Definition unreachable : Requests.outcome :=
  Requests.Raised Requests.ConnectionError "Max retries exceeded".

End Samples.

(** ** Vocabulary of the word cloud *)

Module CloudProps.
Import Unicode.

Section Origin.
Variable db : Database.

(** The words handed to [process_tokens]. *)
Variable words : list ustring.

(** Where a spelling filed under a lower-case key comes from: it is one of
    the words, and the key is its lower-case form; or it is one of the
    words without its last character, the lower-case form of that word is
    a plural, and the key is that plural without its final s. *)
Definition origin (key w : ustring) : Prop :=
  (In w words /\ lower db w = key) \/
  (exists v, In v words /\ w = removelast v /\
             WordCloud.is_plural (lower db v) = true /\
             key = removelast (lower db v)).

(** The table of spellings of [process_tokens] is in order: every key is
    the lower-case form of one of the words, and every spelling filed under
    a key has its origin there. *)
Definition table_ok (d : list (ustring * WordCloud.counts)) : Prop :=
  forall key cd, In (key, cd) d ->
    (exists w0, In w0 words /\ lower db w0 = key) /\
    forall w c, In (w, c) cd -> origin key w.

End Origin.

(** A text of ASCII characters. *)
Definition all_ascii (s : ustring) : Prop :=
  forall c, In c s -> is_ascii c = true.

(** The lower-case form of one character between the characters [before]
    it (nearest first) and [after] it. *)
Definition lower_at (db : Database) (before : ustring) (c : codepoint)
    (after : ustring) : ustring :=
  if c =? CAPITAL_SIGMA then [handle_capital_sigma db before after]
  else tolower db c.

(** The words of a cloud. *)
Definition entries (words : WordCloud.counts) : list ustring := map fst words.

(** A text of ASCII characters without a blank. *)
Definition ascii_word (s : string) : Prop :=
  forall c, In c (list_ascii_of_string s) ->
    byte_val c < 128 /\ byte_val c <> WordCloud.space.

(** No character outside ASCII has a lower-case form that ends with the
    letter s, and none has an empty one.  This holds of the Unicode
    character database. *)
Definition lower_s_only_from_s (db : Database) : Prop :=
  forall c, is_ascii c = false ->
    lowercase db c <> [] /\
    List.last (lowercase db c) 0 <> WordCloud.letter_s.

End CloudProps.

(** ** Vocabulary of the further properties *)

Module MoreProps.
Import Calendar Pandas Py Streamlit App.

(** A table of counts is ranked: no entry has a larger count than the one
    before it. *)
Definition descending {K : Type} (table : list (K * Z)) : Prop :=
  Sorted (fun a b => snd b <= snd a) table.

(** The rows of a group-by result come in ascending key order. *)
Definition ascending_keys (table : list ((label * string) * Z)) : Prop :=
  Sorted (fun a b => key_leb (fst a) (fst b) = true) table.

(** The default airlines of the comparison (line 121). *)
Definition default_airlines : list string := ["United"; "American"; "Delta"].

(** Every default airline has a tweet in the table. *)
Definition defaults_present (data : DataFrame) : Prop :=
  forall v, In v default_airlines -> In v (col_airline data).

(** The rows of a sentiment class, and of an airline. *)
Definition class_rows (sentiment : string) (data : DataFrame) : list Row :=
  filter (fun r => String.eqb (airline_sentiment (tweet r)) sentiment) (rows data).

Definition airline_rows (name : string) (data : DataFrame) : list Row :=
  filter (fun r => String.eqb (airline (tweet r)) name) (rows data).

(** The text the word cloud of a class is made from (line 170). *)
Definition class_text (sentiment : string) (data : DataFrame) : string :=
  Str.join " " (map (fun r => text (tweet r)) (class_rows sentiment data)).

(** The words of a text after the possessive endings and the numbers are
    taken out, before the stopwords are. *)
Definition cloud_words (db : Unicode.Database) (text : string)
  : list Unicode.ustring :=
  filter (fun word => negb (Unicode.isdigit db word))
    (map (WordCloud.strip_possessive db)
         (WordCloud.findall db (Unicode.decode_utf8 text) [])).

(** A word is a stopword whatever its case. *)
Definition is_stopword (db : Unicode.Database) (stops : list string)
    (word : Unicode.ustring) : Prop :=
  In (Unicode.lower db word)
     (map (fun s => Unicode.lower db (Unicode.decode_utf8 s)) stops).

(** The exception of [st.multiselect] on a default that is no option. *)
Definition multiselect_error : exception :=
  StreamlitAPIException "Every Multiselect default value must exist in options".

(** The exception of [st.date_input] on a bound that is no date. *)
Definition date_input_error : exception :=
  StreamlitAPIException "DateInput min should either be a date/datetime or None".

(** The exception of the word cloud on a text without words. *)
Definition no_words_error : exception :=
  ValueError "We need at least 1 word to plot a word cloud, got 0.".

End MoreProps.

(** ** Reading delimited text *)

Module Delimited.
Import Pandas.

(** Where the reader is: at the start of a record, at the start of a field,
    inside a plain field, inside a quoted field, or just after a quote seen
    inside a quoted field. *)
Inductive state :=
| StartRecord | StartField | InField | InQuotedField | QuoteInQuotedField.

Definition snoc (s : string) (c : ascii) : string :=
  (s ++ String c EmptyString)%string.

(** The records of a delimited text.  Fields are separated by commas and
    records are ended by line feeds; a field may be enclosed in quotes,
    inside which a comma or a line feed is part of the field and a quote is
    written twice.  An empty line is a record without fields.  [field] and
    [record] hold what has been read of the current field and record. *)
Fixpoint read (st : state) (field : string) (record : list string)
    (text : string) : list (list string) :=
  match text with
  | EmptyString =>
      match st with
      | StartRecord => []
      | _ => [record ++ [field]]
      end
  | String c rest =>
      match st with
      | StartRecord =>
          if Ascii.eqb c Csv.newline then [] :: read StartRecord EmptyString [] rest
          else if Ascii.eqb c Csv.comma
          then read StartField EmptyString (record ++ [EmptyString]) rest
          else if Ascii.eqb c Csv.dquote
          then read InQuotedField EmptyString record rest
          else read InField (String c EmptyString) record rest
      | StartField =>
          if Ascii.eqb c Csv.newline
          then (record ++ [EmptyString]) :: read StartRecord EmptyString [] rest
          else if Ascii.eqb c Csv.comma
          then read StartField EmptyString (record ++ [EmptyString]) rest
          else if Ascii.eqb c Csv.dquote
          then read InQuotedField EmptyString record rest
          else read InField (String c EmptyString) record rest
      | InField =>
          if Ascii.eqb c Csv.newline
          then (record ++ [field]) :: read StartRecord EmptyString [] rest
          else if Ascii.eqb c Csv.comma
          then read StartField EmptyString (record ++ [field]) rest
          else read InField (snoc field c) record rest
      | InQuotedField =>
          if Ascii.eqb c Csv.dquote
          then read QuoteInQuotedField field record rest
          else read InQuotedField (snoc field c) record rest
      | QuoteInQuotedField =>
          if Ascii.eqb c Csv.dquote
          then read InQuotedField (snoc field c) record rest
          else if Ascii.eqb c Csv.newline
          then (record ++ [field]) :: read StartRecord EmptyString [] rest
          else if Ascii.eqb c Csv.comma
          then read StartField EmptyString (record ++ [field]) rest
          else read InField (snoc field c) record rest
      end
  end.

(** A character that needs no quoting. *)
Definition plain_char (c : ascii) : Prop :=
  Ascii.eqb c Csv.comma = false /\ Ascii.eqb c Csv.dquote = false /\
  Ascii.eqb c Csv.newline = false.

Definition records_of (text : string) : list (list string) :=
  read StartRecord EmptyString [] text.

(** The text a sequence of bytes stands for. *)
Definition decode (data : list Byte.byte) : string := string_of_list_byte data.

(** A table as a reader of its export should find it: the column names,
    then the cells of every row, in order. *)
Definition table (data : DataFrame) : list (list string) :=
  columns data :: map (fun r => map (Csv.cell r) (columns data)) (rows data).

End Delimited.

(** * Properties *)

Import Calendar Pandas Py Streamlit App.

(** ** Lists, masks and counts *)

Section SeqFacts.
Context {A : Type}.

Lemma select_map_mask (p : A -> bool) (l : list A) :
  Seq.select l (map p l) = filter p l.
Proof.
  induction l as [|x l IH]; simpl; [reflexivity|].
  rewrite IH. reflexivity.
Qed.

Lemma mask_and_map (p q : A -> bool) (l : list A) :
  Seq.mask_and (map p l) (map q l) = map (fun x => p x && q x) l.
Proof.
  unfold Seq.mask_and.
  induction l as [|x l IH]; simpl; [reflexivity|].
  f_equal. exact IH.
Qed.

Lemma insert_perm (leb : A -> A -> bool) (x : A) (l : list A) :
  Permutation (x :: l) (Seq.insert leb x l).
Proof.
  induction l as [|y l IH]; simpl; [apply Permutation_refl|].
  destruct (leb x y); [apply Permutation_refl|].
  eapply Permutation_trans; [apply perm_swap|].
  apply perm_skip. exact IH.
Qed.

Lemma sort_perm (leb : A -> A -> bool) (l : list A) :
  Permutation l (Seq.sort leb l).
Proof.
  induction l as [|x l IH]; simpl; [apply perm_nil|].
  eapply Permutation_trans; [|apply insert_perm].
  apply perm_skip. exact IH.
Qed.

End SeqFacts.

Lemma sum_perm (l l' : list Z) : Permutation l l' -> Seq.sum l = Seq.sum l'.
Proof.
  unfold Seq.sum.
  induction 1; simpl; lia.
Qed.

(** Counting the occurrences of each distinct value counts every element
    once. *)
Section UniqueCounts.
Context {A : Type} (eqb : A -> A -> bool).
Hypothesis eqb_eq : forall a b, eqb a b = true <-> a = b.

Lemma eqb_refl' (a : A) : eqb a a = true.
Proof. apply eqb_eq. reflexivity. Qed.

Lemma eqb_sym' (a b : A) : eqb a b = eqb b a.
Proof.
  destruct (eqb a b) eqn:E1, (eqb b a) eqn:E2; try reflexivity.
  - apply eqb_eq in E1. subst. rewrite eqb_refl' in E2. discriminate.
  - apply eqb_eq in E2. subst. rewrite eqb_refl' in E1. discriminate.
Qed.

Lemma filter_filter_comm (p q : A -> bool) (l : list A) :
  filter p (filter q l) = filter q (filter p l).
Proof.
  induction l as [|x l IH]; simpl; [reflexivity|].
  destruct (p x) eqn:P, (q x) eqn:Q; simpl; rewrite ?P, ?Q, IH; reflexivity.
Qed.

Lemma filter_eq_neq (x : A) (l : list A) :
  filter (eqb x) (filter (fun y => negb (eqb x y)) l) = [].
Proof.
  induction l as [|y l IH]; simpl; [reflexivity|].
  destruct (eqb x y) eqn:E; simpl; rewrite ?E; exact IH.
Qed.

Lemma filter_eq_unique (x : A) (l : list A) :
  filter (eqb x) (Seq.unique eqb l) = if existsb (eqb x) l then [x] else [].
Proof.
  induction l as [|y l IH]; simpl; [reflexivity|].
  destruct (eqb x y) eqn:E; simpl.
  - apply eqb_eq in E. subst y. rewrite filter_eq_neq. reflexivity.
  - rewrite filter_filter_comm, IH.
    destruct (existsb (eqb x) l); simpl; [|reflexivity].
    rewrite eqb_sym', E. reflexivity.
Qed.

Lemma sum_filter_split (f : A -> Z) (p : A -> bool) (l : list A) :
  Seq.sum (map f l) =
  Seq.sum (map f (filter p l)) + Seq.sum (map f (filter (fun y => negb (p y)) l)).
Proof.
  unfold Seq.sum.
  induction l as [|x l IH]; simpl; [reflexivity|].
  destruct (p x); simpl; lia.
Qed.

Lemma count_existsb_false (x : A) (l : list A) :
  existsb (eqb x) l = false -> Seq.count (eqb x) l = 0.
Proof.
  induction l as [|y l IH]; simpl; [reflexivity|].
  destruct (eqb x y); simpl; [discriminate|]. intros H. rewrite IH by exact H. lia.
Qed.

Lemma sum_map_ext_in (f g : A -> Z) (l : list A) :
  (forall k, In k l -> f k = g k) -> Seq.sum (map f l) = Seq.sum (map g l).
Proof.
  intros H. rewrite (map_ext_in f g l H). reflexivity.
Qed.

Lemma sum_counts_unique (l : list A) :
  Seq.sum (map (fun k => Seq.count (eqb k) l) (Seq.unique eqb l))
  = Z.of_nat (List.length l).
Proof.
  induction l as [|x l IH]; [reflexivity|].
  change (Seq.unique eqb (x :: l))
    with (x :: filter (fun y => negb (eqb x y)) (Seq.unique eqb l)).
  rewrite map_cons. change (Seq.sum (?a :: ?r)) with (a + Seq.sum r).
  rewrite (sum_map_ext_in (fun k => Seq.count (eqb k) (x :: l))
                          (fun k => Seq.count (eqb k) l)).
  2:{ intros k Hk. apply filter_In in Hk. destruct Hk as [_ Hk].
      simpl. rewrite eqb_sym'. destruct (eqb x k); [discriminate|]. lia. }
  rewrite (sum_filter_split (fun k => Seq.count (eqb k) l) (eqb x)) in IH.
  rewrite filter_eq_unique in IH.
  simpl Seq.count at 1. rewrite eqb_refl'.
  change (List.length (x :: l)) with (S (List.length l)).
  destruct (existsb (eqb x) l) eqn:E.
  - simpl map in IH. change (Seq.sum [?a]) with (a + 0) in IH. lia.
  - rewrite (count_existsb_false _ _ E).
    simpl map in IH. change (Seq.sum []) with 0 in IH. lia.
Qed.

End UniqueCounts.

Import Props.

(** ** Comparisons *)

Lemma date_compare_eq (a b : Calendar.date) : date_compare a b = Eq <-> a = b.
Proof.
  destruct a as [y m d], b as [y' m' d']. unfold date_compare, lex; simpl.
  split.
  - destruct (Z.compare_spec y y'); try discriminate.
    destruct (Z.compare_spec m m'); try discriminate.
    destruct (Z.compare_spec d d'); try discriminate.
    intros _. subst. reflexivity.
  - intros H. inversion H. subst. rewrite !Z.compare_refl. reflexivity.
Qed.

Lemma string_compare_refl (a : string) : String.compare a a = Eq.
Proof.
  induction a as [|c a IH]; simpl; [reflexivity|].
  unfold Ascii.compare. rewrite N.compare_refl. exact IH.
Qed.

Lemma string_compare_eq (a b : string) : String.compare a b = Eq <-> a = b.
Proof.
  split; [apply String.compare_eq_iff|].
  intros ->. apply string_compare_refl.
Qed.

Lemma label_compare_eq (a b : label) : label_compare a b = Eq <-> a = b.
Proof.
  destruct a as [x|x|x], b as [y|y|y]; simpl;
    try (split; intros E; discriminate E).
  - rewrite Z.compare_eq_iff. split; intros E; [subst|inversion E]; reflexivity.
  - rewrite date_compare_eq. split; intros E; [subst|inversion E]; reflexivity.
  - rewrite string_compare_eq. split; intros E; [subst|inversion E]; reflexivity.
Qed.

Lemma key_compare_eq (a b : label * string) : key_compare a b = Eq <-> a = b.
Proof.
  destruct a as [l s], b as [l' s']. unfold key_compare, lex; simpl.
  split.
  - destruct (label_compare l l') eqn:El; try discriminate.
    intros Es. apply label_compare_eq in El. apply string_compare_eq in Es.
    subst. reflexivity.
  - intros E. inversion E. subst.
    rewrite (proj2 (label_compare_eq l' l') eq_refl).
    apply string_compare_refl.
Qed.

Lemma key_eqb_eq (a b : label * string) : key_eqb a b = true <-> a = b.
Proof.
  rewrite <- key_compare_eq. unfold key_eqb.
  destruct (key_compare a b); split; intros E; try reflexivity; discriminate E.
Qed.

Lemma date_leb_le (a b : Calendar.date) : date_leb a b = true <-> date_le a b.
Proof.
  unfold date_leb, date_le.
  destruct (date_compare a b); split; intros H; try reflexivity;
    try discriminate; try congruence.
Qed.

Lemma in_date_rangeb_iff (lo hi d : Calendar.date) :
  in_date_rangeb lo hi d = true <-> in_date_range lo hi d.
Proof.
  unfold in_date_rangeb, in_date_range.
  rewrite andb_true_iff, !date_leb_le. reflexivity.
Qed.

(** ** The loader *)

Lemma build_rows_derived (recs : list Tweet) (i : Z) (r : Row) :
  In r (build_rows i recs (map dt_date (map tweet_created recs))) ->
  date r = derived_date r /\ time r = None.
Proof.
  revert i. induction recs as [|t recs IH]; simpl; intros i H; [contradiction|].
  destruct H as [<-|H]; [split; reflexivity|].
  eapply IH. exact H.
Qed.

Lemma load_data_date_derived (csv : CsvFile) : date_derived (load_data csv).
Proof.
  intros r H. unfold load_data in H. simpl in H.
  apply build_rows_derived in H. apply H.
Qed.

(** ** C1: the date-range filter *)

(** The mask of the date filter selects the rows whose derived date lies
    in the range. *)
Lemma date_mask_rows (data : DataFrame) (lo hi : Calendar.date) :
  date_derived data ->
  Seq.select (rows data)
    (Seq.mask_and (ge_date (col_date data) lo) (le_date (col_date data) hi))
  = filter (fun r => in_date_rangeb lo hi (derived_date r)) (rows data).
Proof.
  intros Hdate. unfold ge_date, le_date, col_date.
  rewrite !map_map, mask_and_map, select_map_mask.
  apply filter_ext_in. intros r Hr. rewrite (Hdate r Hr). reflexivity.
Qed.

(** C1. On a table whose [date] column holds the derived dates, the
    date-range filter with the selection [lo, hi] returns normally, shows
    nothing, keeps all column names, and keeps exactly the rows whose derived
    date lies in [lo, hi], both ends included, in their original order (the
    rows of the result are the rows of the input filtered by the range
    test).  The statement needs no assumption on the bounds, so it holds in
    particular for lo <= hi. *)
Theorem date_range_filter_exact (data : DataFrame) (lo hi : Calendar.date)
    (Hdate : date_derived data) :
  exists out : DataFrame,
    date_range_filter [lo; hi] data = ([], Ok out) /\
    columns out = columns data /\
    rows out = filter (fun r => in_date_rangeb lo hi (derived_date r)) (rows data) /\
    (forall r, In r (rows out) <->
               In r (rows data) /\ in_date_range lo hi (derived_date r)).
Proof.
  pose proof (date_mask_rows data lo hi Hdate) as Hrows.
  eexists. split; [reflexivity|]. simpl. split; [reflexivity|].
  split; [exact Hrows|].
  intros r. rewrite Hrows, filter_In, in_date_rangeb_iff. reflexivity.
Qed.

(** ** C4: the hour-range filter *)

(** C4. The hour filter keeps all column names and exactly the rows whose
    timestamp hour lies in [lo, hi], both ends included, in their original
    order; this holds for every pair of bounds, so in particular for
    0 <= lo <= hi <= 23. *)
Theorem hour_range_filter_exact (data : DataFrame) (lo hi : Z) :
  columns (hour_range_filter (lo, hi) data) = columns data /\
  rows (hour_range_filter (lo, hi) data)
    = filter (fun r => in_hour_rangeb lo hi (row_hour r)) (rows data) /\
  (forall r, In r (rows (hour_range_filter (lo, hi) data)) <->
             In r (rows data) /\ lo <= row_hour r <= hi).
Proof.
  assert (Hrows : rows (hour_range_filter (lo, hi) data)
            = filter (fun r => in_hour_rangeb lo hi (row_hour r)) (rows data)).
  { unfold hour_range_filter, getitem_mask, ge_int, le_int, col_tweet_created.
    simpl. rewrite !map_map, mask_and_map, select_map_mask. reflexivity. }
  split; [reflexivity|]. split; [exact Hrows|].
  intros r. rewrite Hrows, filter_In. unfold in_hour_rangeb.
  rewrite andb_true_iff, !Z.leb_le. reflexivity.
Qed.

(** ** C3: aggregation counts *)

Lemma time_values_length (time_agg : string) (data : DataFrame) :
  List.length (time_values time_agg data) = List.length (rows data).
Proof.
  unfold time_values, col_tweet_created.
  destruct (String.eqb time_agg "Hourly"); [|destruct (String.eqb time_agg "Daily")];
    rewrite !length_map; reflexivity.
Qed.

Lemma time_values_bucket (time_agg : string) (data : DataFrame) :
  time_values time_agg data = map (bucket time_agg) (col_tweet_created data).
Proof.
  unfold time_values, bucket.
  destruct (String.eqb time_agg "Hourly"); [reflexivity|].
  destruct (String.eqb time_agg "Daily"); reflexivity.
Qed.

Lemma group_keys_assigned (cols : list string) (rs : list Row) (vs : list label) :
  List.length vs = List.length rs ->
  List.length (group_keys (mkDF cols (assign_time rs vs))) = List.length rs.
Proof.
  unfold group_keys. simpl. revert vs.
  induction rs as [|r rs IH]; intros [|v vs] H; simpl in *; try discriminate;
    [reflexivity|].
  f_equal. apply IH. lia.
Qed.

(** C3. For every table, the counts of the sentiment distribution
    ([value_counts] of the sentiment column) add up to the number of rows,
    and for every granularity the counts of the time series (group-by on
    the assigned time bucket and the sentiment) add up to the number of
    rows. *)
Theorem aggregation_counts_sum (data : DataFrame) (time_agg : string) :
  Seq.sum (map snd (value_counts (col_airline_sentiment data))) = len data /\
  Seq.sum (map snd (groupby_size
                      (setitem_time data (time_values time_agg data))))
    = len data.
Proof.
  split.
  - unfold value_counts.
    rewrite <- (sum_perm _ _ (Permutation_map snd (sort_perm _ _))).
    rewrite map_map. simpl.
    rewrite (sum_counts_unique String.eqb String.eqb_eq).
    unfold col_airline_sentiment, len. rewrite length_map. reflexivity.
  - unfold groupby_size. rewrite map_map. simpl.
    set (keys := group_keys _).
    rewrite <- (sum_perm _ _ (Permutation_map _ (sort_perm key_leb _))).
    rewrite (sum_counts_unique key_eqb key_eqb_eq).
    unfold keys, setitem_time, len.
    rewrite group_keys_assigned; [reflexivity|apply time_values_length].
Qed.

(** ** Runs of the script *)

Import PassProps.

Lemma bindM_ok {A B} (m : M A) (f : A -> M B) (out : list element) (a : A) :
  m = (out, Ok a) -> bindM m f = (out ++ fst (f a), snd (f a)).
Proof.
  intros ->. unfold bindM. destruct (f a). reflexivity.
Qed.

(** A sequence that returns normally ran both of its parts. *)
Lemma bindM_returns {A B} (m : M A) (f : A -> M B) (b : B) :
  snd (bindM m f) = Ok b ->
  exists a, snd m = Ok a /\ snd (f a) = Ok b /\
            fst (bindM m f) = fst m ++ fst (f a).
Proof.
  destruct m as [out [a|e]]; simpl.
  - destruct (f a) as [out' r] eqn:E. simpl. intros ->.
    exists a. rewrite E. auto.
  - discriminate.
Qed.

(** The elements of the first part are shown whatever happens next. *)
Lemma bindM_shows_first {A B} (m : M A) (f : A -> M B) (x : element) :
  In x (fst m) -> In x (fst (bindM m f)).
Proof.
  destruct m as [out [a|e]]; simpl; [|tauto].
  destruct (f a). simpl. intros H. apply in_or_app. left. exact H.
Qed.

Lemma bindM_shows_second {A B} (m : M A) (f : A -> M B) (a : A) (x : element) :
  snd m = Ok a -> In x (fst (f a)) -> In x (fst (bindM m f)).
Proof.
  destruct m as [out [a'|e]]; simpl; [|discriminate].
  intros E. inversion E. subst a'. destruct (f a). simpl.
  intros H. apply in_or_app. right. exact H.
Qed.

Lemma bindM_ret {A B} (a : A) (f : A -> M B) : bindM (ret a) f = f a.
Proof. unfold bindM, ret. destruct (f a). reflexivity. Qed.

Lemma bindM_snd {A B} (m : M A) (f : A -> M B) :
  snd (bindM m f)
  = match snd m with Ok a => snd (f a) | Raise e => Raise e end.
Proof.
  destruct m as [out [a|e]]; simpl; [|reflexivity].
  destruct (f a). reflexivity.
Qed.

(** A sequence whose first part raises stops there. *)
Lemma bindM_raise {A B} (m : M A) (f : A -> M B) (out : list element)
    (e : exception) :
  m = (out, Raise e) -> bindM m f = (out, Raise e).
Proof. intros ->. reflexivity. Qed.

(** [st.map] shows the map or raises a [StreamlitAPIException], and shows
    nothing when it raises. *)
Lemma st_map_cases (data : DataFrame) :
  st_map data = ([Map data], Ok tt) \/
  exists msg, st_map data = ([], Raise (StreamlitAPIException msg)).
Proof.
  unfold st_map, get_lat_or_lon_col_name.
  destruct (rows data) as [|r rs]; [left; reflexivity|].
  destruct (find _ DEFAULT_LAT_COL_NAMES) as [lat|];
    [|right; eexists; reflexivity].
  destruct (existsb _ _); [right; eexists; reflexivity|].
  destruct (find _ DEFAULT_LON_COL_NAMES) as [lon|];
    [|right; eexists; reflexivity].
  destruct (existsb _ _); [right; eexists; reflexivity|].
  left. reflexivity.
Qed.

Lemma st_map_ok (data : DataFrame) :
  snd (st_map data) = Ok tt -> st_map data = ([Map data], Ok tt).
Proof.
  destruct (st_map_cases data) as [E|(msg & E)]; rewrite E; [reflexivity|].
  discriminate.
Qed.

Lemma st_map_raise (data : DataFrame) (e : exception) :
  snd (st_map data) = Raise e -> st_map data = ([], Raise e).
Proof.
  destruct (st_map_cases data) as [E|(msg & E)]; rewrite E; [discriminate|].
  simpl. intros H. inversion H. reflexivity.
Qed.

Section PassFacts.
Variable STOPWORDS : list string.
Variable is_collocation : Z -> Z -> Z -> Z -> bool.
Variable drawn : WordCloud.counts -> nat.
Variable savefig : WordCloud.cloud -> list Byte.byte.
Variable db : Unicode.Database.
Variable image_error : list Byte.byte -> option string.

Lemma overview_returns (w : Widgets) (data : DataFrame) :
  snd (overview w data) = Ok (setitem_time data (time_values (time_agg w) data)).
Proof.
  unfold overview. simpl.
  destruct (String.eqb (viz_type w) "Bar plot"); reflexivity.
Qed.

(** The Geospatial tab when the map accepts the hour-filtered table, and
    when it does not. *)
Lemma geospatial_ok (w : Widgets) (data : DataFrame) :
  snd (st_map (hour_range_filter (hour_range w) data)) = Ok tt ->
  geospatial w data
  = ([Header main "Geospatial Analysis";
      Subheader main
        ("Tweet Locations (" ++ Str.of_int (fst (hour_range w)) ++ ":00 - "
         ++ Str.of_int (snd (hour_range w)) ++ ":00)")%string;
      Markdown main
        ("**" ++ Str.of_int (len (hour_range_filter (hour_range w) data))
         ++ " tweets found**")%string;
      Map (hour_range_filter (hour_range w) data)]
     ++ (if show_preview w
         then [Dataframe (getitem_columns
                            (hour_range_filter (hour_range w) data)
                            preview_columns)]
         else []),
     Ok tt).
Proof.
  intros H. unfold geospatial. cbv zeta. rewrite (st_map_ok _ H).
  destruct (show_preview w); reflexivity.
Qed.

Lemma geospatial_raise (w : Widgets) (data : DataFrame) (e : exception) :
  snd (st_map (hour_range_filter (hour_range w) data)) = Raise e ->
  geospatial w data
  = ([Header main "Geospatial Analysis";
      Subheader main
        ("Tweet Locations (" ++ Str.of_int (fst (hour_range w)) ++ ":00 - "
         ++ Str.of_int (snd (hour_range w)) ++ ":00)")%string;
      Markdown main
        ("**" ++ Str.of_int (len (hour_range_filter (hour_range w) data))
         ++ " tweets found**")%string],
     Raise e).
Proof.
  intros H. unfold geospatial. cbv zeta. rewrite (st_map_raise _ _ H).
  reflexivity.
Qed.

Lemma geospatial_snd (w : Widgets) (data : DataFrame) :
  snd (geospatial w data) = snd (st_map (hour_range_filter (hour_range w) data)).
Proof.
  destruct (snd (st_map (hour_range_filter (hour_range w) data))) as [[]|e] eqn:E.
  - rewrite (geospatial_ok _ _ E). reflexivity.
  - rewrite (geospatial_raise _ _ _ E). reflexivity.
Qed.

Lemma geospatial_map (w : Widgets) (data : DataFrame) :
  snd (st_map (hour_range_filter (hour_range w) data)) = Ok tt ->
  In (Map (hour_range_filter (hour_range w) data)) (fst (geospatial w data)).
Proof.
  intros H. rewrite (geospatial_ok _ _ H). simpl. auto.
Qed.

Lemma geospatial_preview (w : Widgets) (data : DataFrame) :
  snd (st_map (hour_range_filter (hour_range w) data)) = Ok tt ->
  show_preview w = true ->
  In (Dataframe (getitem_columns (hour_range_filter (hour_range w) data)
                                 preview_columns))
     (fst (geospatial w data)).
Proof.
  intros H P. rewrite (geospatial_ok _ _ H), P. simpl. auto 10.
Qed.

Lemma data_export_clicked (w : Widgets) (data : DataFrame) :
  download_clicked w = true ->
  data_export w data
  = ([Markdown sidebar "---"; Header sidebar "Data Export";
      DownloadButton sidebar "Download CSV" (Str.encode_utf8 (Csv.to_csv data))
                     "airline_tweets.csv" "text/csv"], Ok tt).
Proof.
  intros H. unfold data_export. simpl. rewrite H. reflexivity.
Qed.

Lemma date_range_filter_returns (sel : list Calendar.date) (data : DataFrame) :
  exists out data', date_range_filter sel data = (out, Ok data').
Proof.
  unfold date_range_filter.
  destruct sel as [|a [|b [|c l]]]; do 2 eexists; reflexivity.
Qed.

Lemma date_range_filter_filtered (w : Widgets) (csv : CsvFile) :
  exists out,
    date_range_filter (selected_dates w) (load_data csv)
    = (out, Ok (filtered_table w csv)).
Proof.
  unfold filtered_table.
  destruct (date_range_filter_returns (selected_dates w) (load_data csv))
    as (out & data' & E).
  rewrite E. simpl. eauto.
Qed.

Lemma overview_shared (w : Widgets) (csv : CsvFile) :
  snd (overview w (filtered_table w csv)) = Ok (shared_table w csv).
Proof. apply overview_returns. Qed.

(** The Geospatial tab always runs, on the shared table. *)
Lemma script_shows_geospatial (w : Widgets) (csv : CsvFile)
    (http : Requests.outcome) (x : element) :
  In x (fst (geospatial w (shared_table w csv))) ->
  In x (fst (script STOPWORDS is_collocation drawn savefig db image_error w csv http)).
Proof.
  intros H. unfold script.
  apply bindM_shows_second with (a := tt); [reflexivity|].
  destruct (date_range_filter_filtered w csv) as (out & E).
  simpl. apply bindM_shows_second with (a := filtered_table w csv);
    [rewrite E; reflexivity|].
  unfold panels.
  apply bindM_shows_second with (a := shared_table w csv);
    [apply overview_shared|].
  apply bindM_shows_first. exact H.
Qed.

(** A run that returns normally has run the export, on the shared table. *)
Lemma script_shows_export (w : Widgets) (csv : CsvFile)
    (http : Requests.outcome) (x : element) :
  snd (script STOPWORDS is_collocation drawn savefig db image_error w csv http) = Ok tt ->
  In x (fst (data_export w (shared_table w csv))) ->
  In x (fst (script STOPWORDS is_collocation drawn savefig db image_error w csv http)).
Proof.
  intros Hret H. unfold script in *.
  apply bindM_returns in Hret. destruct Hret as ([] & _ & Hret & ->).
  apply in_or_app. right. simpl in *.
  destruct (date_range_filter_filtered w csv) as (out & E).
  apply bindM_returns in Hret. destruct Hret as (d & Hd & Hret & ->).
  rewrite E in Hd. simpl in Hd. inversion Hd. subst d.
  apply in_or_app. right. unfold panels in *.
  apply bindM_returns in Hret. destruct Hret as (d & Hd' & Hret & ->).
  rewrite overview_shared in Hd'. inversion Hd'. subst d.
  apply in_or_app. right.
  apply bindM_returns in Hret. destruct Hret as ([] & _ & Hret & ->).
  apply in_or_app. right.
  apply bindM_returns in Hret. destruct Hret as ([] & _ & Hret & ->).
  apply in_or_app. right.
  apply bindM_returns in Hret. destruct Hret as ([] & _ & Hret & ->).
  apply in_or_app. right.
  apply bindM_shows_first. exact H.
Qed.

(** The date picker gets its bounds from a table with a row. *)
Lemma picker_bounds (csv : CsvFile) :
  records csv <> [] ->
  exists lo hi, Picker.min_date (load_data csv) = Some lo /\
                Picker.max_date (load_data csv) = Some hi.
Proof.
  intros H. unfold Picker.min_date, Picker.max_date, col_date, load_data.
  cbn [rows]. destruct (records csv) as [|t ts]; [contradiction|].
  simpl. eauto.
Qed.

(** On a file with a record the run is the one of [script]. *)
Lemma render_pass_script (w : Widgets) (csv : CsvFile)
    (http : Requests.outcome) :
  records csv <> [] ->
  render_pass STOPWORDS is_collocation drawn savefig db image_error w csv http
  = script STOPWORDS is_collocation drawn savefig db image_error w csv http.
Proof.
  intros H. destruct (picker_bounds csv H) as (lo & hi & Elo & Ehi).
  unfold render_pass, script. cbv zeta. rewrite Elo, Ehi.
  change (date_input [Some lo; Some hi] (Some lo) (Some hi) (selected_dates w))
    with (ret (selected_dates w)).
  rewrite bindM_ret. reflexivity.
Qed.

(** On a file without records the date picker raises. *)
Lemma render_pass_no_records (w : Widgets) (csv : CsvFile)
    (http : Requests.outcome) :
  records csv = [] ->
  render_pass STOPWORDS is_collocation drawn savefig db image_error w csv http
  = (fst intro,
     Raise (StreamlitAPIException
              "DateInput min should either be a date/datetime or None")).
Proof.
  intros H. unfold render_pass, Picker.min_date, Picker.max_date, col_date,
    load_data. cbn [rows]. rewrite H. reflexivity.
Qed.

End PassFacts.

Import Samples.

Section PassClaims.
Variable STOPWORDS : list string.
Variable is_collocation : Z -> Z -> Z -> Z -> bool.
Variable drawn : WordCloud.counts -> nat.
Variable savefig : WordCloud.cloud -> list Byte.byte.
Variable db : Unicode.Database.
Variable image_error : list Byte.byte -> option string.

(** ** C2: a malformed date selection *)

(** C2, as the code has it. When the date selection does not hold exactly
    two dates, the script shows the error "Please select a date range" in
    the sidebar, leaves the table unfiltered, and runs every panel on that
    unfiltered table: the rest of the run is exactly the run of the panels
    on the loaded table. *)
Theorem malformed_selection_runs_unfiltered (w : Widgets) (csv : CsvFile)
    (http : Requests.outcome)
    (Hmal : List.length (selected_dates w) <> 2%nat) :
  date_range_filter (selected_dates w) (load_data csv)
    = ([Error sidebar "Please select a date range"], Ok (load_data csv)) /\
  script STOPWORDS is_collocation drawn savefig db image_error w csv http
    = (fst intro ++ [Error sidebar "Please select a date range"]
         ++ fst (panels STOPWORDS is_collocation drawn savefig db image_error w
                        http (load_data csv)),
       snd (panels STOPWORDS is_collocation drawn savefig db image_error w http
                   (load_data csv))).
Proof.
  assert (E : date_range_filter (selected_dates w) (load_data csv)
              = ([Error sidebar "Please select a date range"],
                 Ok (load_data csv))).
  { unfold date_range_filter.
    destruct (selected_dates w) as [|a [|b [|c l]]]; simpl in *;
      try reflexivity. exfalso. apply Hmal. reflexivity. }
  split; [exact E|].
  unfold script.
  rewrite (bindM_ok intro _ (fst intro) tt) by reflexivity.
  cbv zeta. rewrite (bindM_ok _ _ _ _ E). simpl fst. simpl snd.
  reflexivity.
Qed.

(** ** C5: an empty sentiment class *)

(** C5, the behaviour of the code. When no row of the table carries the
    selected sentiment, the Text Analysis tab shows its three headings and
    then raises the [ValueError] of the word-cloud library: no notice is
    shown and the exception leaves the tab. *)
Theorem word_cloud_empty_class_raises (w : Widgets) (data : DataFrame)
    (Hsel : word_sentiment w <> EmptyString)
    (Hnone : forall r, In r (rows data) ->
                       airline_sentiment (tweet r) <> word_sentiment w) :
  text_analysis STOPWORDS is_collocation drawn savefig db w data
  = ([Header main "Textual Analysis"; Subheader main "Word Cloud Settings";
      Subheader main "Generated Word Cloud"],
     Raise (ValueError "We need at least 1 word to plot a word cloud, got 0.")).
Proof.
  unfold text_analysis.
  apply String.eqb_neq in Hsel. rewrite Hsel. simpl negb. cbv iota.
  assert (E : rows (getitem_mask data
                (eq_str (col_airline_sentiment data) (word_sentiment w))) = []).
  { unfold getitem_mask, eq_str, col_airline_sentiment. simpl.
    rewrite map_map, select_map_mask.
    induction (rows data) as [|r rs IH]; simpl; [reflexivity|].
    destruct (String.eqb (airline_sentiment (tweet r)) (word_sentiment w)) eqn:E.
    - apply String.eqb_eq in E. exfalso. apply (Hnone r); simpl; auto.
    - apply IH. intros r' Hr'. apply Hnone. simpl. auto. }
  unfold col_text. rewrite E. reflexivity.
Qed.

(** ** C8: the avatar fetch *)

Lemma raise_for_status_cases (r : Requests.Response) :
  (400 <= Requests.status_code r < 600 /\
   exists what,
     Requests.raise_for_status image_url r
     = Some (Str.of_int (Requests.status_code r) ++ what ++ Requests.reason r
             ++ " for url: " ++ image_url)%string) \/
  (~ (400 <= Requests.status_code r < 600) /\
   Requests.raise_for_status image_url r = None).
Proof.
  unfold Requests.raise_for_status.
  destruct ((400 <=? Requests.status_code r) && (Requests.status_code r <? 500))
    eqn:E4.
  - left. apply andb_true_iff in E4. rewrite Z.leb_le, Z.ltb_lt in E4.
    split; [lia|eexists; reflexivity].
  - destruct ((500 <=? Requests.status_code r)
              && (Requests.status_code r <? 600)) eqn:E5.
    + left. apply andb_true_iff in E5. rewrite Z.leb_le, Z.ltb_lt in E5.
      split; [lia|eexists; reflexivity].
    + right. rewrite andb_false_iff, Z.leb_gt, Z.ltb_ge in E4, E5.
      split; [lia|reflexivity].
Qed.

(** C8, as the code has it. When the fetch ends with an exception of the
    HTTP client (raised by the GET, or the [HTTPError] that
    [raise_for_status] raises for a 4xx or 5xx status), the exception is
    caught: the sidebar shows "Error loading image: " followed by the text
    of the exception in place of the image, nothing is raised, and the rest
    of the sidebar is shown.  A response with any other status counts as a
    success: its body is handed to the image element, which shows it when
    PIL reads an image in it and raises the error of PIL otherwise, an error
    that is not an exception of the HTTP client and is not caught. *)
Theorem avatar_failure_is_reported (http : Requests.outcome) :
  (fetch_raised http ->
   avatar image_error http
     = ([Error sidebar ("Error loading image: " ++ failure_cause http)%string],
        Ok tt) /\
   about image_error http
     = ([Markdown sidebar "---"; Subheader sidebar "About the Author";
         Error sidebar ("Error loading image: " ++ failure_cause http)%string;
         Markdown sidebar "This app was Built by Benjee.";
         Info sidebar "Dashboard Features"], Ok tt)) /\
  (forall k msg, http = Requests.Raised k msg -> failure_cause http = msg) /\
  (forall r, http = Requests.Returned r ->
     400 <= Requests.status_code r < 600 ->
     exists what,
       failure_cause http
       = (Str.of_int (Requests.status_code r) ++ what ++ Requests.reason r
          ++ " for url: " ++ image_url)%string) /\
  (forall r, http = Requests.Returned r ->
     ~ (400 <= Requests.status_code r < 600) ->
     avatar image_error http
       = Streamlit.image sidebar image_error (Requests.content r) "Moon Benjee" /\
     (image_error (Requests.content r) = None ->
      avatar image_error http
        = ([Image sidebar (Requests.content r) "Moon Benjee"], Ok tt)) /\
     (forall msg, image_error (Requests.content r) = Some msg ->
      avatar image_error http = ([], Raise (ImageError msg)) /\
      is_RequestException (ImageError msg) = false /\
      about image_error http
        = ([Markdown sidebar "---"; Subheader sidebar "About the Author"],
           Raise (ImageError msg)))).
Proof.
  split; [|split; [|split]].
  - intros Hfail.
    assert (E : avatar image_error http
      = ([Error sidebar ("Error loading image: " ++ failure_cause http)%string],
         Ok tt)).
    { destruct http as [k msg|r]; [reflexivity|].
      unfold avatar, raise_for_status, failure_cause. simpl in *.
      destruct (raise_for_status_cases r) as [(_ & what & E)|(N & _)];
        [|contradiction].
      rewrite E. reflexivity. }
    split; [exact E|]. unfold about. rewrite E. reflexivity.
  - intros k msg ->. reflexivity.
  - intros r -> Hr. simpl.
    destruct (raise_for_status_cases r) as [(_ & what & E)|(N & _)];
      [|contradiction].
    rewrite E. eauto.
  - intros r -> Hr.
    assert (E : avatar image_error (Requests.Returned r)
                = Streamlit.image sidebar image_error (Requests.content r)
                                  "Moon Benjee").
    { unfold avatar, raise_for_status. simpl.
      destruct (raise_for_status_cases r) as [(Y & _)|(_ & E)];
        [contradiction|].
      rewrite E. unfold Streamlit.image.
      destruct (image_error (Requests.content r)); reflexivity. }
    split; [exact E|]. split.
    + intros Hi. rewrite E. unfold Streamlit.image. rewrite Hi. reflexivity.
    + intros msg Hi.
      assert (E' : avatar image_error (Requests.Returned r)
                   = ([], Raise (ImageError msg))).
      { rewrite E. unfold Streamlit.image. rewrite Hi. reflexivity. }
      split; [exact E'|]. split; [reflexivity|].
      unfold about. rewrite E'. reflexivity.
Qed.

(** ** The CSV export *)

Lemma to_csv_no_rows (data : DataFrame) :
  rows data = [] -> Csv.to_csv data = Csv.line (columns data).
Proof.
  intros H. unfold Csv.to_csv. rewrite H. reflexivity.
Qed.

Lemma string_append_empty (s : string) : (s ++ "")%string = s.
Proof. induction s as [|c s IH]; simpl; [reflexivity|]. rewrite IH. reflexivity. Qed.

Lemma to_csv_header (data : DataFrame) :
  starts_with (Csv.line (columns data)) (Csv.to_csv data).
Proof.
  unfold starts_with, Csv.to_csv. simpl.
  destruct (map _ (rows data)) as [|l ls].
  - exists EmptyString. rewrite string_append_empty. reflexivity.
  - eexists. reflexivity.
Qed.

Lemma assign_time_tweets (rs : list Row) (vs : list label) :
  map tweet (assign_time rs vs) = map tweet rs.
Proof.
  revert vs. induction rs as [|r rs IH]; intros [|v vs]; simpl;
    try reflexivity.
  f_equal. apply IH.
Qed.

(** ** C10: the time column in the shared table *)

Lemma add_column_In (name : string) (cols : list string) :
  In name (add_column name cols).
Proof.
  unfold add_column. destruct (Str.mem name cols) eqn:E.
  - induction cols as [|c cols IH]; simpl in *; [discriminate|].
    destruct (String.eqb c name) eqn:Ec.
    + apply String.eqb_eq in Ec. auto.
    + right. apply IH. exact E.
  - apply in_or_app. right. simpl. auto.
Qed.

Lemma add_column_incl (name : string) (cols : list string) :
  incl cols (add_column name cols).
Proof.
  unfold add_column. destruct (Str.mem name cols).
  - apply incl_refl.
  - apply incl_appl, incl_refl.
Qed.

Lemma filtered_table_columns (w : Widgets) (csv : CsvFile) :
  columns (filtered_table w csv) = add_column "date" (header csv).
Proof.
  unfold filtered_table, date_range_filter.
  destruct (selected_dates w) as [|a [|b [|c l]]]; reflexivity.
Qed.

(** C10, as the code has it. The Overview assigns the time column to the
    table in place: the shared table lists the loaded columns, [date] and
    [time].  The hour-filtered table of the Geospatial tab has the columns
    of the shared table, [time] included; it is the table handed to the
    map, which is shown in every run on a file with records in which the
    map accepts that table.  The table written by the CSV export (in a run
    that reaches it with the button clicked) is the shared table, and the
    header line of the export lists its columns, [time] included.  The
    raw-data preview, shown after the map when it is switched on, is the
    projection on four fixed columns. *)
Theorem time_column_reaches_map_and_export (w : Widgets) (csv : CsvFile)
    (http : Requests.outcome) :
  let shared := shared_table w csv in
  let filtered_data := hour_range_filter (hour_range w) shared in
  let run := render_pass STOPWORDS is_collocation drawn savefig db image_error
                         w csv http in
  snd (overview w (filtered_table w csv)) = Ok shared /\
  In "time" (columns shared) /\ In "date" (columns shared) /\
  incl (header csv) (columns shared) /\
  columns filtered_data = columns shared /\
  (records csv <> [] -> snd (st_map filtered_data) = Ok tt ->
   In (Map filtered_data) (fst run) /\
   (show_preview w = true ->
    In (Dataframe (getitem_columns filtered_data preview_columns)) (fst run))) /\
  columns (getitem_columns filtered_data preview_columns)
    = ["text"; "airline"; "airline_sentiment"; "tweet_created"] /\
  (download_clicked w = true -> snd run = Ok tt ->
   In (DownloadButton sidebar "Download CSV"
         (Str.encode_utf8 (Csv.to_csv shared)) "airline_tweets.csv" "text/csv")
      (fst run) /\
   starts_with (Csv.line (columns shared)) (Csv.to_csv shared)).
Proof.
  cbv zeta.
  split; [apply overview_shared|].
  split; [apply add_column_In|].
  split; [apply add_column_incl; rewrite filtered_table_columns;
          apply add_column_In|].
  split; [eapply incl_tran; [|apply add_column_incl];
          rewrite filtered_table_columns; apply add_column_incl|].
  split; [reflexivity|].
  split; [|split; [reflexivity|]].
  - intros Hrec Hmap. rewrite (render_pass_script _ _ _ _ _ _ _ _ _ Hrec).
    split.
    + apply script_shows_geospatial, geospatial_map. exact Hmap.
    + intros Hprev. apply script_shows_geospatial, geospatial_preview;
        assumption.
  - intros Hclick Hret.
    assert (Hrec : records csv <> []).
    { intros E.
      rewrite (render_pass_no_records _ _ _ _ _ _ _ _ _ E) in Hret.
      discriminate Hret. }
    rewrite (render_pass_script _ _ _ _ _ _ _ _ _ Hrec) in *.
    split.
    + apply script_shows_export; [exact Hret|].
      rewrite (data_export_clicked w _ Hclick). simpl. auto.
    + apply to_csv_header.
Qed.

End PassClaims.

(** ** The claims at the sample inputs *)

(** Finds an element in a list that computes to a closed list. *)
Ltac find_shown := vm_compute; repeat (first [left; reflexivity | right]).

(** C1 at the sample file: of the rows dated 2015-02-20 to 2015-02-22, the
    selection [2015-02-20, 2015-02-21] keeps those of the first two days. *)
Lemma date_range_filter_exact_witness :
  date_derived (load_data sample_csv) /\
  exists out : DataFrame,
    date_range_filter [mkdate 2015 2 20; mkdate 2015 2 21] (load_data sample_csv)
      = ([], Ok out) /\
    columns out = columns (load_data sample_csv) /\
    rows out
      = filter (fun r => in_date_rangeb (mkdate 2015 2 20) (mkdate 2015 2 21)
                                        (derived_date r))
               (rows (load_data sample_csv)) /\
    (forall r, In r (rows out) <->
               In r (rows (load_data sample_csv)) /\
               in_date_range (mkdate 2015 2 20) (mkdate 2015 2 21)
                             (derived_date r)).
Proof.
  assert (H : date_derived (load_data sample_csv)).
  { intros r Hr. simpl in Hr.
    destruct Hr as [<-|[<-|[<-|[]]]]; reflexivity. }
  split; [exact H|].
  exact (date_range_filter_exact (load_data sample_csv)
           (mkdate 2015 2 20) (mkdate 2015 2 21) H).
Defined.

(** C2, the claim as stated, at a selection of one date: the run does not
    skip rendering; it shows the sentiment chart computed from all three
    rows of the unfiltered table. *)
Lemma malformed_selection_still_renders :
  List.length (selected_dates one_date_widgets) <> 2%nat /\
  renders_chart (fst (sample_run one_date_widgets sample_csv ok_response)) /\
  In (PlotlyChart
        (Bar (value_counts (col_airline_sentiment (load_data sample_csv)))))
     (fst (sample_run one_date_widgets sample_csv ok_response)) /\
  len (load_data sample_csv) = 3.
Proof.
  split; [simpl; lia|].
  assert (H : In (PlotlyChart
        (Bar (value_counts (col_airline_sentiment (load_data sample_csv)))))
     (fst (sample_run one_date_widgets sample_csv ok_response))).
  { find_shown. }
  split; [eexists; exact H|]. split; [exact H|reflexivity].
Qed.

Lemma malformed_selection_runs_unfiltered_witness :
  List.length (selected_dates one_date_widgets) <> 2%nat /\
  date_range_filter (selected_dates one_date_widgets) (load_data sample_csv)
    = ([Error sidebar "Please select a date range"], Ok (load_data sample_csv)) /\
  sample_run one_date_widgets sample_csv ok_response
    = (fst intro ++ [Error sidebar "Please select a date range"]
         ++ fst (panels sample_stopwords never_collocation draw_all no_png
                        ascii_db png_only one_date_widgets ok_response
                        (load_data sample_csv)),
       snd (panels sample_stopwords never_collocation draw_all no_png
                   ascii_db png_only one_date_widgets ok_response
                   (load_data sample_csv))).
Proof.
  assert (H : List.length (selected_dates one_date_widgets) <> 2%nat)
    by (simpl; lia).
  split; [exact H|].
  exact (malformed_selection_runs_unfiltered sample_stopwords never_collocation
           draw_all no_png ascii_db png_only one_date_widgets sample_csv
           ok_response H).
Defined.

(** C5 at a file without positive tweets: the run of the whole script ends
    with the [ValueError]. *)
Lemma word_cloud_empty_class_raises_witness :
  word_sentiment sample_widgets <> EmptyString /\
  (forall r, In r (rows (shared_table sample_widgets negative_csv)) ->
             airline_sentiment (tweet r) <> word_sentiment sample_widgets) /\
  text_analysis sample_stopwords never_collocation draw_all no_png ascii_db
      sample_widgets (shared_table sample_widgets negative_csv)
  = ([Header main "Textual Analysis"; Subheader main "Word Cloud Settings";
      Subheader main "Generated Word Cloud"],
     Raise (ValueError "We need at least 1 word to plot a word cloud, got 0.")).
Proof.
  assert (H1 : word_sentiment sample_widgets <> EmptyString)
    by (simpl; discriminate).
  assert (H2 : forall r, In r (rows (shared_table sample_widgets negative_csv)) ->
             airline_sentiment (tweet r) <> word_sentiment sample_widgets).
  { intros r Hr. vm_compute in Hr.
    destruct Hr as [<-|[<-|[<-|[]]]]; simpl; discriminate. }
  split; [exact H1|]. split; [exact H2|].
  exact (word_cloud_empty_class_raises sample_stopwords never_collocation
           draw_all no_png ascii_db sample_widgets
           (shared_table sample_widgets negative_csv) H1 H2).
Defined.

(** The same input in a run of the whole script. *)
Lemma empty_class_aborts_run :
  snd (sample_run sample_widgets negative_csv ok_response)
  = Raise (ValueError "We need at least 1 word to plot a word cloud, got 0.").
Proof. vm_compute. reflexivity. Qed.

(** C8, the claim as stated, at a response with status 300 and an empty
    body: the fetch did not end with a 2xx status, yet no message is shown;
    the body goes to the image element, which finds no image in it, and its
    error leaves the fetch boundary and ends the run before the rest of the
    sidebar is shown. *)
Lemma avatar_status_300_not_reported :
  fetch_failed multiple_choices /\
  avatar png_only multiple_choices
    = ([], Raise (ImageError "cannot identify image file")) /\
  ~ shows_notice (fst (about png_only multiple_choices)) /\
  about png_only multiple_choices
    = ([Markdown sidebar "---"; Subheader sidebar "About the Author"],
       Raise (ImageError "cannot identify image file")) /\
  snd (sample_pass sample_widgets sample_csv multiple_choices)
    = Raise (ImageError "cannot identify image file").
Proof.
  split; [simpl; lia|]. split; [reflexivity|]. split; [|split].
  - intros (c & msg & [H|H]); vm_compute in H;
      repeat (destruct H as [H|H]; [discriminate H|]); exact H.
  - reflexivity.
  - vm_compute. reflexivity.
Qed.

(** C8 at a 404 response, at a connection error, and at a 200 response
    whose body is a PNG image. *)
Lemma avatar_failure_is_reported_witness :
  fetch_raised not_found /\ fetch_raised unreachable /\
  avatar png_only not_found
    = ([Error sidebar ("Error loading image: " ++ failure_cause not_found)%string],
       Ok tt) /\
  failure_cause not_found
    = (Str.of_int 404 ++ " Client Error: " ++ "Not Found" ++ " for url: "
       ++ image_url)%string /\
  about png_only unreachable
    = ([Markdown sidebar "---"; Subheader sidebar "About the Author";
        Error sidebar "Error loading image: Max retries exceeded";
        Markdown sidebar "This app was Built by Benjee.";
        Info sidebar "Dashboard Features"], Ok tt) /\
  avatar png_only ok_response
    = ([Image sidebar pixel_png "Moon Benjee"], Ok tt).
Proof.
  assert (H : fetch_raised not_found) by (simpl; lia).
  assert (U : fetch_raised unreachable) by exact I.
  split; [exact H|]. split; [exact U|].
  split;
    [exact (proj1 (proj1 (avatar_failure_is_reported png_only not_found) H))|].
  split; [reflexivity|].
  split;
    [exact (proj2 (proj1 (avatar_failure_is_reported png_only unreachable) U))|].
  destruct (avatar_failure_is_reported png_only ok_response)
    as (_ & _ & _ & Hok).
  destruct (Hok (Requests.mkResponse 200 "OK" pixel_png) eq_refl)
    as (_ & Himg & _).
  - simpl. lia.
  - apply Himg. reflexivity.
Defined.

(** C10, the claim as stated, at the sample run with the preview switched
    on: the table the preview shows has no [time] column, while the table of
    the map has one. *)
Lemma preview_has_no_time_column :
  exists fd shown,
    In (Dataframe fd) (fst (sample_pass sample_widgets sample_csv ok_response)) /\
    ~ In "time" (columns fd) /\
    In (Map shown) (fst (sample_pass sample_widgets sample_csv ok_response)) /\
    In "time" (columns shown).
Proof.
  exists (getitem_columns
            (hour_range_filter (0, 23) (shared_table sample_widgets sample_csv))
            preview_columns).
  exists (hour_range_filter (0, 23) (shared_table sample_widgets sample_csv)).
  split; [find_shown|].
  split.
  - simpl. intros [H|[H|[H|[H|[]]]]]; discriminate H.
  - split; [find_shown|].
    find_shown.
Qed.

Lemma time_column_reaches_map_and_export_witness :
  records sample_csv <> [] /\
  snd (st_map (hour_range_filter (hour_range sample_widgets)
                 (shared_table sample_widgets sample_csv))) = Ok tt /\
  download_clicked sample_widgets = true /\
  show_preview sample_widgets = true /\
  snd (sample_pass sample_widgets sample_csv ok_response) = Ok tt /\
  In "time" (columns (shared_table sample_widgets sample_csv)) /\
  In (Map (hour_range_filter (hour_range sample_widgets)
             (shared_table sample_widgets sample_csv)))
     (fst (sample_pass sample_widgets sample_csv ok_response)) /\
  In (DownloadButton sidebar "Download CSV"
        (Str.encode_utf8 (Csv.to_csv (shared_table sample_widgets sample_csv)))
        "airline_tweets.csv" "text/csv")
     (fst (sample_pass sample_widgets sample_csv ok_response)).
Proof.
  pose proof (time_column_reaches_map_and_export sample_stopwords
                never_collocation draw_all no_png ascii_db png_only
                sample_widgets sample_csv ok_response) as H.
  cbv zeta in H.
  destruct H as (_ & Htime & _ & _ & _ & Hmap & _ & Hexp).
  assert (R : records sample_csv <> []) by discriminate.
  assert (A : snd (st_map (hour_range_filter (hour_range sample_widgets)
                 (shared_table sample_widgets sample_csv))) = Ok tt)
    by (vm_compute; reflexivity).
  assert (O : snd (sample_pass sample_widgets sample_csv ok_response) = Ok tt)
    by (vm_compute; reflexivity).
  split; [exact R|]. split; [exact A|].
  split; [reflexivity|]. split; [reflexivity|]. split; [exact O|].
  split; [exact Htime|]. split; [exact (proj1 (Hmap R A))|].
  exact (proj1 (Hexp eq_refl O)).
Defined.

(** The same run on the file without coordinate columns stops at the map:
    the number of tweets is the last element shown. *)
Lemma run_without_coordinates_stops_at_map :
  exists msg,
    snd (sample_pass sample_widgets plain_csv ok_response)
      = Raise (StreamlitAPIException msg) /\
    List.last (fst (sample_pass sample_widgets plain_csv ok_response))
              (Title main EmptyString)
      = Markdown main "**3 tweets found**".
Proof. eexists. split; vm_compute; reflexivity. Qed.

(** Aggregation over a table without rows gives empty results. *)
Lemma aggregation_zero_rows (cols : list string) (time_agg : string) :
  value_counts (col_airline_sentiment (mkDF cols [])) = [] /\
  groupby_size (setitem_time (mkDF cols [])
                  (time_values time_agg (mkDF cols []))) = [].
Proof.
  split; [reflexivity|].
  unfold time_values, col_tweet_created. simpl.
  destruct (String.eqb time_agg "Hourly"); [reflexivity|].
  destruct (String.eqb time_agg "Daily"); reflexivity.
Qed.

(** A run whose date selection leaves no row stops at the airline
    selection, whose default values are not among the options. *)
Lemma zero_rows_abort_run :
  rows (filtered_table gap_widgets gap_csv) = [] /\
  snd (sample_pass gap_widgets gap_csv ok_response)
  = Raise (StreamlitAPIException
             "Every Multiselect default value must exist in options").
Proof. split; vm_compute; reflexivity. Qed.

(** The rows dated 2015-02-20 to 2015-02-22 under the selection
    [2015-02-20, 2015-02-21]: the rows of index 0 and 1 are kept, the row of
    2015-02-22 is left out. *)
Example date_filter_scenario :
  map index (rows (filtered_table
     (mkWidgets [mkdate 2015 2 20; mkdate 2015 2 21] "Bar plot" "Daily" (0, 23)
                false [] "positive" 150 "viridis" false)
     sample_csv))
  = [0; 1].
Proof. vm_compute. reflexivity. Qed.

(** Ten rows, six positive, three negative, one neutral, grouped by
    sentiment. *)
Example value_counts_scenario :
  value_counts ["positive"; "negative"; "positive"; "neutral"; "positive";
                "negative"; "positive"; "positive"; "negative"; "positive"]
  = [("positive", 6); ("negative", 3); ("neutral", 1)].
Proof. vm_compute. reflexivity. Qed.

(** ** The calendar *)

Lemma is_leap_true (y : Z) :
  is_leap y = true <-> y mod 4 = 0 /\ (y mod 100 <> 0 \/ y mod 400 = 0).
Proof.
  unfold is_leap.
  rewrite andb_true_iff, orb_true_iff, negb_true_iff, !Z.eqb_eq, Z.eqb_neq.
  reflexivity.
Qed.

Lemma days_before_next_year (y : Z) :
  days_before_year (y + 1)
  = days_before_year y + 365 + (if is_leap y then 1 else 0).
Proof.
  unfold days_before_year. cbv zeta.
  replace (y + 1 - 1) with y by lia.
  destruct (is_leap y) eqn:L.
  - apply is_leap_true in L. Z.div_mod_to_equations. lia.
  - assert (N : ~ (y mod 4 = 0 /\ (y mod 100 <> 0 \/ y mod 400 = 0))).
    { intros H. apply is_leap_true in H. congruence. }
    Z.div_mod_to_equations. lia.
Qed.

Lemma days_before_year_mono (y y' : Z) :
  y <= y' -> days_before_year y <= days_before_year y'.
Proof.
  unfold days_before_year. cbv zeta. intros H.
  Z.div_mod_to_equations. lia.
Qed.

(** The cases of a month number. *)
Ltac month_cases m :=
  let H := fresh "Hm" in
  assert (H : m = 1 \/ m = 2 \/ m = 3 \/ m = 4 \/ m = 5 \/ m = 6 \/ m = 7 \/
              m = 8 \/ m = 9 \/ m = 10 \/ m = 11 \/ m = 12) by lia;
  destruct H as [H|[H|[H|[H|[H|[H|[H|[H|[H|[H|[H|H]]]]]]]]]]]; subst m.

Lemma days_in_month_bounds (y m : Z) :
  1 <= m <= 12 -> 28 <= days_in_month y m <= 31.
Proof.
  intros H. unfold days_in_month.
  month_cases m; simpl; destruct (is_leap y); simpl; lia.
Qed.

Lemma days_before_next_month (y m : Z) :
  1 <= m <= 11 ->
  days_before_month y (m + 1) = days_before_month y m + days_in_month y m.
Proof.
  intros H. unfold days_before_month, days_in_month.
  month_cases m; simpl; destruct (is_leap y); simpl; lia.
Qed.

Lemma days_before_month_mono (y m m' : Z) :
  1 <= m -> m < m' -> m' <= 12 ->
  days_before_month y m + days_in_month y m <= days_before_month y m'.
Proof.
  intros H1 H2 H3. unfold days_before_month, days_in_month.
  month_cases m; month_cases m'; try lia; simpl; destruct (is_leap y);
    simpl; lia.
Qed.

Lemma days_before_month_year (y m : Z) :
  1 <= m <= 12 ->
  0 <= days_before_month y m /\
  days_before_month y m + days_in_month y m
    <= 365 + (if is_leap y then 1 else 0).
Proof.
  intros H. unfold days_before_month, days_in_month.
  month_cases m; simpl; destruct (is_leap y); simpl; lia.
Qed.

(** [toordinal] is strictly increasing on valid dates. *)
Lemma toordinal_lt (a b : Calendar.date) :
  valid_date a -> valid_date b -> date_compare a b = Lt ->
  toordinal a < toordinal b.
Proof.
  destruct a as [y m d], b as [y' m' d'].
  unfold valid_date, date_compare, lex, toordinal; simpl.
  intros [Hm Hd] [Hm' Hd'].
  destruct (Z.compare_spec y y') as [->|Hy|Hy]; try discriminate.
  - destruct (Z.compare_spec m m') as [->|Hmm|Hmm]; try discriminate.
    + rewrite Z.compare_lt_iff. lia.
    + intros _. pose proof (days_before_month_mono y' m m'). lia.
  - intros _.
    pose proof (days_before_month_year y m Hm).
    pose proof (days_before_month_year y' m' Hm').
    pose proof (days_before_next_year y).
    pose proof (days_before_year_mono (y + 1) y'). lia.
Qed.

Lemma date_compare_antisym (a b : Calendar.date) :
  date_compare b a = CompOpp (date_compare a b).
Proof.
  destruct a as [y m d], b as [y' m' d']. unfold date_compare, lex; simpl.
  rewrite (Z.compare_antisym y y'), (Z.compare_antisym m m'),
          (Z.compare_antisym d d').
  destruct (y ?= y'), (m ?= m'), (d ?= d'); reflexivity.
Qed.

Lemma toordinal_compare (a b : Calendar.date) :
  valid_date a -> valid_date b ->
  date_compare a b = (toordinal a ?= toordinal b).
Proof.
  intros Ha Hb. destruct (date_compare a b) eqn:E; symmetry.
  - apply date_compare_eq in E. subst. apply Z.compare_refl.
  - apply Z.compare_lt_iff. apply toordinal_lt; assumption.
  - apply Z.compare_gt_iff. apply toordinal_lt; try assumption.
    rewrite date_compare_antisym, E. reflexivity.
Qed.

Lemma toordinal_inj (a b : Calendar.date) :
  valid_date a -> valid_date b -> toordinal a = toordinal b -> a = b.
Proof.
  intros Ha Hb H. apply date_compare_eq.
  rewrite toordinal_compare by assumption. rewrite H. apply Z.compare_refl.
Qed.

(** The day before and the day after. *)
Lemma prev_day_spec (d : Calendar.date) :
  valid_date d ->
  valid_date (prev_day d) /\ toordinal (prev_day d) = toordinal d - 1 /\
  year d - 1 <= year (prev_day d) <= year d.
Proof.
  destruct d as [y m d]. unfold valid_date, prev_day, toordinal; simpl.
  intros [Hm Hd].
  destruct (1 <? d) eqn:E1; simpl.
  - apply Z.ltb_lt in E1. repeat split; lia.
  - apply Z.ltb_ge in E1. assert (d = 1) by lia. subst d.
    destruct (1 <? m) eqn:E2; simpl.
    + apply Z.ltb_lt in E2.
      pose proof (days_in_month_bounds y (m - 1)).
      pose proof (days_before_next_month y (m - 1)).
      replace (m - 1 + 1) with m in * by lia.
      repeat split; lia.
    + apply Z.ltb_ge in E2. assert (m = 1) by lia. subst m.
      pose proof (days_before_next_year (y - 1)) as N.
      replace (y - 1 + 1) with y in N by lia.
      unfold days_in_month, days_before_month. simpl.
      destruct (is_leap (y - 1)); simpl; repeat split; lia.
Qed.

Lemma next_day_spec (d : Calendar.date) :
  valid_date d ->
  valid_date (next_day d) /\ toordinal (next_day d) = toordinal d + 1 /\
  year d <= year (next_day d) <= year d + 1.
Proof.
  destruct d as [y m d]. unfold valid_date, next_day, toordinal; simpl.
  intros [Hm Hd].
  destruct (d <? days_in_month y m) eqn:E1; simpl.
  - apply Z.ltb_lt in E1. repeat split; lia.
  - apply Z.ltb_ge in E1. assert (d = days_in_month y m) by lia. subst d.
    destruct (m <? 12) eqn:E2; simpl.
    + apply Z.ltb_lt in E2.
      pose proof (days_in_month_bounds y (m + 1)).
      pose proof (days_before_next_month y m).
      repeat split; lia.
    + apply Z.ltb_ge in E2. assert (m = 12) by lia. subst m.
      pose proof (days_before_next_year y) as N.
      unfold days_in_month, days_before_month in *. simpl in *.
      destruct (is_leap y), (is_leap (y + 1)); simpl; repeat split; lia.
Qed.

Lemma iter_prev_day (n : nat) (d : Calendar.date) :
  valid_date d ->
  valid_date (Nat.iter n prev_day d) /\
  toordinal (Nat.iter n prev_day d) = toordinal d - Z.of_nat n /\
  year d - Z.of_nat n <= year (Nat.iter n prev_day d) <= year d.
Proof.
  intros V. induction n as [|n (IV & IO & IY)].
  - simpl. split; [exact V|]. lia.
  - rewrite Nat.iter_succ.
    destruct (prev_day_spec _ IV) as (V' & O' & Y').
    split; [exact V'|]. lia.
Qed.

Lemma iter_next_day (n : nat) (d : Calendar.date) :
  valid_date d ->
  valid_date (Nat.iter n next_day d) /\
  toordinal (Nat.iter n next_day d) = toordinal d + Z.of_nat n /\
  year d <= year (Nat.iter n next_day d) <= year d + Z.of_nat n.
Proof.
  intros V. induction n as [|n (IV & IO & IY)].
  - simpl. split; [exact V|]. lia.
  - rewrite Nat.iter_succ.
    destruct (next_day_spec _ IV) as (V' & O' & Y').
    split; [exact V'|]. lia.
Qed.

Lemma weekday_bounds (d : Calendar.date) : 0 <= weekday d <= 6.
Proof. unfold weekday. pose proof (Z.mod_pos_bound (toordinal d + 6) 7). lia. Qed.

(** The week of a date: Monday to Sunday around it. *)
Lemma week_start_spec (d : Calendar.date) :
  valid_date d ->
  valid_date (week_start d) /\
  toordinal (week_start d) = toordinal d - weekday d /\
  weekday (week_start d) = 0 /\
  year d - 6 <= year (week_start d) <= year d.
Proof.
  intros V. unfold week_start.
  pose proof (weekday_bounds d) as B.
  destruct (iter_prev_day (Z.to_nat (weekday d)) d V) as (V' & O' & Y').
  rewrite Z2Nat.id in * by lia.
  split; [exact V'|]. split; [exact O'|]. split; [|lia].
  unfold weekday at 1. rewrite O'. unfold weekday.
  Z.div_mod_to_equations. lia.
Qed.

Lemma week_end_spec (d : Calendar.date) :
  valid_date d ->
  valid_date (week_end d) /\
  toordinal (week_end d) = toordinal (week_start d) + 6 /\
  year d <= year (week_end d) <= year d + 6.
Proof.
  intros V. unfold week_end.
  pose proof (weekday_bounds d) as B.
  destruct (iter_next_day (Z.to_nat (6 - weekday d)) d V) as (V' & O' & Y').
  destruct (week_start_spec d V) as (_ & OS & _).
  rewrite Z2Nat.id in * by lia.
  split; [exact V'|]. lia.
Qed.

(** Later dates have later (or the same) weeks. *)
Lemma week_start_mono (a b : Calendar.date) :
  valid_date a -> valid_date b -> date_le a b ->
  toordinal (week_start a) <= toordinal (week_start b).
Proof.
  intros Va Vb H. unfold date_le in H.
  rewrite (toordinal_compare a b Va Vb) in H.
  destruct (week_start_spec a Va) as (_ & Oa & _).
  destruct (week_start_spec b Vb) as (_ & Ob & _).
  rewrite Oa, Ob. unfold weekday.
  assert (toordinal a <= toordinal b) by (apply Z.compare_le_iff; exact H).
  Z.div_mod_to_equations. lia.
Qed.

(** ** Dates as text *)

Lemma digit_compare (a b : Z) :
  0 <= a < 10 -> 0 <= b < 10 ->
  Ascii.compare (digit a) (digit b) = (a ?= b).
Proof.
  intros Ha Hb.
  assert (Ca : a = 0 \/ a = 1 \/ a = 2 \/ a = 3 \/ a = 4 \/ a = 5 \/ a = 6 \/
               a = 7 \/ a = 8 \/ a = 9) by lia.
  assert (Cb : b = 0 \/ b = 1 \/ b = 2 \/ b = 3 \/ b = 4 \/ b = 5 \/ b = 6 \/
               b = 7 \/ b = 8 \/ b = 9) by lia.
  destruct Ca as [->|[->|[->|[->|[->|[->|[->|[->|[->| ->]]]]]]]]];
    destruct Cb as [->|[->|[->|[->|[->|[->|[->|[->|[->| ->]]]]]]]]];
    cbv; reflexivity.
Qed.

Lemma string_append_assoc (a b c : string) :
  ((a ++ b) ++ c = a ++ (b ++ c))%string.
Proof.
  induction a as [|x a IH]; simpl; [reflexivity|]. rewrite IH. reflexivity.
Qed.

Lemma pad2_compare (a b : Z) (s t : string) :
  0 <= a < 100 -> 0 <= b < 100 ->
  String.compare (pad2 a ++ s) (pad2 b ++ t)
  = lex (a ?= b) (String.compare s t).
Proof.
  intros Ha Hb. unfold pad2. cbn [String.append String.compare].
  rewrite !digit_compare by (Z.div_mod_to_equations; lia).
  unfold lex.
  destruct (Z.compare_spec (a / 10) (b / 10));
    destruct (Z.compare_spec (a mod 10) (b mod 10));
    destruct (Z.compare_spec a b);
    try reflexivity; exfalso; Z.div_mod_to_equations; lia.
Qed.

Lemma pad4_compare (a b : Z) (s t : string) :
  0 <= a < 10000 -> 0 <= b < 10000 ->
  String.compare (pad4 a ++ s) (pad4 b ++ t)
  = lex (a ?= b) (String.compare s t).
Proof.
  intros Ha Hb. unfold pad4.
  change (String.compare
            (String (digit (a / 1000))
               (String (digit (a / 100 mod 10)) (pad2 (a mod 100) ++ s)))
            (String (digit (b / 1000))
               (String (digit (b / 100 mod 10)) (pad2 (b mod 100) ++ t)))
          = lex (a ?= b) (String.compare s t)).
  cbn [String.compare].
  rewrite pad2_compare by (Z.div_mod_to_equations; lia).
  rewrite !digit_compare by (Z.div_mod_to_equations; lia).
  unfold lex.
  destruct (Z.compare_spec (a / 1000) (b / 1000));
    destruct (Z.compare_spec (a / 100 mod 10) (b / 100 mod 10));
    destruct (Z.compare_spec (a mod 100) (b mod 100));
    destruct (Z.compare_spec a b);
    try reflexivity; exfalso; Z.div_mod_to_equations; lia.
Qed.

(** Dates that [isoformat] writes with four, two and two digits. *)
Lemma printable (d : Calendar.date) :
  valid_date d -> 0 <= month d < 100 /\ 0 <= day d < 100.
Proof.
  intros [Hm Hd]. pose proof (days_in_month_bounds (year d) (month d) Hm). lia.
Qed.

(** The text order of two written dates is their calendar order. *)
Lemma isoformat_compare (a b : Calendar.date) (s t : string) :
  valid_date a -> valid_date b ->
  0 <= year a < 10000 -> 0 <= year b < 10000 ->
  String.compare (isoformat a ++ s) (isoformat b ++ t)
  = lex (date_compare a b) (String.compare s t).
Proof.
  intros Va Vb Ya Yb.
  destruct (printable a Va) as [Ma Da], (printable b Vb) as [Mb Db].
  unfold isoformat. rewrite !string_append_assoc.
  rewrite pad4_compare by assumption.
  change (String.compare ("-" ++ ?x) ("-" ++ ?y)) with (String.compare x y).
  rewrite pad2_compare by assumption.
  change (String.compare ("-" ++ ?x) ("-" ++ ?y)) with (String.compare x y).
  rewrite pad2_compare by assumption.
  unfold date_compare, lex.
  destruct (year a ?= year b), (month a ?= month b), (day a ?= day b);
    reflexivity.
Qed.

(** C7, weekly buckets: a later date has a later or equal week label. *)
Lemma week_label_mono (a b : Calendar.date) :
  valid_date a -> valid_date b ->
  6 <= year a < 9994 -> 6 <= year b < 9994 ->
  date_le a b ->
  String.compare (week_label a) (week_label b) <> Gt.
Proof.
  intros Va Vb Ya Yb H.
  destruct (week_start_spec a Va) as (Vsa & Osa & _ & Ysa).
  destruct (week_start_spec b Vb) as (Vsb & Osb & _ & Ysb).
  destruct (week_end_spec a Va) as (Vea & Oea & Yea).
  destruct (week_end_spec b Vb) as (Veb & Oeb & Yeb).
  pose proof (week_start_mono a b Va Vb H) as M.
  unfold week_label.
  rewrite isoformat_compare by (try assumption; lia).
  rewrite (toordinal_compare _ _ Vsa Vsb).
  destruct (Z.compare_spec (toordinal (week_start a)) (toordinal (week_start b)))
    as [E|L|G]; unfold lex.
  - change (String.compare ("/" ++ ?x) ("/" ++ ?y)) with (String.compare x y).
    assert (week_end a = week_end b) as ->
      by (apply toordinal_inj; try assumption; lia).
    rewrite string_compare_refl. discriminate.
  - discriminate.
  - lia.
Qed.

(** ** C7: time buckets *)

Lemma ts_le_date_le (a b : Timestamp) :
  ts_le a b -> date_le (dt_date a) (dt_date b).
Proof.
  unfold ts_le, date_le, ts_compare, lex.
  destruct (date_compare (dt_date a) (dt_date b)); congruence.
Qed.

Lemma ts_le_same_date (a b : Timestamp) :
  ts_le a b -> dt_date a = dt_date b -> hour a <= hour b.
Proof.
  unfold ts_le, ts_compare, lex. intros H E. rewrite E in H.
  rewrite (proj2 (date_compare_eq _ _) eq_refl) in H.
  destruct (Z.compare_spec (hour a) (hour b)); try lia. congruence.
Qed.

(** C7, as the code has it. For every granularity the assigned column
    holds exactly one label per row, the label of the row's timestamp: the
    hour of the day (an integer in 0..23), the calendar date, or the text
    "start/end" of the Monday-to-Sunday week that holds the date.  The order
    of daily and of weekly labels agrees with the chronological order of the
    timestamps: an earlier timestamp never has a later label.  Hourly labels
    are hours of the day, so their order agrees with the chronological order
    among timestamps of one calendar date. *)
Theorem time_bucketing_total_and_ordered (time_agg : string) (data : DataFrame) :
  time_values time_agg data = map (bucket time_agg) (col_tweet_created data) /\
  List.length (time_values time_agg data) = List.length (rows data) /\
  (forall t, valid_timestamp t ->
     (time_agg = "Hourly" ->
        bucket time_agg t = LHour (dt_hour t) /\ 0 <= dt_hour t <= 23) /\
     (time_agg = "Daily" -> bucket time_agg t = LDate (dt_date t)) /\
     (time_agg <> "Hourly" -> time_agg <> "Daily" ->
        bucket time_agg t = LWeek (week_label (dt_date t)) /\
        weekday (week_start (dt_date t)) = 0 /\
        toordinal (week_start (dt_date t)) <= toordinal (dt_date t)
          <= toordinal (week_end (dt_date t)) /\
        toordinal (week_end (dt_date t))
          = toordinal (week_start (dt_date t)) + 6)) /\
  (forall t1 t2, valid_timestamp t1 -> valid_timestamp t2 -> ts_le t1 t2 ->
     time_agg <> "Hourly" \/ dt_date t1 = dt_date t2 ->
     label_le (bucket time_agg t1) (bucket time_agg t2)).
Proof.
  split; [apply time_values_bucket|].
  split; [apply time_values_length|].
  split.
  - intros t (Vd & Vy & Vh & _). split; [|split].
    + intros ->. split; [reflexivity|exact Vh].
    + intros ->. reflexivity.
    + intros NH ND. unfold bucket.
      apply String.eqb_neq in NH, ND. rewrite NH, ND.
      destruct (week_start_spec _ Vd) as (_ & Os & Ws & _).
      destruct (week_end_spec _ Vd) as (_ & Oe & _).
      pose proof (weekday_bounds (dt_date t)).
      repeat split; try assumption; lia.
  - intros t1 t2 (Vd1 & Vy1 & _) (Vd2 & Vy2 & _) Hle Hcase.
    unfold bucket, label_le.
    destruct (String.eqb time_agg "Hourly") eqn:EH.
    + apply String.eqb_eq in EH. destruct Hcase as [N|E]; [congruence|].
      cbn [label_compare]. pose proof (ts_le_same_date t1 t2 Hle E).
      unfold dt_hour. rewrite Z.compare_gt_iff. lia.
    + destruct (String.eqb time_agg "Daily").
      * cbn [label_compare]. apply ts_le_date_le. exact Hle.
      * cbn [label_compare].
        apply week_label_mono; try assumption;
          try (unfold dt_date; cbn [year]; lia).
        apply ts_le_date_le. exact Hle.
Qed.

(** C7, the claim as stated, at two tweets of the sample file: the first
    is the earlier one, and its hourly label (23) sorts after the label of
    the second (1). *)
Lemma hourly_labels_not_chronological :
  valid_timestamp (mkts 2015 2 20 23 10 0) /\
  valid_timestamp (mkts 2015 2 21 1 5 30) /\
  ts_compare (mkts 2015 2 20 23 10 0) (mkts 2015 2 21 1 5 30) = Lt /\
  label_compare (bucket "Hourly" (mkts 2015 2 20 23 10 0))
                (bucket "Hourly" (mkts 2015 2 21 1 5 30)) = Gt.
Proof.
  repeat split; try reflexivity; vm_compute; intros H; discriminate H.
Qed.

Lemma time_bucketing_total_and_ordered_witness :
  valid_timestamp (mkts 2015 2 20 23 10 0) /\
  valid_timestamp (mkts 2015 2 24 1 5 30) /\
  ts_le (mkts 2015 2 20 23 10 0) (mkts 2015 2 24 1 5 30) /\
  bucket "Weekly" (mkts 2015 2 20 23 10 0) = LWeek "2015-02-16/2015-02-22" /\
  bucket "Weekly" (mkts 2015 2 24 1 5 30) = LWeek "2015-02-23/2015-03-01" /\
  label_le (bucket "Weekly" (mkts 2015 2 20 23 10 0))
           (bucket "Weekly" (mkts 2015 2 24 1 5 30)).
Proof.
  assert (V1 : valid_timestamp (mkts 2015 2 20 23 10 0))
    by (repeat split; vm_compute; intros H; discriminate H).
  assert (V2 : valid_timestamp (mkts 2015 2 24 1 5 30))
    by (repeat split; vm_compute; intros H; discriminate H).
  assert (L : ts_le (mkts 2015 2 20 23 10 0) (mkts 2015 2 24 1 5 30))
    by (vm_compute; intros H; discriminate H).
  split; [exact V1|]. split; [exact V2|]. split; [exact L|].
  split; [reflexivity|]. split; [reflexivity|].
  refine (proj2 (proj2 (proj2 (time_bucketing_total_and_ordered "Weekly"
            (load_data sample_csv)))) _ _ V1 V2 L _).
  left. discriminate.
Defined.

(** ** Dictionaries and texts of the word-cloud library *)

Lemma mem_In (s : string) (l : list string) : Str.mem s l = true <-> In s l.
Proof.
  induction l as [|x l IH]; simpl; [split; [discriminate|tauto]|].
  rewrite orb_true_iff, String.eqb_eq, IH. reflexivity.
Qed.

Lemma ueqb_eq (a b : Unicode.ustring) : Unicode.eqb a b = true <-> a = b.
Proof.
  revert b. induction a as [|x a IH]; intros [|y b]; simpl;
    try (split; [discriminate|intros H; discriminate H]); [tauto|].
  rewrite andb_true_iff, Z.eqb_eq, IH. split.
  - intros [-> ->]. reflexivity.
  - intros H. inversion H. auto.
Qed.

Lemma ueqb_refl (a : Unicode.ustring) : Unicode.eqb a a = true.
Proof. apply ueqb_eq. reflexivity. Qed.

Lemma umem_In (s : Unicode.ustring) (l : list Unicode.ustring) :
  Unicode.mem s l = true <-> In s l.
Proof.
  induction l as [|x l IH]; simpl; [split; [discriminate|tauto]|].
  rewrite orb_true_iff, ueqb_eq, IH. reflexivity.
Qed.

Section DictFacts.
Context {V : Type}.

Lemma get_In (k : Unicode.ustring) (d : list (Unicode.ustring * V)) (v : V) :
  get k d = Some v -> In (k, v) d.
Proof.
  induction d as [|[k' v'] d IH]; simpl; [discriminate|].
  destruct (Unicode.eqb k' k) eqn:E.
  - apply ueqb_eq in E. intros H. inversion H. subst. auto.
  - auto.
Qed.

Lemma set_In (k k0 : Unicode.ustring) (v v0 : V)
    (d : list (Unicode.ustring * V)) :
  In (k, v) (set k0 v0 d) -> (k = k0 /\ v = v0) \/ In (k, v) d.
Proof.
  induction d as [|[k' v'] d IH]; simpl.
  - intros [H|[]]. inversion H. auto.
  - destruct (Unicode.eqb k' k0) eqn:E; simpl.
    + apply ueqb_eq in E. intros [H|H]; [inversion H; subst; auto|auto].
    + intros [H|H]; [auto|]. destruct (IH H); auto.
Qed.

Lemma del_In (x : Unicode.ustring * V) (k0 : Unicode.ustring)
    (d : list (Unicode.ustring * V)) :
  In x (del k0 d) -> In x d.
Proof.
  induction d as [|[k' v'] d IH]; simpl; [tauto|].
  destruct (Unicode.eqb k' k0); simpl; [auto|].
  intros [H|H]; auto.
Qed.

Lemma getitem_In (k : Unicode.ustring) (d : list (Unicode.ustring * V)) (v : V) :
  getitem k d = Ok v -> In (k, v) d.
Proof.
  unfold getitem. destruct (get k d) eqn:E; [|discriminate].
  intros H. inversion H. subst. apply get_In. exact E.
Qed.

End DictFacts.

(** *** Suffixes *)

Lemma endswith_iff (suffix s : Unicode.ustring) :
  Unicode.endswith suffix s = true <-> exists x, s = x ++ suffix.
Proof.
  unfold Unicode.endswith. rewrite andb_true_iff, Nat.leb_le, ueqb_eq. split.
  - intros [Hl E].
    exists (firstn (List.length s - List.length suffix) s).
    rewrite <- E at 2. symmetry. apply firstn_skipn.
  - intros (x & ->). rewrite length_app. split; [lia|].
    replace (List.length x + List.length suffix - List.length suffix)%nat
      with (List.length x + 0)%nat by lia.
    rewrite skipn_app, Nat.add_0_r, skipn_all.
    replace (List.length x - List.length x)%nat with 0%nat by lia.
    reflexivity.
Qed.

Lemma removelast_snoc {A} (x : list A) (a : A) : removelast (x ++ [a]) = x.
Proof. apply removelast_last. Qed.

Lemma last_snoc {A} (x : list A) (a d : A) : List.last (x ++ [a]) d = a.
Proof. apply last_last. Qed.

Lemma last_app_nonempty {A} (x y : list A) (d : A) :
  y <> [] -> List.last (x ++ y) d = List.last y d.
Proof.
  intros Hy. destruct (exists_last Hy) as (y' & a & ->).
  rewrite app_assoc, !last_last. reflexivity.
Qed.

(** A plural key ends with one s; without it, it is no plural. *)
Lemma is_plural_snoc (key : Unicode.ustring) :
  WordCloud.is_plural key = true ->
  exists x, key = x ++ [WordCloud.letter_s] /\ WordCloud.is_plural x = false.
Proof.
  unfold WordCloud.is_plural. rewrite andb_true_iff, negb_true_iff.
  intros [H1 H2]. apply endswith_iff in H1. destruct H1 as (x & ->).
  exists x. split; [reflexivity|].
  destruct (Unicode.endswith [WordCloud.letter_s] x) eqn:E; [|reflexivity].
  exfalso. apply endswith_iff in E. destruct E as (y & ->).
  assert (T : Unicode.endswith [WordCloud.letter_s; WordCloud.letter_s]
                ((y ++ [WordCloud.letter_s]) ++ [WordCloud.letter_s]) = true).
  { apply endswith_iff. exists y. rewrite <- app_assoc. reflexivity. }
  congruence.
Qed.

Lemma is_plural_removelast (key : Unicode.ustring) :
  WordCloud.is_plural key = true ->
  WordCloud.is_plural (removelast key) = false.
Proof.
  intros H. destruct (is_plural_snoc key H) as (x & -> & Hx).
  rewrite removelast_snoc. exact Hx.
Qed.

(** *** Lower case *)

Section LowerFacts.
Variable db : Unicode.Database.

Lemma ascii_not_sigma (c : Unicode.codepoint) :
  Unicode.is_ascii c = true -> (c =? Unicode.CAPITAL_SIGMA) = false.
Proof.
  unfold Unicode.is_ascii, Unicode.CAPITAL_SIGMA. rewrite Z.ltb_lt, Z.eqb_neq.
  lia.
Qed.

(** On ASCII text [lower] works character by character. *)
Lemma do_lower_ascii (before s : Unicode.ustring) :
  CloudProps.all_ascii s ->
  Unicode.do_lower db before s = map Unicode.ascii_tolower s.
Proof.
  revert before. induction s as [|c s IH]; intros before H; [reflexivity|].
  cbn [Unicode.do_lower map].
  rewrite (ascii_not_sigma c) by (apply H; simpl; auto).
  unfold Unicode.tolower. rewrite (H c) by (simpl; auto).
  simpl. f_equal. apply IH. intros x Hx. apply H. simpl. auto.
Qed.

Lemma lower_ascii (s : Unicode.ustring) :
  CloudProps.all_ascii s -> Unicode.lower db s = map Unicode.ascii_tolower s.
Proof. apply do_lower_ascii. Qed.

Lemma do_lower_snoc (before x : Unicode.ustring) (c : Unicode.codepoint) :
  exists front,
    Unicode.do_lower db before (x ++ [c])
    = front ++ CloudProps.lower_at db (rev x ++ before) c [].
Proof.
  revert before. induction x as [|a x IH]; intros before.
  - exists []. simpl. unfold CloudProps.lower_at. rewrite app_nil_r. reflexivity.
  - destruct (IH (a :: before)) as (front & E).
    cbn [app Unicode.do_lower]. rewrite E.
    exists ((if a =? Unicode.CAPITAL_SIGMA
             then [Unicode.handle_capital_sigma db before (x ++ [c])]
             else Unicode.tolower db a) ++ front).
    cbn [rev]. rewrite <- !app_assoc. reflexivity.
Qed.

Lemma ascii_tolower_s (c : Unicode.codepoint) :
  Unicode.ascii_tolower c = WordCloud.letter_s -> c = 115 \/ c = 83.
Proof.
  unfold Unicode.ascii_tolower, Unicode.ascii_upper, WordCloud.letter_s.
  destruct ((65 <=? c) && (c <=? 90)); lia.
Qed.

Lemma s_is_ascii (c : Unicode.codepoint) :
  c = 115 \/ c = 83 ->
  Unicode.is_ascii c = true /\ Unicode.ascii_tolower c = WordCloud.letter_s.
Proof. intros [->| ->]; split; reflexivity. Qed.

Hypothesis Hdb : CloudProps.lower_s_only_from_s db.

Lemma lower_at_last (before after : Unicode.ustring) (c : Unicode.codepoint) :
  CloudProps.lower_at db before c after <> [] /\
  (List.last (CloudProps.lower_at db before c after) 0 = WordCloud.letter_s ->
   c = 115 \/ c = 83).
Proof.
  unfold CloudProps.lower_at. destruct (c =? Unicode.CAPITAL_SIGMA) eqn:Es.
  - split; [discriminate|]. unfold Unicode.handle_capital_sigma.
    destruct (_ && _); simpl; intros H; discriminate H.
  - unfold Unicode.tolower. destruct (Unicode.is_ascii c) eqn:Ea.
    + split; [discriminate|]. simpl. apply ascii_tolower_s.
    + destruct (Hdb c Ea) as [Hn Hl]. split; [exact Hn|].
      intros H. contradiction.
Qed.

(** A text whose lower-case form ends with s ends with s or S. *)
Lemma lower_ends_with_s (v : Unicode.ustring) :
  Unicode.endswith [WordCloud.letter_s] (Unicode.lower db v) = true ->
  exists x c, v = x ++ [c] /\ (c = 115 \/ c = 83).
Proof.
  intros H. apply endswith_iff in H. destruct H as (y & Hy).
  destruct v as [|a v'] using rev_ind.
  - destruct y; discriminate Hy.
  - clear IHv'. exists v', a. split; [reflexivity|].
    unfold Unicode.lower in Hy.
    destruct (do_lower_snoc [] v' a) as (front & E). rewrite E in Hy.
    destruct (lower_at_last (rev v' ++ []) [] a) as [Hn Hl].
    apply Hl. rewrite <- (last_app_nonempty front _ 0 Hn), Hy.
    apply last_snoc.
Qed.

End LowerFacts.

(** ** The spellings kept by [process_tokens] *)

Section TokenKeys.
Variable db : Unicode.Database.

(** The words handed to [process_tokens]. *)
Variable words : list Unicode.ustring.

Lemma bump_case_ok (key w : Unicode.ustring) (n : Z)
    (d : list (Unicode.ustring * WordCloud.counts)) :
  CloudProps.table_ok db words d ->
  (exists w0, In w0 words /\ Unicode.lower db w0 = key) ->
  CloudProps.origin db words key w ->
  CloudProps.table_ok db words (WordCloud.bump_case key w n d).
Proof.
  intros Hd Hk Hw key' cd' Hin. unfold WordCloud.bump_case in Hin.
  apply set_In in Hin. destruct Hin as [[-> ->]|Hin]; [|apply Hd; exact Hin].
  split; [exact Hk|].
  intros w' c' Hin'. unfold WordCloud.bump in Hin'.
  apply set_In in Hin'. destruct Hin' as [[-> _]|Hin']; [exact Hw|].
  destruct (get key d) as [cd|] eqn:E; [|contradiction].
  apply get_In in E. destruct (Hd _ _ E) as [_ H]. eapply H. exact Hin'.
Qed.

Lemma case_table_ok (ws : list Unicode.ustring)
    (d : list (Unicode.ustring * WordCloud.counts)) :
  CloudProps.table_ok db words d -> incl ws words ->
  CloudProps.table_ok db words
    (fold_left (fun d0 word =>
                  WordCloud.bump_case (Unicode.lower db word) word 1 d0) ws d).
Proof.
  revert d. induction ws as [|w ws IH]; intros d Hd Hw; simpl; [exact Hd|].
  assert (Hin : In w words) by (apply Hw; simpl; auto).
  apply IH.
  - apply bump_case_ok; [exact Hd|eauto|]. left. auto.
  - intros w' H'. apply Hw. simpl. auto.
Qed.

Lemma merge_fold_ok (key_singular : Unicode.ustring)
    (dict_plural : WordCloud.counts)
    (d : list (Unicode.ustring * WordCloud.counts)) :
  CloudProps.table_ok db words d ->
  (exists w0, In w0 words /\ Unicode.lower db w0 = key_singular) ->
  (forall w c, In (w, c) dict_plural ->
               CloudProps.origin db words key_singular (removelast w)) ->
  CloudProps.table_ok db words
    (fold_left (fun d0 wc => WordCloud.bump_case key_singular
                               (removelast (fst wc)) (snd wc) d0)
               dict_plural d).
Proof.
  revert d. induction dict_plural as [|[w c] rest IH]; intros d Hd Hk Hw;
    simpl; [exact Hd|].
  apply IH; [|exact Hk|].
  - apply bump_case_ok; [exact Hd|exact Hk|]. apply (Hw w c). simpl. auto.
  - intros w' c' Hin. apply (Hw w' c'). simpl. auto.
Qed.

(** A spelling filed under a plural key is a word of the input: the keys
    that have received a merged spelling are no plurals. *)
Lemma origin_under_plural (key w : Unicode.ustring) :
  WordCloud.is_plural key = true ->
  CloudProps.origin db words key w ->
  In w words /\ Unicode.lower db w = key.
Proof.
  intros Hp [H|(v & _ & _ & Hv & ->)]; [exact H|].
  apply is_plural_removelast in Hv. congruence.
Qed.

Lemma merge_plural_ok (st : list (Unicode.ustring * WordCloud.counts)
                            * list (Unicode.ustring * Unicode.ustring))
    (key : Unicode.ustring) :
  CloudProps.table_ok db words (fst st) ->
  CloudProps.table_ok db words (fst (WordCloud.merge_plural st key)).
Proof.
  destruct st as [d merged]. simpl. intros Hd.
  destruct (WordCloud.is_plural key) eqn:Hp; [|exact Hd].
  destruct (get (removelast key) d) as [cs|] eqn:Es; [|exact Hd].
  destruct (get key d) as [dict_plural|] eqn:Ep; [|exact Hd].
  simpl. intros wl cd Hin. apply del_In in Hin. revert wl cd Hin.
  apply get_In in Es. apply get_In in Ep.
  apply merge_fold_ok; [exact Hd|apply (Hd _ _ Es)|].
  intros w c Hin. destruct (Hd _ _ Ep) as [_ H].
  destruct (origin_under_plural key w Hp (H w c Hin)) as [Hw El].
  right. exists w. rewrite El. auto.
Qed.

Lemma merge_plurals_ok (keys : list Unicode.ustring)
    (st : list (Unicode.ustring * WordCloud.counts)
          * list (Unicode.ustring * Unicode.ustring)) :
  CloudProps.table_ok db words (fst st) ->
  CloudProps.table_ok db words (fst (fold_left WordCloud.merge_plural keys st)).
Proof.
  revert st. induction keys as [|k keys IH]; intros st H; simpl; [exact H|].
  apply IH. apply merge_plural_ok. exact H.
Qed.

Lemma max_item_In (best : Unicode.ustring * Z) (items : WordCloud.counts) :
  WordCloud.max_item best items = best \/ In (WordCloud.max_item best items) items.
Proof.
  revert best. induction items as [|it items IH]; intros best; simpl; [auto|].
  destruct (IH (if snd best <? snd it then it else best)) as [H|H]; [|auto].
  rewrite H. destruct (snd best <? snd it); auto.
Qed.

Lemma most_popular_In (cd : WordCloud.counts) (first : Unicode.ustring) :
  WordCloud.most_popular cd = Ok first -> exists c, In (first, c) cd.
Proof.
  destruct cd as [|it items]; simpl; [discriminate|].
  intros H. inversion H.
  exists (snd (WordCloud.max_item it items)).
  rewrite <- surjective_pairing.
  destruct (max_item_In it items) as [E|E]; [rewrite E|]; auto.
Qed.

Lemma fuse_keys (d : list (Unicode.ustring * WordCloud.counts))
    (fused : WordCloud.counts) (std : list (Unicode.ustring * Unicode.ustring))
    (fused' : WordCloud.counts)
    (std' : list (Unicode.ustring * Unicode.ustring)) :
  CloudProps.table_ok db words d ->
  (forall k c, In (k, c) fused ->
     exists key, (exists w0, In w0 words /\ Unicode.lower db w0 = key) /\
                 CloudProps.origin db words key k) ->
  WordCloud.fuse d fused std = Ok (fused', std') ->
  forall k c, In (k, c) fused' ->
    exists key, (exists w0, In w0 words /\ Unicode.lower db w0 = key) /\
                CloudProps.origin db words key k.
Proof.
  revert fused std. induction d as [|[wl cd] d IH]; intros fused std Hd Hf; simpl.
  - intros H. inversion H. subst. exact Hf.
  - destruct (WordCloud.most_popular cd) as [first|e] eqn:E; simpl;
      [|discriminate].
    apply IH.
    + intros wl' cd' Hin. apply Hd. simpl. auto.
    + intros k c Hin. apply set_In in Hin. destruct Hin as [[-> _]|Hin].
      * apply most_popular_In in E. destruct E as [c' Hc].
        destruct (Hd wl cd (or_introl eq_refl)) as [Hk Hw].
        exists wl. split; [exact Hk|]. eapply Hw. exact Hc.
      * eapply Hf. exact Hin.
Qed.

End TokenKeys.

(** Every spelling counted by [process_tokens] is a word of the input,
    filed under its lower-case form, or a word of the input without its
    last character, whose lower-case form is a plural of the lower-case
    form of another word of the input. *)
Lemma process_tokens_keys (db : Unicode.Database) (words : list Unicode.ustring)
    (fused : WordCloud.counts) (std : list (Unicode.ustring * Unicode.ustring)) :
  WordCloud.process_tokens db words = Ok (fused, std) ->
  forall k c, In (k, c) fused ->
    exists key, (exists w0, In w0 words /\ Unicode.lower db w0 = key) /\
                CloudProps.origin db words key k.
Proof.
  unfold WordCloud.process_tokens.
  set (d := fold_left _ words []).
  assert (Hd : CloudProps.table_ok db words d).
  { apply case_table_ok; [|apply incl_refl]. intros wl cd []. }
  pose proof (merge_plurals_ok db words (map fst d) (d, []) Hd) as Hm.
  destruct (fold_left WordCloud.merge_plural (map fst d) (d, []))
    as [d1 merged]. simpl in Hm.
  destruct (WordCloud.fuse d1 [] []) as [[f s]|e] eqn:Ef; simpl; [|discriminate].
  destruct (WordCloud.add_plurals db merged s) as [s'|e]; simpl; [|discriminate].
  intros H. inversion H. subst.
  eapply fuse_keys; [exact Hm| |exact Ef].
  intros k c [].
Qed.

(** ** Stopwords and the words of the text *)

Lemma byte_val_range (c : ascii) : 0 <= Unicode.byte_val c < 256.
Proof.
  unfold Unicode.byte_val.
  pose proof (N_ascii_bounded c) as H. lia.
Qed.

(** The characters of an ASCII text are its bytes. *)
Lemma decode_ascii (s : string) :
  CloudProps.ascii_word s ->
  Unicode.decode_utf8 s = map Unicode.byte_val (list_ascii_of_string s).
Proof.
  unfold Unicode.decode_utf8. induction s as [|c s IH]; intros H;
    [reflexivity|].
  cbn [Unicode.decode_from list_ascii_of_string map].
  assert (Hc : (Unicode.byte_val c <? 128) = true).
  { apply Z.ltb_lt. apply (H c). simpl. auto. }
  unfold Unicode.lead. rewrite Hc. cbn [Unicode.emit]. f_equal.
  apply IH. intros x Hx. apply H. simpl. auto.
Qed.

Lemma decode_ascii_word (s : string) :
  CloudProps.ascii_word s ->
  CloudProps.all_ascii (Unicode.decode_utf8 s) /\
  ~ In WordCloud.space (Unicode.decode_utf8 s).
Proof.
  intros H. rewrite (decode_ascii s H). split.
  - intros c Hc. apply in_map_iff in Hc. destruct Hc as (a & <- & Ha).
    apply Z.ltb_lt. apply (H a Ha).
  - intros Hc. apply in_map_iff in Hc. destruct Hc as (a & E & Ha).
    apply (H a Ha). exact E.
Qed.

Section Stopwords.
Variable db : Unicode.Database.
Hypothesis Hdb : CloudProps.lower_s_only_from_s db.

(** The stopwords as the script hands them over, and as the library
    compares them. *)
Variable stops : list string.
Hypothesis Hstops : forall s, In s stops -> CloudProps.ascii_word s.

Lemma lowered_stop (s : string) :
  In s stops ->
  Unicode.mem (Unicode.lower db (Unicode.decode_utf8 s))
    (map (fun i => Unicode.lower db (Unicode.decode_utf8 i)) stops) = true.
Proof.
  intros H. apply umem_In.
  apply (in_map (fun i => Unicode.lower db (Unicode.decode_utf8 i))). exact H.
Qed.

(** No spelling kept from the unigrams is a stopword. *)
Lemma unigram_not_stopword (unigrams : list Unicode.ustring)
    (key k : Unicode.ustring) :
  (forall w, In w unigrams ->
     Unicode.mem (Unicode.lower db w)
       (map (fun i => Unicode.lower db (Unicode.decode_utf8 i)) stops) = false) ->
  (exists w0, In w0 unigrams /\ Unicode.lower db w0 = key) ->
  CloudProps.origin db unigrams key k ->
  ~ In k (map Unicode.decode_utf8 stops).
Proof.
  intros Hu (w0 & Hw0 & Ek) Ho Hin.
  apply in_map_iff in Hin. destruct Hin as (s & Es & Hs).
  pose proof (lowered_stop s Hs) as Ht. rewrite Es in Ht.
  destruct Ho as [[Hk _]|(v & Hv & Ev & Hp & Ekey)].
  - rewrite (Hu k Hk) in Ht. discriminate Ht.
  - assert (El : Unicode.lower db k = key).
    { unfold WordCloud.is_plural in Hp. apply andb_true_iff in Hp.
      destruct Hp as [Hp _].
      destruct (lower_ends_with_s db Hdb v Hp) as (x & c & -> & Hc).
      rewrite removelast_snoc in Ev. subst x.
      destruct (s_is_ascii c Hc) as [Ha Hl].
      destruct (decode_ascii_word s (Hstops s Hs)) as [Hk _].
      rewrite Es in Hk.
      assert (Hv' : CloudProps.all_ascii (k ++ [c])).
      { intros y Hy. apply in_app_or in Hy.
        destruct Hy as [Hy|[<-|[]]]; [apply Hk; exact Hy|exact Ha]. }
      rewrite (lower_ascii db _ Hv') in Ekey.
      rewrite map_app in Ekey. cbn [map] in Ekey.
      rewrite removelast_snoc in Ekey.
      rewrite (lower_ascii db _ Hk). symmetry. exact Ekey. }
    rewrite El, <- Ek, (Hu w0 Hw0) in Ht. discriminate Ht.
Qed.

(** Every spelling kept from the bigrams holds a blank, which no stopword
    does. *)
Lemma bigram_has_blank (bigrams : list (Unicode.ustring * Unicode.ustring))
    (key k : Unicode.ustring) :
  CloudProps.origin db (map WordCloud.join_bigram bigrams) key k ->
  In WordCloud.space k.
Proof.
  intros [[Hk _]|(v & Hv & -> & Hp & _)].
  - apply in_map_iff in Hk. destruct Hk as ([a b] & <- & _).
    unfold WordCloud.join_bigram. simpl. apply in_or_app. right. simpl. auto.
  - unfold WordCloud.is_plural in Hp. apply andb_true_iff in Hp.
    destruct Hp as [Hp _].
    destruct (lower_ends_with_s db Hdb v Hp) as (x & c & E & Hc).
    apply in_map_iff in Hv. destruct Hv as ([a b] & Ej & _).
    unfold WordCloud.join_bigram in Ej. cbn [fst snd] in Ej.
    rewrite E in *. rewrite removelast_snoc.
    destruct b as [|b0 b'] using rev_ind.
    + rewrite app_nil_r in Ej. apply app_inj_tail in Ej.
      destruct Ej as [_ Ec]. unfold WordCloud.space in Ec. lia.
    + clear IHb'. rewrite !app_assoc in Ej. apply app_inj_tail in Ej.
      destruct Ej as [<- _]. apply in_or_app. left. apply in_or_app. right.
      simpl. auto.
Qed.

Lemma bigram_not_stopword (bigrams : list (Unicode.ustring * Unicode.ustring))
    (key k : Unicode.ustring) :
  CloudProps.origin db (map WordCloud.join_bigram bigrams) key k ->
  ~ In k (map Unicode.decode_utf8 stops).
Proof.
  intros Ho Hin. apply bigram_has_blank in Ho.
  apply in_map_iff in Hin. destruct Hin as (s & <- & Hs).
  destruct (decode_ascii_word s (Hstops s Hs)) as [_ Hn]. contradiction.
Qed.

End Stopwords.

(** ** The counts of [unigrams_and_bigrams] *)

Section CollocationKeys.
Variable db : Unicode.Database.
Variable is_collocation : Z -> Z -> Z -> Z -> bool.
Variable P : Unicode.ustring -> Prop.

Lemma add_collocation_keys (std : list (Unicode.ustring * Unicode.ustring))
    (orig : WordCloud.counts) (n : Z) (cu cu' : WordCloud.counts)
    (item : Unicode.ustring * Z) :
  (forall k c, In (k, c) cu -> P k) -> P (fst item) ->
  WordCloud.add_collocation db is_collocation std orig n cu item = Ok cu' ->
  forall k c, In (k, c) cu' -> P k.
Proof.
  intros Hcu Hitem. unfold WordCloud.add_collocation.
  destruct item as [bigram_string count]. simpl in Hitem.
  destruct (WordCloud.split_space bigram_string []) as [|b0 [|b1 bs]];
    try discriminate.
  destruct (getitem (Unicode.lower db b0) std) as [word1|] eqn:E1; simpl;
    [|discriminate].
  destruct (getitem (Unicode.lower db b1) std) as [word2|] eqn:E2; simpl;
    [|discriminate].
  destruct (getitem word1 orig) as [c1|] eqn:E3; simpl; [|discriminate].
  destruct (getitem word2 orig) as [c2|] eqn:E4; simpl; [|discriminate].
  destruct (is_collocation count c1 c2 n).
  - destruct (getitem word1 cu) as [u1|] eqn:E5; simpl; [|discriminate].
    destruct (getitem word2 (set word1 (u1 - count) cu)) as [u2|] eqn:E6;
      simpl; [|discriminate].
    intros H k c Hin. inversion H. subst cu'.
    apply getitem_In in E5.
    apply set_In in Hin. destruct Hin as [[-> _]|Hin]; [exact Hitem|].
    apply set_In in Hin. destruct Hin as [[-> _]|Hin].
    + apply getitem_In in E6. apply set_In in E6.
      destruct E6 as [[-> _]|E6]; eapply Hcu; eassumption.
    + apply set_In in Hin. destruct Hin as [[-> _]|Hin]; eapply Hcu; eassumption.
  - intros H. inversion H. subst. exact Hcu.
Qed.

Lemma add_collocations_keys (std : list (Unicode.ustring * Unicode.ustring))
    (orig : WordCloud.counts) (n : Z) (items cu cu' : WordCloud.counts) :
  (forall k c, In (k, c) cu -> P k) ->
  (forall k c, In (k, c) items -> P k) ->
  WordCloud.add_collocations db is_collocation std orig n cu items = Ok cu' ->
  forall k c, In (k, c) cu' -> P k.
Proof.
  revert cu. induction items as [|item items IH]; intros cu Hcu Hitems; simpl.
  - intros H. inversion H. subst. exact Hcu.
  - destruct (WordCloud.add_collocation db is_collocation std orig n cu item)
      as [cu1|] eqn:E; simpl; [|discriminate].
    apply IH.
    + eapply add_collocation_keys; [exact Hcu| |exact E].
      destruct item as [k c]. apply (Hitems k c). simpl. auto.
    + intros k c Hin. apply (Hitems k c). simpl. auto.
Qed.

End CollocationKeys.

(** The words counted by [unigrams_and_bigrams]: each has a positive count
    and the property that holds of every spelling kept from the unigrams
    and of every spelling kept from the bigrams. *)
Lemma unigrams_and_bigrams_keys (db : Unicode.Database)
    (is_collocation : Z -> Z -> Z -> Z -> bool)
    (words lowered : list Unicode.ustring) (counted : WordCloud.counts)
    (P : Unicode.ustring -> Prop) :
  (forall unigrams key k,
     (forall w, In w unigrams ->
                Unicode.mem (Unicode.lower db w) lowered = false) ->
     (exists w0, In w0 unigrams /\ Unicode.lower db w0 = key) ->
     CloudProps.origin db unigrams key k -> P k) ->
  (forall bigrams key k,
     CloudProps.origin db (map WordCloud.join_bigram bigrams) key k -> P k) ->
  WordCloud.unigrams_and_bigrams db is_collocation words lowered = Ok counted ->
  forall k c, In (k, c) counted -> P k /\ 0 < c.
Proof.
  intros Hu Hb. unfold WordCloud.unigrams_and_bigrams.
  set (unigrams := filter _ words).
  set (bigrams := filter _ (WordCloud.pairwise words)).
  destruct (WordCloud.process_tokens db unigrams) as [[uc us]|] eqn:Eu; simpl;
    [|discriminate].
  destruct (WordCloud.process_tokens db (map _ bigrams)) as [[bc bs]|] eqn:Eb;
    simpl; [|discriminate].
  destruct (WordCloud.add_collocations _ _ _ _ _ _ _) as [cu|] eqn:Ec; simpl;
    [|discriminate].
  intros H k c Hin. inversion H. subst counted.
  apply filter_In in Hin. destruct Hin as [Hin Hc].
  split; [|simpl in Hc; apply negb_true_iff, Z.leb_gt in Hc; exact Hc].
  clear Hc. revert k c Hin.
  eapply (add_collocations_keys db is_collocation P); [| |exact Ec].
  - intros k c Hin.
    destruct (process_tokens_keys db unigrams uc us Eu k c Hin)
      as (key & Hkey & Ho).
    apply (Hu unigrams key k); [|exact Hkey|exact Ho].
    intros w Hw. apply filter_In in Hw. destruct Hw as [_ Hw].
    apply negb_true_iff in Hw. exact Hw.
  - intros k c Hin.
    destruct (process_tokens_keys db _ bc bs Eb k c Hin) as (key & _ & Ho).
    apply (Hb bigrams key k). exact Ho.
Qed.

(** ** The stopword set and the size of the cloud *)

Lemma set_update_In (s : string) (base xs : list string) :
  In s (set_update base xs) <-> In s base \/ In s xs.
Proof.
  unfold set_update. revert base.
  induction xs as [|x xs IH]; intros base; simpl; [tauto|].
  rewrite IH. destruct (Str.mem x base) eqn:E.
  - apply mem_In in E. split; [tauto|].
    intros [H|[<-|H]]; auto.
  - rewrite in_app_iff. simpl. tauto.
Qed.

Lemma firstn_In {A} (n : nat) (l : list A) (x : A) :
  In x (firstn n l) -> In x l.
Proof.
  revert l. induction n as [|n IH]; intros [|y l]; simpl; try tauto.
  intros [H|H]; auto.
Qed.

Lemma slice_to_In {A} (n : Z) (l : list A) (x : A) :
  In x (WordCloud.slice_to n l) -> In x l.
Proof.
  unfold WordCloud.slice_to. destruct (n <? 0); apply firstn_In.
Qed.

(** A generated cloud keeps the first words of the ranking, draws the
    first of those it keeps, and is never empty. *)
Lemma generate_from_frequencies_words (drawn : WordCloud.counts -> nat)
    (cfg : WordCloud.config) (frequencies : WordCloud.counts)
    (wc : WordCloud.cloud) :
  WordCloud.generate_from_frequencies drawn cfg frequencies = Ok wc ->
  WordCloud.settings wc = cfg /\
  WordCloud.words_ wc
    = WordCloud.slice_to (WordCloud.max_words cfg)
        (Seq.sort (fun a b => snd b <=? snd a) frequencies) /\
  WordCloud.layout_ wc
    = firstn (drawn (WordCloud.words_ wc)) (WordCloud.words_ wc) /\
  WordCloud.words_ wc <> [].
Proof.
  unfold WordCloud.generate_from_frequencies.
  destruct (List.length _ <=? 0)%nat; [discriminate|].
  destruct (WordCloud.slice_to _ _) as [|x [|y l]] eqn:E; [discriminate| |].
  - intros H. inversion H. subst wc. simpl.
    repeat split; discriminate.
  - destruct (drawn (x :: y :: l) =? 0)%nat; [discriminate|].
    intros H. inversion H. subst wc. simpl.
    repeat split; discriminate.
Qed.

Lemma slice_to_length {A} (n : Z) (l : list A) :
  0 <= n -> Z.of_nat (List.length (WordCloud.slice_to n l)) <= n.
Proof.
  intros H. unfold WordCloud.slice_to.
  destruct (n <? 0) eqn:E; [apply Z.ltb_lt in E; lia|].
  pose proof (firstn_le_length (Z.to_nat n) l). lia.
Qed.

(** ** C6: stopwords and the size of the cloud *)

(** The cloud the Text Analysis tab shows is the one generated from the
    joined texts of the selected class. *)
Lemma text_analysis_cloud (STOPWORDS : list string)
    (is_collocation : Z -> Z -> Z -> Z -> bool)
    (drawn : WordCloud.counts -> nat)
    (savefig : WordCloud.cloud -> list Byte.byte)
    (db : Unicode.Database)
    (w : Widgets) (data : DataFrame) (wc : WordCloud.cloud) :
  In (Pyplot wc)
     (fst (text_analysis STOPWORDS is_collocation drawn savefig db w data)) ->
  WordCloud.generate db is_collocation drawn (wordcloud_config STOPWORDS w)
    (Str.join " " (col_text (getitem_mask data
        (eq_str (col_airline_sentiment data) (word_sentiment w)))))
  = Ok wc.
Proof.
  unfold text_analysis.
  destruct (negb (String.eqb (word_sentiment w) EmptyString)).
  - destruct (WordCloud.generate db is_collocation drawn _ _) as [wc'|e]; simpl.
    + intros [H|[H|[H|[H|[H|[]]]]]]; try discriminate H.
      inversion H. reflexivity.
    + intros [H|[H|[H|[]]]]; discriminate H.
  - simpl. intros [H|[H|[H|[]]]]; discriminate H.
Qed.

Lemma custom_stopwords_ascii (s : string) :
  In s custom_stopwords -> CloudProps.ascii_word s.
Proof.
  intros H c Hc. simpl in H.
  destruct H as [<-|[<-|[<-|[<-|[]]]]]; simpl in Hc;
    repeat (destruct Hc as [<-|Hc]; [vm_compute; split; [reflexivity|discriminate]|]);
    contradiction.
Qed.

(** C6. The stopword set handed to the word cloud is the library's list
    extended with http, https, co and RT.  For every text and every
    non-negative maximum word count, when the generation returns a cloud,
    none of its words, kept or drawn, is a member of that set, and it has at
    most the configured number of words.  The library's list is a parameter;
    it is assumed to hold ASCII words without a blank, as the list of English
    words of the library does.  The Unicode tables are a parameter as well;
    the one fact used is that no character outside ASCII has a lower-case
    form that is empty or ends with the letter s. *)
Theorem word_cloud_excludes_stopwords (STOPWORDS : list string)
    (db : Unicode.Database)
    (is_collocation : Z -> Z -> Z -> Z -> bool)
    (drawn : WordCloud.counts -> nat)
    (w : Widgets) (text : string) (wc : WordCloud.cloud)
    (Hwords : forall s, In s STOPWORDS -> CloudProps.ascii_word s)
    (Hdb : CloudProps.lower_s_only_from_s db)
    (Hmax : 0 <= max_words w)
    (Hgen : WordCloud.generate db is_collocation drawn
              (wordcloud_config STOPWORDS w) text = Ok wc) :
  (forall s, In s (WordCloud.stopwords (wordcloud_config STOPWORDS w)) <->
             In s STOPWORDS \/ In s ["http"; "https"; "co"; "RT"]) /\
  (forall e, In e (CloudProps.entries (WordCloud.words_ wc)) ->
             ~ In e (map Unicode.decode_utf8
                       (WordCloud.stopwords (wordcloud_config STOPWORDS w)))) /\
  (forall e, In e (CloudProps.entries (WordCloud.layout_ wc)) ->
             ~ In e (map Unicode.decode_utf8
                       (WordCloud.stopwords (wordcloud_config STOPWORDS w)))) /\
  Z.of_nat (List.length (WordCloud.words_ wc)) <= max_words w /\
  Z.of_nat (List.length (WordCloud.layout_ wc)) <= max_words w.
Proof.
  assert (Hset : forall s,
            In s (WordCloud.stopwords (wordcloud_config STOPWORDS w)) <->
            In s STOPWORDS \/ In s ["http"; "https"; "co"; "RT"]).
  { intros s. exact (set_update_In s STOPWORDS custom_stopwords). }
  assert (Hascii : forall s,
            In s (WordCloud.stopwords (wordcloud_config STOPWORDS w)) ->
            CloudProps.ascii_word s).
  { intros s Hs. apply Hset in Hs. destruct Hs as [Hs|Hs]; [auto|].
    apply custom_stopwords_ascii. exact Hs. }
  unfold WordCloud.generate, WordCloud.process_text in Hgen.
  destruct (WordCloud.unigrams_and_bigrams _ _ _ _) as [counted|] eqn:Ec;
    simpl in Hgen; [|discriminate].
  destruct (generate_from_frequencies_words _ _ _ _ Hgen)
    as (_ & Hwords_ & Hlayout & _).
  assert (Hno : forall e, In e (CloudProps.entries (WordCloud.words_ wc)) ->
             ~ In e (map Unicode.decode_utf8
                       (WordCloud.stopwords (wordcloud_config STOPWORDS w)))).
  { intros e He. unfold CloudProps.entries in He.
    apply in_map_iff in He. destruct He as ([k c] & <- & Hin). simpl.
    rewrite Hwords_ in Hin. apply slice_to_In in Hin.
    apply (Permutation_in _ (Permutation_sym (sort_perm _ _))) in Hin.
    refine (proj1 (unigrams_and_bigrams_keys db is_collocation _ _ _
                     (fun k => ~ In k (map Unicode.decode_utf8
                        (WordCloud.stopwords (wordcloud_config STOPWORDS w))))
                     _ _ Ec k c Hin)).
    - intros unigrams key k0 Hu Hkey Ho.
      exact (unigram_not_stopword db Hdb _ Hascii unigrams key k0 Hu Hkey Ho).
    - intros bigrams key k0 Ho.
      exact (bigram_not_stopword db Hdb _ Hascii bigrams key k0 Ho). }
  split; [exact Hset|]. split; [exact Hno|].
  assert (Hlen : Z.of_nat (List.length (WordCloud.words_ wc)) <= max_words w).
  { rewrite Hwords_. apply slice_to_length. exact Hmax. }
  split; [|split; [exact Hlen|]].
  - intros e He. apply Hno. unfold CloudProps.entries in *.
    apply in_map_iff in He. destruct He as (x & <- & Hx).
    apply in_map. rewrite Hlayout in Hx. apply firstn_In in Hx. exact Hx.
  - rewrite Hlayout.
    pose proof (firstn_le_length (drawn (WordCloud.words_ wc))
                  (WordCloud.words_ wc)) as H1.
    rewrite length_firstn. lia.
Qed.

Lemma ascii_db_lower : CloudProps.lower_s_only_from_s ascii_db.
Proof.
  intros c Hc. simpl. split; [discriminate|].
  unfold Unicode.is_ascii in Hc. apply Z.ltb_ge in Hc.
  unfold WordCloud.letter_s. lia.
Qed.

Lemma sample_stopwords_ascii (s : string) :
  In s sample_stopwords -> CloudProps.ascii_word s.
Proof.
  intros H c Hc. simpl in H.
  destruct H as [<-|[<-|[<-|[<-|[<-|[<-|[]]]]]]]; simpl in Hc;
    repeat (destruct Hc as [<-|Hc]; [vm_compute; split; [reflexivity|discriminate]|]);
    contradiction.
Qed.

Lemma word_cloud_excludes_stopwords_witness :
  (forall s, In s sample_stopwords -> CloudProps.ascii_word s) /\
  CloudProps.lower_s_only_from_s ascii_db /\
  0 <= max_words sample_widgets /\
  WordCloud.generate ascii_db never_collocation draw_all
    (wordcloud_config sample_stopwords sample_widgets) sample_text
  = Ok sample_cloud /\
  (forall e, In e (CloudProps.entries (WordCloud.words_ sample_cloud)) ->
             ~ In e (map Unicode.decode_utf8
                       (WordCloud.stopwords
                          (wordcloud_config sample_stopwords sample_widgets)))) /\
  Z.of_nat (List.length (WordCloud.words_ sample_cloud))
    <= max_words sample_widgets.
Proof.
  assert (H2 : 0 <= max_words sample_widgets) by (simpl; lia).
  assert (H3 : WordCloud.generate ascii_db never_collocation draw_all
                 (wordcloud_config sample_stopwords sample_widgets) sample_text
               = Ok sample_cloud) by (vm_compute; reflexivity).
  pose proof (word_cloud_excludes_stopwords sample_stopwords ascii_db
                never_collocation draw_all sample_widgets sample_text
                sample_cloud sample_stopwords_ascii ascii_db_lower H2 H3) as H.
  destruct H as (_ & Hno & _ & Hlen & _).
  split; [exact sample_stopwords_ascii|]. split; [exact ascii_db_lower|].
  split; [exact H2|]. split; [exact H3|].
  split; [exact Hno|exact Hlen].
Defined.

(** * Further properties of the script *)

Import Picker MoreProps.

(** ** The order of dates *)

Lemma date_leb_iff (a b : Calendar.date) :
  date_leb a b = true <->
  year a < year b \/
  (year a = year b /\
   (month a < month b \/ (month a = month b /\ day a <= day b))).
Proof.
  unfold date_leb, date_compare, lex.
  destruct (Z.compare_spec (year a) (year b));
    destruct (Z.compare_spec (month a) (month b));
    destruct (Z.compare_spec (day a) (day b));
    split; intros Hx; try reflexivity; try discriminate Hx; lia.
Qed.

Lemma date_leb_refl (a : Calendar.date) : date_leb a a = true.
Proof. apply date_leb_iff. lia. Qed.

Lemma date_leb_trans (a b c : Calendar.date) :
  date_leb a b = true -> date_leb b c = true -> date_leb a c = true.
Proof. rewrite !date_leb_iff. lia. Qed.

Lemma date_leb_total (a b : Calendar.date) :
  date_leb a b = false -> date_leb b a = true.
Proof.
  intros H. apply date_leb_iff.
  destruct (date_leb b a) eqn:E; [apply date_leb_iff; exact E|].
  exfalso.
  assert (N1 : ~ (date_leb a b = true)) by congruence.
  assert (N2 : ~ (date_leb b a = true)) by congruence.
  rewrite date_leb_iff in N1, N2. lia.
Qed.

(** ** X1: the loader *)

Lemma build_rows_shape (recs : list Tweet) (i : Z) :
  let rs := build_rows i recs (map dt_date (map tweet_created recs)) in
  map tweet rs = recs /\
  map index rs = map (fun k => i + Z.of_nat k) (seq 0 (List.length recs)) /\
  map date rs = map (fun t => dt_date (tweet_created t)) recs /\
  (forall r, In r rs -> time r = None).
Proof.
  revert i. induction recs as [|t recs IH]; intros i; cbv zeta.
  - simpl. repeat split; try reflexivity. intros r [].
  - destruct (IH (i + 1)) as (Ht & Hi & Hd & Hn).
    cbn [build_rows map List.length seq]. rewrite Ht, Hi, Hd.
    split; [reflexivity|]. split; [|split; [reflexivity|]].
    + f_equal; [simpl; lia|]. rewrite <- seq_shift, map_map.
      apply map_ext. intros k. lia.
    + intros r [<-|Hr]; [reflexivity|]. apply Hn. exact Hr.
Qed.

(** X1. [load_data] returns one row per record of the file, in the order
    of the file: the rows carry the records unchanged, the index labels 0,
    1, 2, ..., the date derived from the timestamp of the record, and no
    time value.  The columns are those of the header, followed by [date]
    when the header has no such column. *)
Theorem load_data_shape (csv : CsvFile) :
  map tweet (rows (load_data csv)) = records csv /\
  len (load_data csv) = Z.of_nat (List.length (records csv)) /\
  map index (rows (load_data csv))
    = map Z.of_nat (seq 0 (List.length (records csv))) /\
  map date (rows (load_data csv))
    = map (fun t => dt_date (tweet_created t)) (records csv) /\
  (forall r, In r (rows (load_data csv)) -> time r = None) /\
  (~ In "date" (header csv) ->
   columns (load_data csv) = header csv ++ ["date"]) /\
  (In "date" (header csv) -> columns (load_data csv) = header csv).
Proof.
  destruct (build_rows_shape (records csv) 0) as (Ht & Hi & Hd & Hn).
  cbv zeta in *. unfold load_data, len. cbn [rows columns].
  split; [exact Ht|]. split.
  { pose proof (f_equal (@List.length Tweet) Ht) as HL.
    rewrite length_map in HL. rewrite HL. reflexivity. }
  split; [rewrite Hi; apply map_ext; intros k; lia|].
  split; [exact Hd|]. split; [exact Hn|].
  unfold add_column. split; intros H.
  - destruct (Str.mem "date" (header csv)) eqn:E; [|reflexivity].
    apply mem_In in E. contradiction.
  - apply mem_In in H. rewrite H. reflexivity.
Qed.

(** ** X2: the default range of the date picker *)

Lemma fold_min_le (s : list Calendar.date) (x : Calendar.date) :
  date_leb (fold_left date_min s x) x = true /\
  forall d, In d s -> date_leb (fold_left date_min s x) d = true.
Proof.
  revert x. induction s as [|y s IH]; intros x; simpl.
  - split; [apply date_leb_refl|intros d []].
  - destruct (IH (date_min x y)) as [Hx Hs].
    assert (Hm : date_leb (date_min x y) x = true /\
                 date_leb (date_min x y) y = true).
    { unfold date_min. destruct (date_leb x y) eqn:E.
      - split; [apply date_leb_refl|exact E].
      - split; [apply date_leb_total; exact E|apply date_leb_refl]. }
    split; [eapply date_leb_trans; [exact Hx|apply Hm]|].
    intros d [<-|Hd]; [eapply date_leb_trans; [exact Hx|apply Hm]|].
    apply Hs. exact Hd.
Qed.

Lemma fold_max_ge (s : list Calendar.date) (x : Calendar.date) :
  date_leb x (fold_left date_max s x) = true /\
  forall d, In d s -> date_leb d (fold_left date_max s x) = true.
Proof.
  revert x. induction s as [|y s IH]; intros x; simpl.
  - split; [apply date_leb_refl|intros d []].
  - destruct (IH (date_max x y)) as [Hx Hs].
    assert (Hm : date_leb x (date_max x y) = true /\
                 date_leb y (date_max x y) = true).
    { unfold date_max. destruct (date_leb x y) eqn:E.
      - split; [exact E|apply date_leb_refl].
      - split; [apply date_leb_refl|apply date_leb_total; exact E]. }
    split; [eapply date_leb_trans; [apply Hm|exact Hx]|].
    intros d [<-|Hd]; [eapply date_leb_trans; [apply Hm|exact Hx]|].
    apply Hs. exact Hd.
Qed.

Lemma series_min_In (s : list Calendar.date) (lo : Calendar.date) :
  series_min s = Some lo -> In lo s.
Proof.
  destruct s as [|x s]; simpl; [discriminate|]. intros H. inversion H. clear.
  revert x. induction s as [|y s IH]; intros x; simpl; [auto|].
  destruct (IH (date_min x y)) as [E|E]; [|auto].
  rewrite <- E. unfold date_min. destruct (date_leb x y); auto.
Qed.

Lemma series_max_In (s : list Calendar.date) (hi : Calendar.date) :
  series_max s = Some hi -> In hi s.
Proof.
  destruct s as [|x s]; simpl; [discriminate|]. intros H. inversion H. clear.
  revert x. induction s as [|y s IH]; intros x; simpl; [auto|].
  destruct (IH (date_max x y)) as [E|E]; [|auto].
  rewrite <- E. unfold date_max. destruct (date_leb x y); auto.
Qed.

Lemma filter_all {A} (p : A -> bool) (l : list A) :
  (forall x, In x l -> p x = true) -> filter p l = l.
Proof.
  induction l as [|x l IH]; simpl; intros H; [reflexivity|].
  rewrite (H x (or_introl eq_refl)). f_equal. apply IH. auto.
Qed.

Lemma filter_none {A} (p : A -> bool) (l : list A) :
  (forall x, In x l -> p x = false) -> filter p l = [].
Proof.
  induction l as [|x l IH]; simpl; intros H; [reflexivity|].
  rewrite (H x (or_introl eq_refl)). apply IH. auto.
Qed.

Lemma date_mask_filter (data : DataFrame) (lo hi : Calendar.date) :
  Seq.select (rows data)
    (Seq.mask_and (ge_date (col_date data) lo) (le_date (col_date data) hi))
  = filter (fun r => in_date_rangeb lo hi (date r)) (rows data).
Proof.
  unfold ge_date, le_date, col_date.
  rewrite !map_map, mask_and_map, select_map_mask. reflexivity.
Qed.

(** X2. The picker offers the smallest and the largest date of the table
    as bounds and as default selection.  Both are dates of the table, every
    date of the table lies between them, and with that default selection the
    date filter returns the table unchanged. *)
Theorem default_range_keeps_all (data : DataFrame) (lo hi : Calendar.date)
    (Hmin : min_date data = Some lo) (Hmax : max_date data = Some hi) :
  In lo (col_date data) /\ In hi (col_date data) /\
  (forall r, In r (rows data) ->
             date_leb lo (date r) = true /\ date_leb (date r) hi = true) /\
  date_range_filter [lo; hi] data = ([], Ok data).
Proof.
  assert (Hall : forall r, In r (rows data) ->
             date_leb lo (date r) = true /\ date_leb (date r) hi = true).
  { intros r Hr. unfold min_date, max_date, col_date in *.
    assert (Hd : In (date r) (map date (rows data))) by (apply in_map; exact Hr).
    destruct (map date (rows data)) as [|x s]; [contradiction|].
    simpl in Hmin, Hmax. inversion Hmin. inversion Hmax.
    destruct (fold_min_le s x) as [M1 M2].
    destruct (fold_max_ge s x) as [N1 N2].
    destruct Hd as [<-|Hd]; auto. }
  split; [apply series_min_In; exact Hmin|].
  split; [apply series_max_In; exact Hmax|].
  split; [exact Hall|].
  unfold date_range_filter, ret, getitem_mask.
  rewrite date_mask_filter, filter_all.
  - destruct data. reflexivity.
  - intros r Hr. unfold in_date_rangeb. destruct (Hall r Hr) as [-> ->].
    reflexivity.
Qed.

Lemma default_range_keeps_all_witness :
  min_date (load_data sample_csv) = Some (mkdate 2015 2 20) /\
  max_date (load_data sample_csv) = Some (mkdate 2015 2 22) /\
  date_range_filter [mkdate 2015 2 20; mkdate 2015 2 22] (load_data sample_csv)
    = ([], Ok (load_data sample_csv)).
Proof.
  split; [reflexivity|]. split; [reflexivity|].
  exact (proj2 (proj2 (proj2 (default_range_keeps_all (load_data sample_csv)
           (mkdate 2015 2 20) (mkdate 2015 2 22) eq_refl eq_refl)))).
Defined.

(** ** X3, X4, X5: how the filters behave at the bounds and together *)

(** X3. A date range or an hour range whose lower bound lies after its
    upper bound selects no row: the filters return the empty table with the
    columns kept. *)
Theorem inverted_range_selects_nothing (data : DataFrame)
    (lo hi : Calendar.date) (hlo hhi : Z) :
  (date_leb lo hi = false ->
   date_range_filter [lo; hi] data = ([], Ok (mkDF (columns data) []))) /\
  (hhi < hlo ->
   hour_range_filter (hlo, hhi) data = mkDF (columns data) []).
Proof.
  split.
  - intros H. unfold date_range_filter, ret, getitem_mask.
    rewrite date_mask_filter, filter_none; [reflexivity|].
    intros r _. unfold in_date_rangeb.
    destruct (date_leb lo (date r)) eqn:E1; [|reflexivity].
    destruct (date_leb (date r) hi) eqn:E2; [|reflexivity].
    rewrite (date_leb_trans _ _ _ E1 E2) in H. discriminate.
  - intros H. unfold hour_range_filter, getitem_mask, ge_int, le_int,
      col_tweet_created. cbn [fst snd].
    rewrite !map_map, mask_and_map, select_map_mask, filter_none;
      [reflexivity|].
    intros r _. apply andb_false_iff.
    destruct (hlo <=? hour (tweet_created (tweet r))) eqn:E; [|auto].
    right. apply Z.leb_le in E. apply Z.leb_gt. unfold dt_hour. lia.
Qed.

Lemma inverted_range_selects_nothing_witness :
  date_range_filter [mkdate 2015 2 22; mkdate 2015 2 20] (load_data sample_csv)
    = ([], Ok (mkDF (columns (load_data sample_csv)) [])) /\
  hour_range_filter (17, 9) (load_data sample_csv)
    = mkDF (columns (load_data sample_csv)) [].
Proof.
  split.
  - exact (proj1 (inverted_range_selects_nothing (load_data sample_csv)
             (mkdate 2015 2 22) (mkdate 2015 2 20) 17 9) eq_refl).
  - exact (proj2 (inverted_range_selects_nothing (load_data sample_csv)
             (mkdate 2015 2 22) (mkdate 2015 2 20) 17 9) eq_refl).
Defined.

Lemma filter_filter {A} (p q : A -> bool) (l : list A) :
  filter p (filter q l) = filter (fun x => q x && p x) l.
Proof.
  induction l as [|x l IH]; simpl; [reflexivity|].
  destruct (q x); simpl; [destruct (p x)|]; rewrite IH; reflexivity.
Qed.

Lemma hour_filter_rows (data : DataFrame) (hr : Z * Z) :
  rows (hour_range_filter hr data)
  = filter (fun r => in_hour_rangeb (fst hr) (snd hr) (row_hour r)) (rows data).
Proof.
  unfold hour_range_filter, getitem_mask, ge_int, le_int, col_tweet_created.
  cbn [rows]. rewrite !map_map, mask_and_map, select_map_mask. reflexivity.
Qed.

Lemma frame_ext (a b : DataFrame) :
  columns a = columns b -> rows a = rows b -> a = b.
Proof. destruct a, b. simpl. intros -> ->. reflexivity. Qed.

(** X4. The two filters compose: the hour filter applied to the
    date-filtered table keeps exactly the rows that pass both tests, in their
    original order, and the result is the same table when the hour filter is
    applied first and the date filter second. *)
Theorem filters_compose (data : DataFrame) (lo hi : Calendar.date) (hr : Z * Z) :
  exists by_date by_hour_then_date,
    date_range_filter [lo; hi] data = ([], Ok by_date) /\
    date_range_filter [lo; hi] (hour_range_filter hr data)
      = ([], Ok by_hour_then_date) /\
    hour_range_filter hr by_date = by_hour_then_date /\
    rows (hour_range_filter hr by_date)
      = filter (fun r => in_date_rangeb lo hi (date r)
                         && in_hour_rangeb (fst hr) (snd hr) (row_hour r))
               (rows data).
Proof.
  do 2 eexists. split; [reflexivity|]. split; [reflexivity|].
  assert (E : rows (hour_range_filter hr
                (getitem_mask data
                   (Seq.mask_and (ge_date (col_date data) lo)
                                 (le_date (col_date data) hi))))
              = filter (fun r => in_date_rangeb lo hi (date r)
                         && in_hour_rangeb (fst hr) (snd hr) (row_hour r))
                  (rows data)).
  { rewrite hour_filter_rows. unfold getitem_mask. cbn [rows].
    rewrite date_mask_filter, filter_filter. reflexivity. }
  split; [|exact E].
  apply frame_ext; [reflexivity|]. rewrite E.
  unfold getitem_mask at 1. cbn [rows].
  rewrite date_mask_filter, hour_filter_rows, filter_filter.
  apply filter_ext. intros r. apply andb_comm.
Qed.

(** X5. The hour filter never adds rows, and with the full range of the
    slider, 0 to 23, it returns the table unchanged when every timestamp has
    an hour of the day. *)
Theorem full_hour_range_keeps_all (data : DataFrame) (hr : Z * Z)
    (Hhours : forall r, In r (rows data) -> 0 <= row_hour r <= 23) :
  len (hour_range_filter hr data) <= len data /\
  incl (rows (hour_range_filter hr data)) (rows data) /\
  hour_range_filter (0, 23) data = data.
Proof.
  split; [|split].
  - unfold len. rewrite hour_filter_rows.
    pose proof (filter_length_le
                  (fun r => in_hour_rangeb (fst hr) (snd hr) (row_hour r))
                  (rows data)). lia.
  - rewrite hour_filter_rows. apply incl_filter.
  - apply frame_ext; [reflexivity|]. rewrite hour_filter_rows.
    apply filter_all. intros r Hr. unfold in_hour_rangeb. cbn [fst snd].
    apply andb_true_iff. rewrite !Z.leb_le. apply Hhours. exact Hr.
Qed.

Lemma full_hour_range_keeps_all_witness :
  (forall r, In r (rows (load_data sample_csv)) -> 0 <= row_hour r <= 23) /\
  hour_range_filter (0, 23) (load_data sample_csv) = load_data sample_csv.
Proof.
  assert (H : forall r, In r (rows (load_data sample_csv)) ->
                        0 <= row_hour r <= 23).
  { intros r Hr. simpl in Hr.
    destruct Hr as [<-|[<-|[<-|[]]]]; unfold row_hour; simpl; lia. }
  split; [exact H|].
  exact (proj2 (proj2 (full_hour_range_keeps_all (load_data sample_csv)
                         (0, 23) H))).
Defined.

(** ** Sorting and distinct values *)

Section SortFacts.
Context {A : Type} (leb : A -> A -> bool) (R : A -> A -> Prop).
Hypothesis leb_R : forall a b, leb a b = true -> R a b.
Hypothesis leb_total : forall a b, leb a b = false -> R b a.

Lemma insert_HdRel (a x : A) (l : list A) :
  HdRel R a l -> R a x -> HdRel R a (Seq.insert leb x l).
Proof.
  intros Hl Hx. destruct l as [|y l]; simpl; [constructor; exact Hx|].
  destruct (leb x y); constructor; [exact Hx|].
  inversion Hl. assumption.
Qed.

Lemma insert_Sorted (x : A) (l : list A) :
  Sorted R l -> Sorted R (Seq.insert leb x l).
Proof.
  induction l as [|y l IH]; intros Hl; simpl.
  - constructor; constructor.
  - destruct (leb x y) eqn:E.
    + constructor; [exact Hl|]. constructor. apply leb_R. exact E.
    + inversion Hl as [|? ? Hs Hh]. subst.
      constructor; [apply IH; exact Hs|].
      apply insert_HdRel; [exact Hh|]. apply leb_total. exact E.
Qed.

Lemma sort_Sorted (l : list A) : Sorted R (Seq.sort leb l).
Proof.
  induction l as [|x l IH]; simpl; [constructor|].
  apply insert_Sorted. exact IH.
Qed.

End SortFacts.

Lemma Sorted_map {A B} (R : A -> A -> Prop) (R' : B -> B -> Prop)
    (g : A -> B) (l : list A) :
  (forall a b, R a b -> R' (g a) (g b)) ->
  Sorted R l -> Sorted R' (map g l).
Proof.
  intros H. induction 1 as [|a l Hs IH Hh]; simpl; constructor;
    [exact IH|].
  destruct Hh; simpl; constructor. apply H. assumption.
Qed.

Section UniqueFacts.
Context {A : Type} (eqb : A -> A -> bool).
Hypothesis eqb_eq : forall a b, eqb a b = true <-> a = b.

Lemma unique_In (x : A) (l : list A) : In x (Seq.unique eqb l) <-> In x l.
Proof.
  induction l as [|y l IH]; simpl; [tauto|].
  rewrite filter_In, IH, negb_true_iff.
  destruct (eqb y x) eqn:E.
  - apply eqb_eq in E. subst. split; [tauto|]. intros _. auto.
  - split; [tauto|]. intros [H|H]; [|auto].
    subst. rewrite (proj2 (eqb_eq x x) eq_refl) in E. discriminate.
Qed.

Lemma unique_NoDup (l : list A) : NoDup (Seq.unique eqb l).
Proof.
  induction l as [|y l IH]; simpl; constructor.
  - rewrite filter_In, negb_true_iff.
    rewrite (proj2 (eqb_eq y y) eq_refl). intros [_ H]. discriminate.
  - apply NoDup_filter. exact IH.
Qed.

Lemma count_pos (x : A) (l : list A) : In x l -> 1 <= Seq.count (eqb x) l.
Proof.
  induction l as [|y l IH]; simpl; [tauto|].
  assert (0 <= Seq.count (eqb x) l).
  { clear. induction l as [|z l IH]; simpl; [lia|].
    destruct (eqb x z); lia. }
  intros [->|H1].
  - rewrite (proj2 (eqb_eq x x) eq_refl). lia.
  - specialize (IH H1). destruct (eqb x y); lia.
Qed.

End UniqueFacts.

Lemma value_counts_sum (s : list string) :
  Seq.sum (map snd (value_counts s)) = Z.of_nat (List.length s).
Proof.
  unfold value_counts.
  rewrite <- (sum_perm _ _ (Permutation_map snd (sort_perm _ _))).
  rewrite map_map. simpl.
  apply (sum_counts_unique String.eqb String.eqb_eq).
Qed.

(** ** X6, X7: the tables of counts *)

(** X6. [value_counts] lists every value that occurs in the column exactly
    once, with the number of its occurrences, which is at least 1, and no
    other value; the entries are ranked by count, largest first. *)
Theorem value_counts_ranked (s : list string) :
  (forall k c, In (k, c) (value_counts s) <->
               In k s /\ c = Seq.count (String.eqb k) s) /\
  (forall k c, In (k, c) (value_counts s) -> 1 <= c) /\
  NoDup (map fst (value_counts s)) /\
  descending (value_counts s).
Proof.
  assert (Hin : forall k c, In (k, c) (value_counts s) <->
               In k s /\ c = Seq.count (String.eqb k) s).
  { intros k c. unfold value_counts. split.
    - intros H. apply (Permutation_in _ (Permutation_sym (sort_perm _ _))) in H.
      apply in_map_iff in H. destruct H as (k' & E & H). inversion E. subst.
      split; [|reflexivity]. apply (unique_In String.eqb String.eqb_eq). exact H.
    - intros [H ->]. apply (Permutation_in _ (sort_perm _ _)).
      apply in_map_iff. exists k. split; [reflexivity|].
      apply (unique_In String.eqb String.eqb_eq). exact H. }
  split; [exact Hin|]. split; [|split].
  - intros k c H. apply Hin in H. destruct H as [H ->].
    apply (count_pos String.eqb String.eqb_eq). exact H.
  - unfold value_counts.
    eapply Permutation_NoDup;
      [apply Permutation_map, sort_perm|].
    rewrite map_map. simpl. rewrite map_id.
    apply (unique_NoDup String.eqb String.eqb_eq).
  - unfold descending, value_counts.
    apply (sort_Sorted (fun a b : string * Z => snd b <=? snd a)).
    + intros a b H. apply Z.leb_le. exact H.
    + intros a b H. apply Z.leb_gt in H. lia.
Qed.

Lemma label_compare_antisym (a b : label) :
  label_compare b a = CompOpp (label_compare a b).
Proof.
  destruct a as [x|x|x], b as [y|y|y]; simpl; try reflexivity.
  - apply Z.compare_antisym.
  - apply date_compare_antisym.
  - apply String.compare_antisym.
Qed.

Lemma key_leb_total (a b : label * string) :
  key_leb a b = false -> key_leb b a = true.
Proof.
  unfold key_leb, key_compare, lex.
  rewrite (label_compare_antisym (fst a) (fst b)).
  rewrite (String.compare_antisym (snd b) (snd a)).
  destruct (label_compare (fst a) (fst b)), (String.compare (snd a) (snd b));
    simpl; intros H; try reflexivity; discriminate H.
Qed.

Lemma group_keys_In (df : DataFrame) (l : label) (s : string) :
  In (l, s) (group_keys df) <->
  exists r, In r (rows df) /\ time r = Some l /\ airline_sentiment (tweet r) = s.
Proof.
  unfold group_keys. rewrite in_flat_map. split.
  - intros (r & Hr & H). exists r. split; [exact Hr|].
    destruct (time r) as [l'|]; [|contradiction].
    destruct H as [E|[]]. inversion E. auto.
  - intros (r & Hr & Ht & Hs). exists r. split; [exact Hr|].
    rewrite Ht, Hs. simpl. auto.
Qed.

(** X7. The group-by of the time series has one row for every pair of time
    bucket and sentiment that some row of the table carries, and for no
    other pair; its count is the number of rows with that pair, at least 1;
    the rows come in ascending order of (time, sentiment). *)
Theorem groupby_size_rows (df : DataFrame) :
  (forall l s c, In ((l, s), c) (groupby_size df) <->
     (exists r, In r (rows df) /\ time r = Some l /\
                airline_sentiment (tweet r) = s) /\
     c = Seq.count (key_eqb (l, s)) (group_keys df)) /\
  (forall k c, In (k, c) (groupby_size df) -> 1 <= c) /\
  NoDup (map fst (groupby_size df)) /\
  ascending_keys (groupby_size df).
Proof.
  assert (Hin : forall k c, In (k, c) (groupby_size df) <->
            In k (group_keys df) /\ c = Seq.count (key_eqb k) (group_keys df)).
  { intros k c. unfold groupby_size. cbv zeta. rewrite in_map_iff. split.
    - intros (k' & E & H). inversion E. subst. split; [|reflexivity].
      apply (Permutation_in _ (Permutation_sym (sort_perm _ _))) in H.
      apply (unique_In key_eqb key_eqb_eq). exact H.
    - intros [H ->]. exists k. split; [reflexivity|].
      apply (Permutation_in _ (sort_perm _ _)).
      apply (unique_In key_eqb key_eqb_eq). exact H. }
  split; [|split; [|split]].
  - intros l s c. rewrite Hin, group_keys_In. reflexivity.
  - intros k c H. apply Hin in H. destruct H as [H ->].
    apply (count_pos key_eqb key_eqb_eq). exact H.
  - unfold groupby_size. cbv zeta. rewrite map_map. simpl. rewrite map_id.
    eapply Permutation_NoDup; [apply sort_perm|].
    apply (unique_NoDup key_eqb key_eqb_eq).
  - unfold ascending_keys, groupby_size. cbv zeta.
    apply (Sorted_map (fun a b => key_leb a b = true)); [auto|].
    apply (sort_Sorted key_leb); [auto|apply key_leb_total].
Qed.

(** ** X8, X9: the Airlines Analysis tab *)

Lemma count_airline_rows (name : string) (data : DataFrame) :
  Seq.count (String.eqb name) (col_airline data)
  = Z.of_nat (List.length (airline_rows name data)).
Proof.
  unfold col_airline, airline_rows.
  induction (rows data) as [|r rs IH]; simpl; [reflexivity|].
  rewrite (String.eqb_sym name). destruct (String.eqb (airline (tweet r)) name);
    simpl List.length; lia.
Qed.

Lemma airline_trace_rows (data : DataFrame) (name : string) :
  airline_trace data name
  = (name, value_counts
             (map (fun r => airline_sentiment (tweet r)) (airline_rows name data))).
Proof.
  unfold airline_trace, getitem_mask, eq_str, col_airline, col_airline_sentiment,
    airline_rows. cbn [rows].
  rewrite map_map, select_map_mask. reflexivity.
Qed.

(** X8. The trace of an airline counts the tweets of that airline only:
    its counts add up to the number of rows of the airline, an airline
    without rows has an empty trace, and over the distinct airlines of the
    table the traces account for every row exactly once. *)
Theorem airline_traces_partition (data : DataFrame) :
  (forall name,
     Seq.sum (map snd (snd (airline_trace data name)))
     = Z.of_nat (List.length (airline_rows name data))) /\
  (forall name, ~ In name (col_airline data) ->
     snd (airline_trace data name) = []) /\
  Seq.sum (map (fun name => Seq.sum (map snd (snd (airline_trace data name))))
               (Seq.unique String.eqb (col_airline data)))
  = len data.
Proof.
  assert (H1 : forall name,
     Seq.sum (map snd (snd (airline_trace data name)))
     = Z.of_nat (List.length (airline_rows name data))).
  { intros name. rewrite airline_trace_rows. cbn [snd].
    rewrite value_counts_sum, length_map. reflexivity. }
  split; [exact H1|]. split.
  - intros name Hn. rewrite airline_trace_rows. cbn [snd].
    unfold airline_rows. rewrite filter_none; [reflexivity|].
    intros r Hr. apply String.eqb_neq. intros E. apply Hn.
    unfold col_airline. rewrite <- E.
    apply (in_map (fun r0 => airline (tweet r0))). exact Hr.
  - rewrite (map_ext _ (fun name => Seq.count (String.eqb name) (col_airline data))).
    + rewrite (sum_counts_unique String.eqb String.eqb_eq).
      unfold col_airline, len. rewrite length_map. reflexivity.
    + intros name. rewrite H1, count_airline_rows. reflexivity.
Qed.

Lemma defaults_check (data : DataFrame) :
  forallb (fun v => Str.mem v (Seq.unique String.eqb (col_airline data)))
          ["United"; "American"; "Delta"] = true
  <-> defaults_present data.
Proof.
  rewrite forallb_forall. unfold defaults_present, default_airlines.
  split; intros H v Hv.
  - apply (unique_In String.eqb String.eqb_eq). apply mem_In. apply H. exact Hv.
  - apply mem_In. apply (unique_In String.eqb String.eqb_eq). apply H. exact Hv.
Qed.

(** X9. The Airlines Analysis tab raises the exception of the multiselect
    widget exactly when one of its default airlines (United, American,
    Delta) has no tweet in the table.  Otherwise it returns normally: with no
    airline selected it shows the notice "Please select at least one airline"
    and no chart; with a selection it shows one chart with one trace per
    selected airline, in the order of the selection. *)
Theorem airlines_tab_outcome (w : Widgets) (data : DataFrame) :
  (snd (airlines_analysis w data) = Raise multiselect_error <->
   ~ defaults_present data) /\
  (snd (airlines_analysis w data) = Ok tt <-> defaults_present data) /\
  (defaults_present data -> selected_airlines w = [] ->
   fst (airlines_analysis w data)
   = [Header main "Airline-specific Analysis";
      Subheader main "Airline Performance Comparison";
      Warning main "Please select at least one airline"]) /\
  (defaults_present data -> selected_airlines w <> [] ->
   fst (airlines_analysis w data)
   = [Header main "Airline-specific Analysis";
      Subheader main "Airline Performance Comparison";
      PlotlyChart (Subplots (selected_airlines w)
                     (map (airline_trace data) (selected_airlines w)))]).
Proof.
  pose proof (defaults_check data) as D.
  unfold airlines_analysis, multiselect.
  destruct (forallb _ _) eqn:E.
  - assert (P : defaults_present data) by (apply D; reflexivity).
    destruct (selected_airlines w) as [|a sel] eqn:S; simpl.
    + repeat split; try tauto; try discriminate; intros; congruence.
    + repeat split; try tauto; try discriminate; intros; congruence.
  - assert (P : ~ defaults_present data).
    { intros P. apply D in P. discriminate. }
    simpl. repeat split; try tauto; try discriminate; intros; try reflexivity;
      contradiction.
Qed.

Lemma airlines_tab_outcome_witness :
  defaults_present (shared_table sample_widgets sample_csv) /\
  selected_airlines sample_widgets <> [] /\
  airlines_analysis sample_widgets (shared_table sample_widgets sample_csv)
  = ([Header main "Airline-specific Analysis";
      Subheader main "Airline Performance Comparison";
      PlotlyChart (Subplots ["United"; "Delta"]
                     [("United", [("positive", 1)]);
                      ("Delta", [("negative", 1)])])], Ok tt).
Proof.
  assert (P : defaults_present (shared_table sample_widgets sample_csv)).
  { intros v Hv. unfold default_airlines in Hv.
    destruct Hv as [<-|[<-|[<-|[]]]]; vm_compute; auto. }
  assert (S : selected_airlines sample_widgets <> []) by discriminate.
  split; [exact P|]. split; [exact S|].
  pose proof (airlines_tab_outcome sample_widgets
                (shared_table sample_widgets sample_csv)) as (_ & Hok & _ & Hsel).
  apply injective_projections.
  - rewrite (Hsel P S). vm_compute. reflexivity.
  - apply Hok. exact P.
Defined.

(** ** X10: the Overview leaves the loaded cells alone *)

Lemma assign_time_values (rs : list Row) (vs : list label) :
  List.length vs = List.length rs ->
  map index (assign_time rs vs) = map index rs /\
  map date (assign_time rs vs) = map date rs /\
  map time (assign_time rs vs) = map Some vs.
Proof.
  revert vs. induction rs as [|r rs IH]; intros [|v vs] H; simpl in *;
    try discriminate; [auto|].
  destruct (IH vs) as (Hi & Hd & Ht); [lia|].
  rewrite Hi, Hd, Ht. auto.
Qed.

(** X10. The Overview tab always returns normally.  The table it hands on
    has the same number of rows, in the same order, with the same index
    labels, loaded cells and dates as the table it was given; the only
    change is the time column, which holds for every row the bucket of that
    row's own timestamp under the selected granularity. *)
Theorem overview_only_sets_time (w : Widgets) (data : DataFrame) :
  exists data',
    snd (overview w data) = Ok data' /\
    map index (rows data') = map index (rows data) /\
    map tweet (rows data') = map tweet (rows data) /\
    map date (rows data') = map date (rows data) /\
    map time (rows data')
      = map (fun r => Some (bucket (time_agg w) (tweet_created (tweet r))))
            (rows data) /\
    len data' = len data.
Proof.
  eexists. split; [apply overview_returns|].
  unfold setitem_time. cbn [rows].
  destruct (assign_time_values (rows data) (time_values (time_agg w) data)
              (time_values_length _ _)) as (Hi & Hd & Ht).
  split; [exact Hi|]. split; [apply assign_time_tweets|].
  split; [exact Hd|]. split.
  - rewrite Ht, time_values_bucket. unfold col_tweet_created.
    rewrite !map_map. reflexivity.
  - unfold len. cbn [rows].
    pose proof (f_equal (@List.length _) Hi) as HL.
    rewrite !length_map in HL. rewrite HL. reflexivity.
Qed.

(** ** X11: the outcome of the avatar block *)

(** X11. The avatar block shows at most one element.  It returns normally
    exactly when the fetch ended with an exception of the HTTP client (the
    error message is then shown) or PIL reads an image in the body of the
    response (which is then shown).  The one exception that can leave it is
    the error PIL raises on the body of a response whose status is not a 4xx
    or 5xx status; nothing is shown then, and no exception of the HTTP client
    ever leaves the block. *)
Theorem avatar_outcome (image_error : list Byte.byte -> option string)
    (http : Requests.outcome) :
  (snd (avatar image_error http) = Ok tt <->
   fetch_raised http \/
   exists r, http = Requests.Returned r /\
             image_error (Requests.content r) = None) /\
  (forall e, snd (avatar image_error http) = Raise e ->
     is_RequestException e = false /\
     fst (avatar image_error http) = [] /\
     exists r msg, http = Requests.Returned r /\
                   ~ (400 <= Requests.status_code r < 600) /\
                   image_error (Requests.content r) = Some msg /\
                   e = ImageError msg) /\
  (List.length (fst (avatar image_error http)) <= 1)%nat.
Proof.
  destruct http as [k msg|r].
  - split; [|split].
    + split; [intros _; left; exact I|reflexivity].
    + intros e H. discriminate H.
    + simpl. lia.
  - destruct (raise_for_status_cases r) as [(Hr & what & E)|(Hr & E)].
    + assert (A : avatar image_error (Requests.Returned r)
                  = ([Error sidebar
                        ("Error loading image: "
                         ++ failure_cause (Requests.Returned r))%string],
                     Ok tt)).
      { unfold avatar, raise_for_status, failure_cause. simpl. rewrite E.
        reflexivity. }
      rewrite A. split; [|split].
      * split; [intros _; left; exact Hr|reflexivity].
      * intros e H. discriminate H.
      * simpl. lia.
    + assert (A : avatar image_error (Requests.Returned r)
                  = Streamlit.image sidebar image_error (Requests.content r)
                                    "Moon Benjee").
      { unfold avatar, raise_for_status. simpl. rewrite E.
        unfold Streamlit.image. destruct (image_error (Requests.content r));
          reflexivity. }
      rewrite A. unfold Streamlit.image.
      destruct (image_error (Requests.content r)) as [msg|] eqn:Ei; simpl.
      * split; [|split; [|lia]].
        -- split; [discriminate|].
           intros [H|(r' & Er & Hi)]; [simpl in H; contradiction|].
           inversion Er. subst r'. congruence.
        -- intros e H. inversion H. subst e.
           repeat split; try reflexivity. exists r, msg. auto.
      * split; [|split; [|lia]].
        -- split; [intros _; right; eauto|reflexivity].
        -- intros e H. discriminate H.
Qed.

Lemma avatar_outcome_witness :
  snd (avatar png_only ok_response) = Ok tt /\
  snd (avatar png_only not_found) = Ok tt /\
  snd (avatar png_only multiple_choices)
    = Raise (ImageError "cannot identify image file").
Proof.
  split; [|split].
  - apply (proj1 (avatar_outcome png_only ok_response)).
    right. eexists. split; reflexivity.
  - apply (proj1 (avatar_outcome png_only not_found)).
    left. simpl. lia.
  - reflexivity.
Defined.

(** ** X12, X13: which runs complete, and what every run shows *)

Lemma class_text_eq (w : Widgets) (data : DataFrame) :
  Str.join " " (col_text (getitem_mask data
      (eq_str (col_airline_sentiment data) (word_sentiment w))))
  = class_text (word_sentiment w) data.
Proof.
  unfold class_text, class_rows, col_text, getitem_mask, eq_str,
    col_airline_sentiment. cbn [rows].
  rewrite map_map, select_map_mask. reflexivity.
Qed.

Section RunFacts.
Variable STOPWORDS : list string.
Variable is_collocation : Z -> Z -> Z -> Z -> bool.
Variable drawn : WordCloud.counts -> nat.
Variable savefig : WordCloud.cloud -> list Byte.byte.
Variable db : Unicode.Database.
Variable image_error : list Byte.byte -> option string.

(** The outcome of the Text Analysis tab is the outcome of the word
    cloud on the joined texts of the rows of the selected sentiment, and of
    no other row: when the generation returns a cloud the tab shows it and
    offers that same cloud for download under the name
    <sentiment>_wordcloud.png; when the generation raises, the tab shows its
    headings only and the exception leaves it. *)
Theorem text_analysis_outcome (w : Widgets) (data : DataFrame)
    (Hsel : word_sentiment w <> EmptyString) :
  (forall wc,
     WordCloud.generate db is_collocation drawn (wordcloud_config STOPWORDS w)
       (class_text (word_sentiment w) data) = Ok wc ->
     text_analysis STOPWORDS is_collocation drawn savefig db w data
     = ([Header main "Textual Analysis"; Subheader main "Word Cloud Settings";
         Subheader main "Generated Word Cloud"; Pyplot wc;
         DownloadButton main "Download Word Cloud" (savefig wc)
           (word_sentiment w ++ "_wordcloud.png")%string "image/png"],
        Ok tt)) /\
  (forall e,
     WordCloud.generate db is_collocation drawn (wordcloud_config STOPWORDS w)
       (class_text (word_sentiment w) data) = Raise e ->
     text_analysis STOPWORDS is_collocation drawn savefig db w data
     = ([Header main "Textual Analysis"; Subheader main "Word Cloud Settings";
         Subheader main "Generated Word Cloud"], Raise e)).
Proof.
  apply String.eqb_neq in Hsel.
  split; intros x Hx; unfold text_analysis; rewrite Hsel; simpl negb; cbv iota;
    rewrite class_text_eq, Hx; reflexivity.
Qed.

Lemma text_analysis_snd (w : Widgets) (data : DataFrame) :
  snd (text_analysis STOPWORDS is_collocation drawn savefig db w data)
  = if String.eqb (word_sentiment w) EmptyString then Ok tt
    else match WordCloud.generate db is_collocation drawn
                 (wordcloud_config STOPWORDS w)
                 (class_text (word_sentiment w) data) with
         | Ok _ => Ok tt
         | Raise e => Raise e
         end.
Proof.
  unfold text_analysis. destruct (String.eqb (word_sentiment w) EmptyString);
    simpl negb; cbv iota; [reflexivity|].
  rewrite class_text_eq.
  destruct (WordCloud.generate _ _ _ _ _); reflexivity.
Qed.

Lemma about_snd (http : Requests.outcome) :
  snd (about image_error http) = snd (avatar image_error http).
Proof.
  unfold about. rewrite !bindM_snd. cbn [snd show].
  destruct (snd (avatar image_error http)) as [[]|e]; reflexivity.
Qed.

(** The steps of a run that can raise, in order. *)
Lemma script_snd (w : Widgets) (csv : CsvFile) (http : Requests.outcome) :
  snd (script STOPWORDS is_collocation drawn savefig db image_error w csv http)
  = match snd (st_map (hour_range_filter (hour_range w) (shared_table w csv))) with
    | Raise e => Raise e
    | Ok _ =>
        match snd (airlines_analysis w (shared_table w csv)) with
        | Raise e => Raise e
        | Ok _ =>
            match snd (text_analysis STOPWORDS is_collocation drawn savefig db
                         w (shared_table w csv)) with
            | Raise e => Raise e
            | Ok _ => snd (avatar image_error http)
            end
        end
    end.
Proof.
  unfold script. rewrite bindM_snd. cbn [snd intro]. simpl snd at 1. cbv iota.
  cbv zeta. rewrite bindM_snd.
  destruct (date_range_filter_filtered w csv) as (out & E). rewrite E.
  cbn [snd]. unfold panels. rewrite bindM_snd, overview_shared.
  rewrite bindM_snd, geospatial_snd.
  destruct (snd (st_map _)) as [[]|e0]; [|reflexivity].
  rewrite bindM_snd.
  destruct (snd (airlines_analysis w (shared_table w csv))); [|reflexivity].
  rewrite bindM_snd.
  destruct (snd (text_analysis _ _ _ _ _ w (shared_table w csv))) as [[]|e];
    [|reflexivity].
  rewrite bindM_snd.
  assert (X : snd (data_export w (shared_table w csv)) = Ok tt).
  { unfold data_export. simpl. destruct (download_clicked w); reflexivity. }
  rewrite X. apply about_snd.
Qed.

(** X12. A run of the script completes exactly when the file has a record
    (so that the date picker has bounds), the map accepts the hour-filtered
    table, the shared table has a tweet of each default airline, the word
    cloud of the selected class can be generated and the avatar block
    returns.  An exception that leaves a run is the one of the first of
    these five steps that fails: the date picker, the map, the multiselect
    widget, the generation of the word cloud, or the image element of the
    avatar. *)
Theorem run_outcome (w : Widgets) (csv : CsvFile) (http : Requests.outcome)
    (Hsel : word_sentiment w <> EmptyString) :
  let run := render_pass STOPWORDS is_collocation drawn savefig db image_error
                         w csv http in
  let shared := shared_table w csv in
  let on_map := hour_range_filter (hour_range w) shared in
  let cloud := WordCloud.generate db is_collocation drawn
                 (wordcloud_config STOPWORDS w)
                 (class_text (word_sentiment w) shared) in
  (snd run = Ok tt <->
   records csv <> [] /\ snd (st_map on_map) = Ok tt /\
   defaults_present shared /\ (exists wc, cloud = Ok wc) /\
   snd (avatar image_error http) = Ok tt) /\
  (forall e, snd run = Raise e ->
     (records csv = [] /\ e = date_input_error) \/
     (records csv <> [] /\
      (snd (st_map on_map) = Raise e \/
       (snd (st_map on_map) = Ok tt /\
        ((~ defaults_present shared /\ e = multiselect_error) \/
         (defaults_present shared /\
          (cloud = Raise e \/
           ((exists wc, cloud = Ok wc) /\
            snd (avatar image_error http) = Raise e)))))))).
Proof.
  cbv zeta. destruct (records csv) as [|t ts] eqn:Erec.
  - rewrite (render_pass_no_records _ _ _ _ _ _ _ _ _ Erec). split.
    + split; [discriminate|]. intros [H _]. contradiction.
    + intros e H. inversion H. left. auto.
  - assert (Hrec : records csv <> []) by (rewrite Erec; discriminate).
    rewrite (render_pass_script _ _ _ _ _ _ _ _ _ Hrec).
    rewrite script_snd, text_analysis_snd.
    apply String.eqb_neq in Hsel. rewrite Hsel.
    destruct (airlines_tab_outcome w (shared_table w csv)) as (Hr & Ho & _).
    destruct (snd (st_map _)) as [[]|e0] eqn:Em.
    2:{ split.
        - split; [discriminate|]. intros (_ & H & _). discriminate H.
        - intros e H. inversion H. subst. right. split; [discriminate|auto]. }
    destruct (snd (airlines_analysis w (shared_table w csv))) as [[]|e1] eqn:E.
    + assert (P : defaults_present (shared_table w csv))
        by (apply Ho; reflexivity).
      destruct (WordCloud.generate _ _ _ _ _) as [wc|e2].
      * split.
        -- split.
           ++ intros H. repeat split; try assumption; try discriminate.
              eauto.
           ++ intros (_ & _ & _ & _ & H). exact H.
        -- intros e H. right. split; [discriminate|]. right.
           split; [reflexivity|]. right. split; [exact P|]. right.
           split; [eauto|exact H].
      * split.
        -- split; [discriminate|].
           intros (_ & _ & _ & (wc & H) & _). discriminate H.
        -- intros e H. inversion H. subst. right. split; [discriminate|].
           right. split; [reflexivity|]. right. auto.
    + assert (N : ~ defaults_present (shared_table w csv)).
      { intros P. apply Ho in P. discriminate P. }
      split.
      * split; [discriminate|]. intros (_ & _ & P & _). contradiction.
      * intros e H. inversion H. subst. right. split; [discriminate|].
        right. split; [reflexivity|]. left. split; [exact N|].
        unfold airlines_analysis, multiselect in E.
        destruct (forallb _ _) in E; simpl in E.
        -- destruct (selected_airlines w); discriminate E.
        -- inversion E. reflexivity.
Qed.

(** The elements of a run up to the Geospatial tab. *)
Lemma script_until_geospatial (w : Widgets) (csv : CsvFile)
    (http : Requests.outcome) :
  exists rest,
    fst (script STOPWORDS is_collocation drawn savefig db image_error w csv http)
    = fst intro
      ++ fst (date_range_filter (selected_dates w) (load_data csv))
      ++ fst (overview w (filtered_table w csv))
      ++ fst (geospatial w (shared_table w csv)) ++ rest /\
    (forall e, snd (geospatial w (shared_table w csv)) = Raise e ->
               rest = [] /\
               snd (script STOPWORDS is_collocation drawn savefig db image_error
                           w csv http) = Raise e).
Proof.
  unfold script. cbv zeta.
  destruct (date_range_filter_filtered w csv) as (out & E).
  rewrite (bindM_ok intro _ (fst intro) tt) by reflexivity.
  rewrite (bindM_ok _ _ _ _ E). rewrite E. cbn [fst snd].
  unfold panels.
  destruct (overview w (filtered_table w csv)) as [out_o r_o] eqn:Eo.
  pose proof (overview_shared w csv) as Hs. rewrite Eo in Hs. simpl in Hs.
  subst r_o. rewrite (bindM_ok _ _ _ _ eq_refl). cbn [fst snd].
  destruct (geospatial w (shared_table w csv)) as [out_g [[]|e]] eqn:Eg.
  - rewrite (bindM_ok _ _ _ _ eq_refl). cbn [fst snd].
    eexists. split; [reflexivity|]. intros e H. discriminate H.
  - rewrite (bindM_raise _ _ _ _ eq_refl). cbn [fst snd].
    exists []. rewrite app_nil_r. split; [reflexivity|].
    intros e' H. inversion H. auto.
Qed.

(** X13. On a file with records the Overview is shown in every run,
    whatever happens later: the sentiment chart (a bar chart for 'Bar plot',
    a pie chart otherwise) over the date-filtered table, the time series over
    the shared table, and then the number of tweets of the hour-filtered
    shared table.  When the map accepts that table it is shown next.  When it
    does not (a table with rows and without a latitude or a longitude
    column, or with a missing value there), the run ends with the exception
    of the map and the number of tweets is the last element shown. *)
Theorem overview_shown_map_when_accepted (w : Widgets) (csv : CsvFile)
    (http : Requests.outcome) (Hrec : records csv <> []) :
  let run := render_pass STOPWORDS is_collocation drawn savefig db image_error
                         w csv http in
  let counts := value_counts (col_airline_sentiment (filtered_table w csv)) in
  let on_map := hour_range_filter (hour_range w) (shared_table w csv) in
  let found := Markdown main
                 ("**" ++ Str.of_int (Z.of_nat (List.length (rows on_map)))
                  ++ " tweets found**")%string in
  In (PlotlyChart (if String.eqb (viz_type w) "Bar plot"
                   then Bar counts else Pie counts)) (fst run) /\
  In (PlotlyChart (Line (groupby_size (shared_table w csv)))) (fst run) /\
  In found (fst run) /\
  (snd (st_map on_map) = Ok tt -> In (Map on_map) (fst run)) /\
  (forall e, snd (st_map on_map) = Raise e ->
     snd run = Raise e /\
     List.last (fst run) (Title main EmptyString) = found /\
     forall df, ~ In (Map df) (fst run)).
Proof.
  cbv zeta. rewrite (render_pass_script _ _ _ _ _ _ _ _ _ Hrec).
  assert (Ov : forall x, In x (fst (overview w (filtered_table w csv))) ->
     In x (fst (script STOPWORDS is_collocation drawn savefig db image_error
                       w csv http))).
  { intros x H. unfold script.
    apply bindM_shows_second with (a := tt); [reflexivity|].
    destruct (date_range_filter_filtered w csv) as (out & E).
    simpl. apply bindM_shows_second with (a := filtered_table w csv);
      [rewrite E; reflexivity|].
    unfold panels. apply bindM_shows_first. exact H. }
  split; [|split; [|split; [|split]]].
  - apply Ov. unfold overview. simpl.
    destruct (String.eqb (viz_type w) "Bar plot"); simpl; auto.
  - apply Ov. unfold overview. simpl.
    destruct (String.eqb (viz_type w) "Bar plot"); simpl; auto 6.
  - apply script_shows_geospatial.
    destruct (snd (st_map (hour_range_filter (hour_range w)
                             (shared_table w csv)))) as [[]|e] eqn:Em.
    + rewrite (geospatial_ok _ _ Em). simpl. auto.
    + rewrite (geospatial_raise _ _ _ Em). simpl. auto.
  - intros Hm. apply script_shows_geospatial, geospatial_map. exact Hm.
  - intros e Hm.
    destruct (script_until_geospatial w csv http) as (rest & Eout & Hstop).
    rewrite (geospatial_raise _ _ _ Hm) in Eout, Hstop.
    destruct (Hstop e eq_refl) as [-> Hsnd]. rewrite app_nil_r in Eout.
    split; [exact Hsnd|]. rewrite Eout. split.
    + cbn [fst].
      change [Header main "Geospatial Analysis";
              Subheader main
                ("Tweet Locations (" ++ Str.of_int (fst (hour_range w))
                 ++ ":00 - " ++ Str.of_int (snd (hour_range w)) ++ ":00)")%string;
              Markdown main
                ("**" ++ Str.of_int
                           (len (hour_range_filter (hour_range w)
                                                   (shared_table w csv)))
                 ++ " tweets found**")%string]
        with ([Header main "Geospatial Analysis";
               Subheader main
                 ("Tweet Locations (" ++ Str.of_int (fst (hour_range w))
                  ++ ":00 - " ++ Str.of_int (snd (hour_range w)) ++ ":00)")%string]
              ++ [Markdown main
                    ("**" ++ Str.of_int
                               (len (hour_range_filter (hour_range w)
                                                       (shared_table w csv)))
                     ++ " tweets found**")%string]).
      rewrite !app_assoc. apply last_last.
    + intros df Hin.
      destruct (date_range_filter_filtered w csv) as (out & E).
      rewrite E in Hin. cbn [fst] in Hin.
      apply in_app_or in Hin. destruct Hin as [Hin|Hin];
        [simpl in Hin;
         repeat (destruct Hin as [Hin|Hin]; [discriminate Hin|]); exact Hin|].
      apply in_app_or in Hin. destruct Hin as [Hin|Hin].
      { unfold date_range_filter in E.
        destruct (selected_dates w) as [|a [|b [|c l]]]; inversion E;
          subst out; simpl in Hin;
          repeat (destruct Hin as [Hin|Hin]; [discriminate Hin|]); exact Hin. }
      apply in_app_or in Hin. destruct Hin as [Hin|Hin];
        [|simpl in Hin;
          repeat (destruct Hin as [Hin|Hin]; [discriminate Hin|]); exact Hin].
      unfold overview in Hin. simpl in Hin.
      destruct (String.eqb (viz_type w) "Bar plot"); simpl in Hin;
        repeat (destruct Hin as [Hin|Hin]; [discriminate Hin|]); exact Hin.
Qed.

End RunFacts.

Lemma text_analysis_outcome_witness :
  word_sentiment sample_widgets <> EmptyString /\
  text_analysis sample_stopwords never_collocation draw_all no_png ascii_db
    sample_widgets (shared_table sample_widgets sample_csv)
  = ([Header main "Textual Analysis"; Subheader main "Word Cloud Settings";
      Subheader main "Generated Word Cloud"; Pyplot sample_cloud;
      DownloadButton main "Download Word Cloud" (no_png sample_cloud)
        "positive_wordcloud.png" "image/png"], Ok tt).
Proof.
  assert (H : word_sentiment sample_widgets <> EmptyString) by discriminate.
  split; [exact H|].
  refine (proj1 (text_analysis_outcome sample_stopwords never_collocation
            draw_all no_png ascii_db sample_widgets
            (shared_table sample_widgets sample_csv) H) sample_cloud _).
  vm_compute. reflexivity.
Defined.

Lemma run_outcome_witness :
  word_sentiment sample_widgets <> EmptyString /\
  records sample_csv <> [] /\
  defaults_present (shared_table sample_widgets sample_csv) /\
  snd (sample_pass sample_widgets sample_csv ok_response) = Ok tt /\
  snd (sample_pass sample_widgets plain_csv ok_response)
    <> Ok tt.
Proof.
  assert (H : word_sentiment sample_widgets <> EmptyString) by discriminate.
  assert (R : records sample_csv <> []) by discriminate.
  assert (P : defaults_present (shared_table sample_widgets sample_csv)).
  { intros v Hv. unfold default_airlines in Hv.
    destruct Hv as [<-|[<-|[<-|[]]]]; vm_compute; auto. }
  split; [exact H|]. split; [exact R|]. split; [exact P|]. split.
  - apply (proj1 (run_outcome sample_stopwords never_collocation draw_all
                    no_png ascii_db png_only sample_widgets sample_csv
                    ok_response H)).
    split; [exact R|]. split; [vm_compute; reflexivity|].
    split; [exact P|]. split; [|vm_compute; reflexivity].
    exists sample_cloud. vm_compute. reflexivity.
  - intros O.
    apply (proj1 (run_outcome sample_stopwords never_collocation draw_all
                    no_png ascii_db png_only sample_widgets plain_csv
                    ok_response H)) in O.
    destruct O as (_ & M & _). vm_compute in M. discriminate M.
Defined.

Lemma overview_shown_map_when_accepted_witness :
  records plain_csv <> [] /\
  (exists msg,
     snd (sample_pass sample_widgets plain_csv ok_response)
     = Raise (StreamlitAPIException msg)) /\
  List.last (fst (sample_pass sample_widgets plain_csv ok_response))
            (Title main EmptyString)
  = Markdown main "**3 tweets found**".
Proof.
  assert (R : records plain_csv <> []) by discriminate.
  pose proof (overview_shown_map_when_accepted sample_stopwords
                never_collocation draw_all no_png ascii_db png_only
                sample_widgets plain_csv ok_response R) as H.
  cbv zeta in H. destruct H as (_ & _ & _ & _ & Hstop).
  split; [exact R|].
  destruct (snd (st_map (hour_range_filter (hour_range sample_widgets)
                           (shared_table sample_widgets plain_csv))))
    as [[]|e] eqn:Em; [vm_compute in Em; discriminate Em|].
  destruct (Hstop e eq_refl) as (Hs & Hl & _).
  split.
  - vm_compute. eexists. reflexivity.
  - unfold sample_pass. rewrite Hl. vm_compute. reflexivity.
Defined.

(** A run on a file without records stops at the date picker. *)
Lemma empty_file_stops_at_picker :
  sample_pass sample_widgets empty_csv ok_response
  = (fst intro, Raise date_input_error).
Proof. vm_compute. reflexivity. Qed.

(** ** X14, X15: more on the word cloud *)

Lemma pairwise_fst (words : list Unicode.ustring)
    (p : Unicode.ustring * Unicode.ustring) :
  In p (WordCloud.pairwise words) -> In (fst p) words.
Proof.
  unfold WordCloud.pairwise. destruct p as [a b]. intros H.
  apply in_combine_l in H. exact H.
Qed.

(** X14. A text in which every word is a stopword (in any case), a number
    or punctuation, the empty text included, gives no cloud: the generation
    raises the [ValueError] "We need at least 1 word to plot a word cloud".
    The words are those the library finds in the characters of the text:
    runs of letters, digits, underscores and apostrophes that start with
    none of the latter, without a final 's. *)
Theorem cloud_of_stopwords_raises (db : Unicode.Database)
    (is_collocation : Z -> Z -> Z -> Z -> bool)
    (drawn : WordCloud.counts -> nat) (cfg : WordCloud.config) (text : string)
    (Hall : forall word, In word (cloud_words db text) ->
                         is_stopword db (WordCloud.stopwords cfg) word) :
  WordCloud.generate db is_collocation drawn cfg text = Raise no_words_error.
Proof.
  unfold WordCloud.generate, WordCloud.process_text.
  change (filter (fun word => negb (Unicode.isdigit db word))
            (map (WordCloud.strip_possessive db)
                 (WordCloud.findall db (Unicode.decode_utf8 text) [])))
    with (cloud_words db text).
  cbv zeta. unfold WordCloud.unigrams_and_bigrams. cbv zeta.
  rewrite (filter_none _ (cloud_words db text)).
  - rewrite (filter_none _ (WordCloud.pairwise (cloud_words db text))).
    + reflexivity.
    + intros p Hp. apply pairwise_fst in Hp. apply Hall in Hp.
      apply umem_In in Hp. unfold is_stopword in *. rewrite Hp. reflexivity.
  - intros word Hw. apply Hall in Hw. apply umem_In in Hw. rewrite Hw.
    reflexivity.
Qed.

Lemma cloud_of_stopwords_raises_witness :
  cloud_words ascii_db "RT the ✈ 2015 http://co ... it’s"
    = map Unicode.decode_utf8 ["RT"; "the"; "http"; "co"; "it"; "s"] /\
  (forall word, In word (cloud_words ascii_db "RT the ✈ 2015 http://co ...") ->
     is_stopword ascii_db
       (WordCloud.stopwords (wordcloud_config sample_stopwords sample_widgets))
       word) /\
  WordCloud.generate ascii_db never_collocation draw_all
    (wordcloud_config sample_stopwords sample_widgets)
    "RT the ✈ 2015 http://co ..."
  = Raise no_words_error.
Proof.
  assert (H : forall word,
     In word (cloud_words ascii_db "RT the ✈ 2015 http://co ...") ->
     is_stopword ascii_db
       (WordCloud.stopwords (wordcloud_config sample_stopwords sample_widgets))
       word).
  { intros word Hw. vm_compute in Hw.
    destruct Hw as [<-|[<-|[<-|[<-|[]]]]]; vm_compute; auto 12. }
  split; [vm_compute; reflexivity|]. split; [exact H|].
  exact (cloud_of_stopwords_raises ascii_db never_collocation draw_all _ _ H).
Defined.

(** *** Lower case of texts without a capital sigma *)

Section SigmaFree.
Variable db : Unicode.Database.

Lemma do_lower_sigma_free (before x y : Unicode.ustring) :
  ~ In Unicode.CAPITAL_SIGMA x ->
  Unicode.do_lower db before (x ++ y)
  = flat_map (Unicode.tolower db) x ++ Unicode.do_lower db (rev x ++ before) y.
Proof.
  revert before. induction x as [|c x IH]; intros before H; [reflexivity|].
  cbn [app Unicode.do_lower flat_map rev].
  assert (Hc : (c =? Unicode.CAPITAL_SIGMA) = false).
  { apply Z.eqb_neq. intros E. apply H. simpl. auto. }
  rewrite Hc, IH, <- !app_assoc by (intros Hx; apply H; simpl; auto).
  reflexivity.
Qed.

(** A text whose lower-case form is ASCII holds no capital sigma. *)
Lemma ascii_lower_sigma_free (before x : Unicode.ustring) :
  CloudProps.all_ascii (Unicode.do_lower db before x) ->
  ~ In Unicode.CAPITAL_SIGMA x.
Proof.
  revert before. induction x as [|c x IH]; intros before H; [tauto|].
  cbn [Unicode.do_lower] in H. intros [E|Hin].
  - subst c. rewrite Z.eqb_refl in H.
    assert (A : Unicode.is_ascii
                  (Unicode.handle_capital_sigma db before x) = true)
      by (apply H; simpl; auto).
    unfold Unicode.handle_capital_sigma in A. destruct (_ && _); discriminate A.
  - apply (IH (c :: before)); [|exact Hin].
    intros y Hy. apply H. apply in_or_app. right. exact Hy.
Qed.

(** Dropping a final s or S commutes with [lower] on such a text. *)
Lemma lower_removelast_s (k : Unicode.ustring) (c : Unicode.codepoint) :
  c = 115 \/ c = 83 ->
  CloudProps.all_ascii (Unicode.lower db k) ->
  removelast (Unicode.lower db (k ++ [c])) = Unicode.lower db k.
Proof.
  intros Hc Ha. unfold Unicode.lower in *.
  pose proof (ascii_lower_sigma_free [] k Ha) as Hs.
  assert (E0 : Unicode.do_lower db [] k = flat_map (Unicode.tolower db) k).
  { pose proof (do_lower_sigma_free [] k [] Hs) as E.
    cbn [Unicode.do_lower] in E. rewrite !app_nil_r in E. exact E. }
  rewrite (do_lower_sigma_free [] k [c] Hs), E0.
  cbn [Unicode.do_lower]. rewrite app_nil_r.
  destruct (s_is_ascii c Hc) as [Hi Hl].
  rewrite (ascii_not_sigma c Hi). unfold Unicode.tolower at 2.
  rewrite Hi, Hl. apply removelast_snoc.
Qed.

Lemma do_lower_keeps_blank (before s : Unicode.ustring) :
  In WordCloud.space s -> In WordCloud.space (Unicode.do_lower db before s).
Proof.
  revert before. induction s as [|c s IH]; intros before; [tauto|].
  cbn [Unicode.do_lower]. intros [E|H]; apply in_or_app.
  - left. subst c. simpl. auto.
  - right. apply IH. exact H.
Qed.

Lemma ascii_tolower_blank (c : Unicode.codepoint) :
  Unicode.ascii_tolower c = WordCloud.space -> c = WordCloud.space.
Proof.
  unfold Unicode.ascii_tolower, Unicode.ascii_upper, WordCloud.space.
  destruct ((65 <=? c) && (c <=? 90)) eqn:E; [|auto].
  apply andb_true_iff in E. rewrite !Z.leb_le in E. lia.
Qed.

Lemma ascii_tolower_ascii (c : Unicode.codepoint) :
  Unicode.is_ascii c = true -> Unicode.is_ascii (Unicode.ascii_tolower c) = true.
Proof.
  unfold Unicode.ascii_tolower, Unicode.ascii_upper, Unicode.is_ascii.
  destruct ((65 <=? c) && (c <=? 90)) eqn:E; [|auto].
  apply andb_true_iff in E. rewrite !Z.leb_le in E. rewrite !Z.ltb_lt. lia.
Qed.

Hypothesis Hdb : CloudProps.lower_s_only_from_s db.
Variable stops : list string.
Hypothesis Hstops : forall s, In s stops -> CloudProps.ascii_word s.

(** The lower-case form of a stopword is ASCII and holds no blank. *)
Lemma lowered_stop_ascii (s : string) :
  In s stops ->
  CloudProps.all_ascii (Unicode.lower db (Unicode.decode_utf8 s)) /\
  ~ In WordCloud.space (Unicode.lower db (Unicode.decode_utf8 s)).
Proof.
  intros Hs. destruct (decode_ascii_word s (Hstops s Hs)) as [Ha Hn].
  rewrite (lower_ascii db _ Ha). split.
  - intros c Hc. apply in_map_iff in Hc. destruct Hc as (x & <- & Hx).
    apply ascii_tolower_ascii, Ha, Hx.
  - intros Hc. apply in_map_iff in Hc. destruct Hc as (x & E & Hx).
    apply ascii_tolower_blank in E. subst x. contradiction.
Qed.

Lemma unigram_not_stopword_any_case (unigrams : list Unicode.ustring)
    (key k : Unicode.ustring) :
  (forall w, In w unigrams ->
     Unicode.mem (Unicode.lower db w)
       (map (fun i => Unicode.lower db (Unicode.decode_utf8 i)) stops) = false) ->
  (exists w0, In w0 unigrams /\ Unicode.lower db w0 = key) ->
  CloudProps.origin db unigrams key k ->
  ~ is_stopword db stops k.
Proof.
  intros Hu (w0 & Hw0 & Ek) Ho Hin. unfold is_stopword in Hin.
  pose proof Hin as Ht. apply umem_In in Ht.
  destruct Ho as [[Hk _]|(v & Hv & Ev & Hp & Ekey)].
  - rewrite (Hu k Hk) in Ht. discriminate Ht.
  - assert (El : Unicode.lower db k = key).
    { unfold WordCloud.is_plural in Hp. apply andb_true_iff in Hp.
      destruct Hp as [Hp _].
      destruct (lower_ends_with_s db Hdb v Hp) as (x & c & -> & Hc).
      rewrite removelast_snoc in Ev. subst x.
      apply in_map_iff in Hin. destruct Hin as (s & Es & Hs).
      destruct (lowered_stop_ascii s Hs) as [Ha _]. rewrite Es in Ha.
      rewrite Ekey. symmetry. apply lower_removelast_s; assumption. }
    rewrite El, <- Ek, (Hu w0 Hw0) in Ht. discriminate Ht.
Qed.

Lemma bigram_not_stopword_any_case
    (bigrams : list (Unicode.ustring * Unicode.ustring))
    (key k : Unicode.ustring) :
  CloudProps.origin db (map WordCloud.join_bigram bigrams) key k ->
  ~ is_stopword db stops k.
Proof.
  intros Ho Hin. apply (bigram_has_blank db Hdb) in Ho.
  unfold is_stopword in Hin. apply in_map_iff in Hin.
  destruct Hin as (s & Es & Hs).
  destruct (lowered_stop_ascii s Hs) as [_ Hn]. apply Hn. rewrite Es.
  apply do_lower_keeps_blank. exact Ho.
Qed.

End SigmaFree.

Lemma Sorted_firstn {A} (R : A -> A -> Prop) (n : nat) (l : list A) :
  Sorted R l -> Sorted R (firstn n l).
Proof.
  revert l. induction n as [|n IH]; intros l H; [constructor|].
  destruct l as [|x l]; [constructor|].
  inversion H as [|? ? Hs Hh]. subst. simpl. constructor; [apply IH; exact Hs|].
  destruct n; [constructor|]. destruct Hh; simpl; constructor. assumption.
Qed.

(** X15. The words of a generated cloud are ranked and none is a stopword
    in any spelling: no word of the cloud equals a stopword after both are
    put in lower case (so neither RT nor rt, http nor HTTP can appear), every
    word has a positive count, the counts never increase along the ranking,
    the cloud is not empty, and the words drawn are the first ones of the
    ranking.  The stopwords are assumed to be ASCII words without a blank;
    of the Unicode tables the one fact used is that no character outside
    ASCII has a lower-case form that is empty or ends with the letter s. *)
Theorem cloud_is_ranked_and_clean (db : Unicode.Database)
    (is_collocation : Z -> Z -> Z -> Z -> bool)
    (drawn : WordCloud.counts -> nat) (cfg : WordCloud.config) (text : string)
    (wc : WordCloud.cloud)
    (Hstops : forall s, In s (WordCloud.stopwords cfg) ->
                        CloudProps.ascii_word s)
    (Hdb : CloudProps.lower_s_only_from_s db)
    (Hgen : WordCloud.generate db is_collocation drawn cfg text = Ok wc) :
  (forall e c, In (e, c) (WordCloud.words_ wc) ->
     ~ is_stopword db (WordCloud.stopwords cfg) e /\ 0 < c) /\
  descending (WordCloud.words_ wc) /\
  WordCloud.words_ wc <> [] /\
  (exists rest, WordCloud.words_ wc = WordCloud.layout_ wc ++ rest) /\
  WordCloud.settings wc = cfg.
Proof.
  unfold WordCloud.generate, WordCloud.process_text in Hgen.
  destruct (WordCloud.unigrams_and_bigrams _ _ _ _) as [counted|] eqn:Ec;
    simpl in Hgen; [|discriminate].
  pose proof (unigrams_and_bigrams_keys db is_collocation _ _ _
                (fun k => ~ is_stopword db (WordCloud.stopwords cfg) k)
                (unigram_not_stopword_any_case db Hdb _ Hstops)
                (bigram_not_stopword_any_case db Hdb _ Hstops) Ec) as Hk.
  destruct (generate_from_frequencies_words _ _ _ _ Hgen)
    as (Hset & Hwords & Hlayout & Hne).
  assert (Hs : descending (Seq.sort (fun a b : Unicode.ustring * Z =>
                                       snd b <=? snd a) counted)).
  { apply (sort_Sorted (fun a b : Unicode.ustring * Z => snd b <=? snd a)).
    - intros a b H. apply Z.leb_le. exact H.
    - intros a b H. apply Z.leb_gt in H. lia. }
  split; [|split; [|split; [|split]]].
  - intros e c H. rewrite Hwords in H. apply slice_to_In in H.
    apply (Permutation_in _ (Permutation_sym (sort_perm _ _))) in H.
    apply (Hk e c H).
  - rewrite Hwords. unfold WordCloud.slice_to.
    destruct (WordCloud.max_words cfg <? 0); apply Sorted_firstn; exact Hs.
  - exact Hne.
  - rewrite Hlayout. eexists. symmetry. apply firstn_skipn.
  - exact Hset.
Qed.

Lemma cloud_is_ranked_and_clean_witness :
  (forall s, In s (WordCloud.stopwords
                     (wordcloud_config sample_stopwords sample_widgets)) ->
             CloudProps.ascii_word s) /\
  CloudProps.lower_s_only_from_s ascii_db /\
  WordCloud.generate ascii_db never_collocation draw_all
    (wordcloud_config sample_stopwords sample_widgets) sample_text
  = Ok sample_cloud /\
  descending (WordCloud.words_ sample_cloud) /\
  (forall e c, In (e, c) (WordCloud.words_ sample_cloud) ->
     ~ is_stopword ascii_db
         (WordCloud.stopwords
            (wordcloud_config sample_stopwords sample_widgets)) e
     /\ 0 < c).
Proof.
  assert (H1 : forall s, In s (WordCloud.stopwords
                     (wordcloud_config sample_stopwords sample_widgets)) ->
             CloudProps.ascii_word s).
  { intros s Hs.
    apply (set_update_In s sample_stopwords custom_stopwords) in Hs.
    destruct Hs as [Hs|Hs];
      [apply sample_stopwords_ascii|apply custom_stopwords_ascii]; exact Hs. }
  assert (H2 : WordCloud.generate ascii_db never_collocation draw_all
                 (wordcloud_config sample_stopwords sample_widgets) sample_text
               = Ok sample_cloud) by (vm_compute; reflexivity).
  pose proof (cloud_is_ranked_and_clean ascii_db never_collocation draw_all
                _ _ _ H1 ascii_db_lower H2) as (Hc & Hd & _).
  split; [exact H1|]. split; [exact ascii_db_lower|].
  split; [exact H2|]. split; [exact Hd|exact Hc].
Defined.

(** ** X16: weekly buckets group by week *)

Lemma isoformat_inj (a b : Calendar.date) (s t : string) :
  valid_date a -> valid_date b ->
  0 <= year a < 10000 -> 0 <= year b < 10000 ->
  (isoformat a ++ s)%string = (isoformat b ++ t)%string -> a = b.
Proof.
  intros Va Vb Ya Yb E.
  pose proof (isoformat_compare a b s t Va Vb Ya Yb) as C.
  rewrite E, string_compare_refl in C.
  apply date_compare_eq. unfold lex in C.
  destruct (date_compare a b); [reflexivity|discriminate C|discriminate C].
Qed.

(** X16. Two valid timestamps get the same weekly label exactly when their
    dates lie in the same Monday-to-Sunday week, that is when the Mondays on
    or before them are the same day; the label names that Monday and the
    Sunday six days later. *)
Theorem weekly_label_same_week (t1 t2 : Timestamp)
    (V1 : valid_timestamp t1) (V2 : valid_timestamp t2) :
  bucket "Weekly" t1 = bucket "Weekly" t2 <->
  week_start (dt_date t1) = week_start (dt_date t2).
Proof.
  destruct V1 as (Vd1 & Vy1 & _), V2 as (Vd2 & Vy2 & _).
  destruct (week_start_spec _ Vd1) as (Vs1 & Os1 & _ & Ys1).
  destruct (week_start_spec _ Vd2) as (Vs2 & Os2 & _ & Ys2).
  destruct (week_end_spec _ Vd1) as (Ve1 & Oe1 & _).
  destruct (week_end_spec _ Vd2) as (Ve2 & Oe2 & _).
  change (bucket "Weekly" t1) with (LWeek (week_label (dt_date t1))).
  change (bucket "Weekly" t2) with (LWeek (week_label (dt_date t2))).
  split.
  - intros H.
    pose proof (f_equal (fun l => match l with
                                  | LWeek s => s
                                  | _ => EmptyString
                                  end) H) as E.
    cbv beta iota in E. unfold week_label in E.
    apply isoformat_inj in E; try assumption;
      unfold dt_date in *; cbn [year] in *; lia.
  - intros E. unfold week_label. rewrite E.
    assert (week_end (dt_date t1) = week_end (dt_date t2)) as ->;
      [|reflexivity].
    apply toordinal_inj; try assumption. rewrite Oe1, Oe2, E. reflexivity.
Qed.

Lemma weekly_label_same_week_witness :
  valid_timestamp (mkts 2015 2 20 23 10 0) /\
  valid_timestamp (mkts 2015 2 22 9 0 0) /\
  bucket "Weekly" (mkts 2015 2 20 23 10 0)
    = bucket "Weekly" (mkts 2015 2 22 9 0 0).
Proof.
  assert (V1 : valid_timestamp (mkts 2015 2 20 23 10 0))
    by (repeat split; vm_compute; intros H; discriminate H).
  assert (V2 : valid_timestamp (mkts 2015 2 22 9 0 0))
    by (repeat split; vm_compute; intros H; discriminate H).
  split; [exact V1|]. split; [exact V2|].
  apply (proj2 (weekly_label_same_week _ _ V1 V2)).
  vm_compute. reflexivity.
Defined.

(** ** C9: the CSV export, read back *)

Import Delimited.

Lemma append_snoc (a b : string) (c : ascii) :
  (snoc a c ++ b)%string = (a ++ String c b)%string.
Proof.
  unfold snoc. induction a as [|x a IH]; simpl; [reflexivity|].
  rewrite IH. reflexivity.
Qed.

Lemma concat_cons (x : string) (xs : list string) :
  String.concat EmptyString (x :: xs)
  = (x ++ String.concat EmptyString xs)%string.
Proof.
  destruct xs as [|y ys]; simpl; [|reflexivity].
  symmetry. apply string_append_empty.
Qed.

Lemma needs_quotes_cons (c : ascii) (s : string) :
  Csv.needs_quotes (String c s) = false ->
  plain_char c /\ Csv.needs_quotes s = false.
Proof.
  unfold Csv.needs_quotes, plain_char. cbn [Str.contains].
  destruct (Ascii.eqb c Csv.comma), (Ascii.eqb c Csv.dquote),
    (Ascii.eqb c Csv.newline); simpl;
    rewrite ?orb_true_r; try discriminate.
  intros H. auto.
Qed.

(** Reading the inside of a quoted field up to its closing quote. *)
Lemma read_escaped (s field : string) (record : list string) (rest : string) :
  read InQuotedField field record
       (Csv.escape s ++ String Csv.dquote rest)
  = read QuoteInQuotedField (field ++ s) record rest.
Proof.
  revert field. induction s as [|c s IH]; intros field.
  - simpl. rewrite string_append_empty. reflexivity.
  - cbn [Csv.escape]. destruct (Ascii.eqb c Csv.dquote) eqn:E.
    + apply Ascii.eqb_eq in E. subst c.
      cbn [append read]. rewrite Ascii.eqb_refl, IH, append_snoc.
      reflexivity.
    + cbn [append read]. rewrite E, IH, append_snoc. reflexivity.
Qed.

(** Reading a plain field. *)
Lemma read_plain (s field : string) (record : list string) (rest : string) :
  Csv.needs_quotes s = false ->
  read InField field record (s ++ rest)
  = read InField (field ++ s) record rest.
Proof.
  revert field. induction s as [|c s IH]; intros field H.
  - simpl. rewrite string_append_empty. reflexivity.
  - destruct (needs_quotes_cons c s H) as [(Hc & Hq & Hn) Hs].
    cbn [append read]. rewrite Hn, Hc, IH, append_snoc by exact Hs.
    reflexivity.
Qed.

(** A written field followed by the delimiter, from the start of a record
    or of a field. *)
Lemma read_field_comma (st : state) (s : string) (record : list string)
    (rest : string) :
  st = StartRecord \/ st = StartField ->
  read st EmptyString record (Csv.field s ++ String Csv.comma rest)
  = read StartField EmptyString (record ++ [s]) rest.
Proof.
  intros Hst. unfold Csv.field. destruct (Csv.needs_quotes s) eqn:Q.
  - assert (E : read st EmptyString record
                  (String Csv.dquote
                     (Csv.escape s ++ String Csv.dquote EmptyString)
                   ++ String Csv.comma rest)
                = read InQuotedField EmptyString record
                    (Csv.escape s ++ String Csv.dquote (String Csv.comma rest))).
    { cbn [append]. rewrite string_append_assoc. cbn [append].
      destruct Hst as [-> | ->]; reflexivity. }
    rewrite E, read_escaped. reflexivity.
  - destruct s as [|c s].
    + destruct Hst as [-> | ->]; reflexivity.
    + destruct (needs_quotes_cons c s Q) as [(Hc & Hq & Hn) Hs].
      assert (E : read st EmptyString record
                    (String c s ++ String Csv.comma rest)
                  = read InField (String c EmptyString) record
                      (s ++ String Csv.comma rest)).
      { destruct Hst as [-> | ->]; cbn [append read]; rewrite Hn, Hc, Hq;
          reflexivity. }
      rewrite E, read_plain by exact Hs. cbn [append read].
      reflexivity.
Qed.

(** A written field followed by the line terminator.  At the start of a
    record the field must not be the empty text written without quotes. *)
Lemma read_field_newline (st : state) (s : string) (record : list string)
    (rest : string) :
  st = StartField \/ (st = StartRecord /\ s <> EmptyString) ->
  read st EmptyString record (Csv.field s ++ String Csv.newline rest)
  = (record ++ [s]) :: read StartRecord EmptyString [] rest.
Proof.
  intros Hst. unfold Csv.field. destruct (Csv.needs_quotes s) eqn:Q.
  - assert (E : read st EmptyString record
                  (String Csv.dquote
                     (Csv.escape s ++ String Csv.dquote EmptyString)
                   ++ String Csv.newline rest)
                = read InQuotedField EmptyString record
                    (Csv.escape s ++ String Csv.dquote (String Csv.newline rest))).
    { cbn [append]. rewrite string_append_assoc. cbn [append].
      destruct Hst as [-> | [-> _]]; reflexivity. }
    rewrite E, read_escaped. reflexivity.
  - destruct s as [|c s].
    + destruct Hst as [-> | [_ N]]; [reflexivity|contradiction].
    + destruct (needs_quotes_cons c s Q) as [(Hc & Hq & Hn) Hs].
      assert (E : read st EmptyString record
                    (String c s ++ String Csv.newline rest)
                  = read InField (String c EmptyString) record
                      (s ++ String Csv.newline rest)).
      { destruct Hst as [-> | [-> _]]; cbn [append read]; rewrite Hn, Hc, Hq;
          reflexivity. }
      rewrite E, read_plain by exact Hs. cbn [append read].
      reflexivity.
Qed.

(** The fields of a record after the first one. *)
Lemma read_fields (s : string) (fields record : list string) (rest : string) :
  read StartField EmptyString record
       (Str.join (String Csv.comma EmptyString) (map Csv.field (s :: fields))
        ++ String Csv.newline rest)
  = (record ++ s :: fields) :: read StartRecord EmptyString [] rest.
Proof.
  revert s record. induction fields as [|s' fields IH]; intros s record.
  - cbn [map Str.join]. apply read_field_newline. auto.
  - change (Str.join (String Csv.comma EmptyString)
              (map Csv.field (s :: s' :: fields)))
      with (Csv.field s ++ String Csv.comma EmptyString
            ++ Str.join (String Csv.comma EmptyString)
                 (map Csv.field (s' :: fields)))%string.
    rewrite !string_append_assoc. cbn [append].
    rewrite read_field_comma by auto. rewrite IH, <- app_assoc. reflexivity.
Qed.

(** One written line reads back as its fields. *)
Lemma read_line (fields : list string) (rest : string) :
  records_of (Csv.line fields ++ rest) = fields :: records_of rest.
Proof.
  unfold records_of.
  destruct fields as [|s [|s' fields]].
  - reflexivity.
  - destruct s as [|c s]; [reflexivity|].
    change (Csv.line [String c s])
      with (Csv.field (String c s) ++ String Csv.newline EmptyString)%string.
    rewrite string_append_assoc. cbn [append].
    rewrite read_field_newline; [reflexivity|].
    right. split; [reflexivity|discriminate].
  - assert (E : Csv.line (s :: s' :: fields)
                = (Csv.field s ++ String Csv.comma
                     (Str.join (String Csv.comma EmptyString)
                        (map Csv.field (s' :: fields))
                      ++ String Csv.newline EmptyString))%string).
    { unfold Csv.line. destruct s; cbn [map Str.join];
        rewrite !string_append_assoc; reflexivity. }
    rewrite E, !string_append_assoc. cbn [append].
    rewrite read_field_comma by auto.
    rewrite string_append_assoc. cbn [append]. rewrite read_fields.
    reflexivity.
Qed.

Lemma read_lines (lines : list (list string)) :
  records_of (String.concat EmptyString (map Csv.line lines)) = lines.
Proof.
  induction lines as [|l lines IH]; [reflexivity|].
  cbn [map]. rewrite concat_cons, read_line, IH. reflexivity.
Qed.

(** The text [to_csv] writes reads back as the table: its column names and
    the cells of its rows. *)
Lemma to_csv_read_back (data : DataFrame) :
  records_of (Csv.to_csv data) = table data.
Proof.
  unfold Csv.to_csv, table.
  rewrite <- (read_lines (columns data
                 :: map (fun r => map (Csv.cell r) (columns data)) (rows data))).
  cbn [map]. rewrite map_map. reflexivity.
Qed.

Lemma decode_encode (s : string) : decode (Str.encode_utf8 s) = s.
Proof. apply string_of_list_byte_of_string. Qed.

Section ExportClaim.
Variable STOPWORDS : list string.
Variable is_collocation : Z -> Z -> Z -> Z -> bool.
Variable drawn : WordCloud.counts -> nat.
Variable savefig : WordCloud.cloud -> list Byte.byte.
Variable db : Unicode.Database.
Variable image_error : list Byte.byte -> option string.

(** C9. When the download button is clicked, the export shows one download
    button named airline_tweets.csv and returns nothing else (the table is
    only read).  The bytes it offers are the UTF-8 bytes of a delimited
    text that reads back as the table it was given: one record with the
    column names, then one record per row with the cells of that row, in
    order.  In a run of the script that completes, that table is the shared
    table: the date-filtered table with the time column, whose records are
    those of the loaded table that lie in the selected range, not all of
    them.  For a table without rows the text is the header line alone and
    reads back as the record of the column names. *)
Theorem export_serialises_filtered_table (w : Widgets) (csv : CsvFile)
    (http : Requests.outcome) (data : DataFrame)
    (Hclick : download_clicked w = true) :
  let run := render_pass STOPWORDS is_collocation drawn savefig db image_error
                         w csv http in
  (exists bytes,
     data_export w data
       = ([Markdown sidebar "---"; Header sidebar "Data Export";
           DownloadButton sidebar "Download CSV" bytes "airline_tweets.csv"
                          "text/csv"], Ok tt) /\
     records_of (decode bytes) = table data) /\
  (snd run = Ok tt ->
   exists bytes,
     In (DownloadButton sidebar "Download CSV" bytes "airline_tweets.csv"
                        "text/csv") (fst run) /\
     records_of (decode bytes) = table (shared_table w csv)) /\
  (forall lo hi, selected_dates w = [lo; hi] ->
     map tweet (rows (shared_table w csv))
     = map tweet (filter (fun r => in_date_rangeb lo hi (derived_date r))
                         (rows (load_data csv))) /\
     columns (shared_table w csv)
     = add_column "time" (add_column "date" (header csv))) /\
  (rows data = [] ->
   Csv.to_csv data = Csv.line (columns data) /\
   records_of (Csv.to_csv data) = [columns data]).
Proof.
  cbv zeta. split; [|split; [|split]].
  - exists (Str.encode_utf8 (Csv.to_csv data)).
    split; [apply data_export_clicked; exact Hclick|].
    rewrite decode_encode. apply to_csv_read_back.
  - intros Hret.
    assert (Hrec : records csv <> []).
    { intros E.
      rewrite (render_pass_no_records _ _ _ _ _ _ _ _ _ E) in Hret.
      discriminate Hret. }
    rewrite (render_pass_script _ _ _ _ _ _ _ _ _ Hrec) in *.
    exists (Str.encode_utf8 (Csv.to_csv (shared_table w csv))). split.
    + apply script_shows_export; [exact Hret|].
      rewrite (data_export_clicked w _ Hclick). simpl. auto.
    + rewrite decode_encode. apply to_csv_read_back.
  - intros lo hi Hsel. split.
    + unfold shared_table, setitem_time. simpl rows.
      rewrite assign_time_tweets. unfold filtered_table. rewrite Hsel.
      cbn [date_range_filter ret snd getitem_mask rows].
      rewrite (date_mask_rows _ lo hi (load_data_date_derived csv)).
      reflexivity.
    + unfold shared_table, setitem_time. cbn [columns].
      rewrite filtered_table_columns. reflexivity.
  - intros Hrows. split; [apply to_csv_no_rows; exact Hrows|].
    rewrite to_csv_read_back. unfold table. rewrite Hrows. reflexivity.
Qed.

End ExportClaim.

(** C9 at a run that completes: the file holds four tweets, the selection
    2015-02-20 to 2015-02-22 keeps three of them, and the export reads back
    as those three with their date and their week; and at the table of a
    selection without tweets. *)
Lemma export_serialises_filtered_table_witness :
  download_clicked sample_widgets = true /\
  snd (sample_pass sample_widgets week_csv ok_response) = Ok tt /\
  len (load_data week_csv) = 4 /\
  (exists bytes,
     In (DownloadButton sidebar "Download CSV" bytes "airline_tweets.csv"
                        "text/csv")
        (fst (sample_pass sample_widgets week_csv ok_response)) /\
     records_of (decode bytes)
     = [ ["tweet_id"; "airline_sentiment"; "airline"; "text"; "tweet_created";
          "latitude"; "longitude"; "date"; "time"];
         ["1"; "positive"; "United"; "RT great flight, thanks http://t.co/x";
          "2015-02-20 23:10:00-08:00"; "35.88"; "-84.05"; "2015-02-20";
          "2015-02-16/2015-02-22"];
         ["2"; "negative"; "American"; "late flights again";
          "2015-02-21 01:05:30-08:00"; "35.88"; "-84.05"; "2015-02-21";
          "2015-02-16/2015-02-22"];
         ["3"; "negative"; "Delta"; "lost my bag";
          "2015-02-22 09:00:00-08:00"; "35.88"; "-84.05"; "2015-02-22";
          "2015-02-16/2015-02-22"] ]) /\
  rows (shared_table gap_widgets gap_csv) = [] /\
  records_of (Csv.to_csv (shared_table gap_widgets gap_csv))
  = [ ["tweet_id"; "airline_sentiment"; "airline"; "text"; "tweet_created";
       "latitude"; "longitude"; "date"; "time"] ].
Proof.
  pose proof (export_serialises_filtered_table sample_stopwords
                never_collocation draw_all no_png ascii_db png_only
                sample_widgets week_csv ok_response
                (shared_table gap_widgets gap_csv) eq_refl) as H.
  cbv zeta in H. destruct H as (_ & Hrun & _ & Hzero).
  assert (O : snd (sample_pass sample_widgets week_csv ok_response) = Ok tt)
    by (vm_compute; reflexivity).
  assert (Z0 : rows (shared_table gap_widgets gap_csv) = [])
    by (vm_compute; reflexivity).
  split; [reflexivity|]. split; [exact O|]. split; [reflexivity|].
  split; [|split; [exact Z0|]].
  - destruct (Hrun O) as (bytes & Hin & Hrec).
    exists bytes. split; [exact Hin|]. rewrite Hrec. vm_compute. reflexivity.
  - rewrite (proj2 (Hzero Z0)). vm_compute. reflexivity.
Defined.
